(** * x402 payment protocol for agent-to-agent commerce: Algorand path

    A shallow embedding of the payment-requirements builder
    ([core/merchant.ts]), the Algorand signer ([core/algorand-wallet.ts] and
    the client wallet [AlgorandLocalWallet]), the local verifier and the
    settler ([core/algorand-facilitator.ts]) together with the chain adapter
    they call ([core/algorand-utils.ts]), and of the resolution of NFD names
    ([core/nfd-resolver.ts]).

    JavaScript values are modelled as the code uses them: a [number] is an
    IEEE-754 binary64 float ([spec_float] at precision 53), a [bigint] is a
    [Z], a string is a [string] whose characters are read as code units
    below 256.  Thrown errors are carried by an explicit result type, and
    the calls to the algod node thread an explicit world that also logs
    every call made. *)

From Stdlib Require Import ZArith Bool List String Ascii Lia.
From Stdlib Require Import Floats.SpecFloat.
From Stdlib Require Import DecimalString.
Import ListNotations.

Local Open Scope string_scope.
Local Open Scope Z_scope.

(** ** JavaScript numbers and strings *)

Module JS.

(** *** Strings *)

Fixpoint startsWith (s prefix : string) : bool :=
  match prefix, s with
  | EmptyString, _ => true
  | String c p, String d t => Ascii.eqb c d && startsWith t p
  | String _ _, EmptyString => false
  end.

(** [s.slice(1)] *)
Definition slice1 (s : string) : string :=
  match s with
  | EmptyString => EmptyString
  | String _ t => t
  end.

(** [s.includes(needle)] *)
Fixpoint includes (s needle : string) : bool :=
  startsWith s needle ||
  match s with
  | EmptyString => false
  | String _ t => includes t needle
  end.

(** The white space and line terminator code units below 256:
    TAB, LF, VT, FF, CR, SP and NBSP. *)
Definition isWhiteSpace (c : ascii) : bool :=
  let n := nat_of_ascii c in
  (Nat.eqb n 9 || Nat.eqb n 10 || Nat.eqb n 11 || Nat.eqb n 12 ||
   Nat.eqb n 13 || Nat.eqb n 32 || Nat.eqb n 160)%bool.

Fixpoint trimStart (s : string) : string :=
  match s with
  | String c t => if isWhiteSpace c then trimStart t else s
  | EmptyString => EmptyString
  end.

Fixpoint all_white (s : string) : bool :=
  match s with
  | EmptyString => true
  | String c t => isWhiteSpace c && all_white t
  end.

Fixpoint trimEnd (s : string) : string :=
  match s with
  | EmptyString => EmptyString
  | String c t => if all_white s then EmptyString else String c (trimEnd t)
  end.

Definition trim (s : string) : string := trimEnd (trimStart s).

(** Value of a digit character in a radix up to 16. *)
Definition digit_value (radix : Z) (c : ascii) : option Z :=
  let n := Z.of_nat (nat_of_ascii c) in
  let v :=
    if (48 <=? n) && (n <=? 57) then Some (n - 48)
    else if (97 <=? n) && (n <=? 102) then Some (n - 87)
    else if (65 <=? n) && (n <=? 70) then Some (n - 55)
    else None in
  match v with
  | Some d => if d <? radix then Some d else None
  | None => None
  end.

(** Longest prefix of digits of [s] in [radix]: its value, how many
    digits it has, and the rest of the string. *)
Fixpoint read_digits (radix : Z) (s : string) (acc : Z) (count : nat)
  : Z * nat * string :=
  match s with
  | String c t =>
      match digit_value radix c with
      | Some d => read_digits radix t (acc * radix + d) (S count)
      | None => (acc, count, s)
      end
  | EmptyString => (acc, count, s)
  end.

(** Optional sign: [true] when a minus sign was read. *)
Definition read_sign (s : string) : bool * string :=
  match s with
  | String "-" t => (true, t)
  | String "+" t => (false, t)
  | _ => (false, s)
  end.

Definition string_of_Z (z : Z) : string :=
  NilZero.string_of_int (Z.to_int z).

Fixpoint zeros (n : nat) : string :=
  match n with
  | O => EmptyString
  | S k => String "0" (zeros k)
  end.

Fixpoint take (n : nat) (s : string) : string :=
  match n, s with
  | S k, String c t => String c (take k t)
  | _, _ => EmptyString
  end.

Fixpoint drop (n : nat) (s : string) : string :=
  match n, s with
  | S k, String _ t => drop k t
  | _, _ => s
  end.

(** *** Numbers: IEEE-754 binary64 *)

Definition prec : Z := 53.
Definition emax : Z := 1024.

Definition Number : Type := spec_float.

Definition NaN : Number := S754_nan.
Definition Infinity : Number := S754_infinity false.

(** The integer [z] rounded to the nearest double, ties to even. *)
Definition Number_of_Z (z : Z) : Number :=
  binary_normalize prec emax z 0 false.

(** The quotient [num / den] rounded once to the nearest double. *)
Definition Number_of_ratio (neg : bool) (num : Z) (den : positive) : Number :=
  match num with
  | Zpos _ =>
      let '(q, e, l) := SFdiv_core_binary prec emax num 0 (Zpos den) 0 in
      binary_round_aux prec emax neg q e l
  | _ => S754_zero neg
  end.

(** The decimal [m * 10^e], with [0 <= m], rounded to the nearest double. *)
Definition Number_of_decimal (neg : bool) (m e : Z) : Number :=
  if 0 <=? e then
    match m * 10 ^ e with
    | Z0 => S754_zero neg
    | v => binary_normalize prec emax (if neg then - v else v) 0 neg
    end
  else Number_of_ratio neg m (Z.to_pos (10 ^ (- e))).

Definition mul (x y : Number) : Number := SFmul prec emax x y.
Definition div (x y : Number) : Number := SFdiv prec emax x y.
Definition add (x y : Number) : Number := SFadd prec emax x y.

(** [x === y] on numbers *)
Definition strict_eq (x y : Number) : bool := SFeqb x y.
(** [x < y] and [x > y] on numbers *)
Definition lt (x y : Number) : bool := SFltb x y.
Definition gt (x y : Number) : bool := SFltb y x.

(** Truthiness of a number: everything but zeros and NaN. *)
Definition truthy (x : Number) : bool :=
  match x with
  | S754_zero _ | S754_nan => false
  | _ => true
  end.

(** [Math.floor] *)
Definition Math_floor (x : Number) : Number :=
  match x with
  | S754_finite s m e =>
      if 0 <=? e then x
      else binary_normalize prec emax
             (Z.shiftr (if s then Zneg m else Zpos m) (- e)) 0 s
  | _ => x
  end.

(** [Math.ceil] *)
Definition Math_ceil (x : Number) : Number :=
  SFopp (Math_floor (SFopp x)).

(** The mathematical value of an integral finite number. *)
Definition to_Z (x : Number) : option Z :=
  match x with
  | S754_zero _ => Some 0
  | S754_finite s m e =>
      let v := if s then Zneg m else Zpos m in
      if 0 <=? e then Some (v * 2 ^ e)
      else if v mod 2 ^ (- e) =? 0 then Some (v / 2 ^ (- e))
      else None
  | _ => None
  end.

(** *** Number::toString in radix 10

    A positive finite double [m * 2^e] is printed with the fewest
    significant digits that still round back to it.  All comparisons
    are made on integers: the double, the two ends of its rounding
    interval and the decimal candidates are scaled by a common power
    of two. *)

(** Numerators of the double and of the ends of its rounding interval,
    and their common denominator. *)
Definition rounding_interval (m : positive) (e : Z) : Z * Z * Z * Z :=
  let lowgap_half :=
    (Pos.eqb m (Pos.iter xO xH (Z.to_pos (prec - 1)))) &&
    (emin prec emax <? e) in
  let x := 4 * Zpos m in
  let lo := if lowgap_half then x - 1 else x - 2 in
  let hi := x + 2 in
  if 0 <=? e - 2 then
    let sc := 2 ^ (e - 2) in (x * sc, lo * sc, hi * sc, 1)
  else (x, lo, hi, 2 ^ (2 - e)).

(** [c * 10^k] compared with [n / d]. *)
Definition cmp_dec (c k n d : Z) : comparison :=
  if 0 <=? k then (c * 10 ^ k * d ?= n)
  else (c * d ?= n * 10 ^ (- k)).

(** [floor ((n / d) / 10^k)] *)
Definition floor_dec (n d k : Z) : Z :=
  if 0 <=? k then n / (d * 10 ^ k) else (n * 10 ^ (- k)) / d.

(** The largest [p] with [10^p <= n / d], searched downwards from an
    estimate that is never too small. *)
Fixpoint log10_down (fuel : nat) (n d p : Z) : Z :=
  match fuel with
  | O => p
  | S f =>
      match cmp_dec 1 p n d with
      | Gt => log10_down f n d (p - 1)
      | _ => p
      end
  end.

Definition log10_floor (n d : Z) : Z :=
  let b := Z.log2 n - Z.log2 d in
  log10_down 8 n d ((b + 1) * 30103 / 100000 + 1).

Fixpoint strip_zeros (fuel : nat) (s k : Z) : Z * Z :=
  match fuel with
  | O => (s, k)
  | S f => if (s mod 10 =? 0) && (0 <? s)
           then strip_zeros f (s / 10) (k + 1) else (s, k)
  end.

(** Try [digits], [digits + 1], ... significant digits; return the
    digit string value [s] and the exponent [k] with [s * 10^k] the
    printed decimal. *)
Fixpoint shortest (fuel : nat) (digits : Z) (even_m : bool)
         (x lo hi d p : Z) : Z * Z :=
  let k := p - digits + 1 in
  let c1 := floor_dec x d k in
  let c2 := c1 + 1 in
  let inside c :=
    match cmp_dec c k lo d, cmp_dec c k hi d with
    | Gt, Lt => true
    | Eq, Lt | Gt, Eq | Eq, Eq => even_m
    | _, _ => false
    end in
  (* twice the distance of x to the midpoint of c1 and c2 *)
  let closer_to_c1 :=
    match cmp_dec (2 * c1 + 1) k (2 * x) d with
    | Gt => true
    | Lt => false
    | Eq => Z.even c1
    end in
  match fuel with
  | O => (c1, k)
  | S f =>
      match inside c1, inside c2 with
      | true, true => if closer_to_c1 then (c1, k) else (c2, k)
      | true, false => (c1, k)
      | false, true => (c2, k)
      | false, false => shortest f (digits + 1) even_m x lo hi d p
      end
  end.

Definition digits_of_positive (m : positive) (e : Z) : Z * Z :=
  let '(x, lo, hi, d) := rounding_interval m e in
  let p := log10_floor x d in
  let '(s, k) := shortest 17 1 (Z.even (Zpos m)) x lo hi d p in
  strip_zeros 400 s k.

Definition format_digits (s k : Z) : string :=
  let ds := string_of_Z s in
  let len := Z.of_nat (String.length ds) in
  let n := k + len in
  if (len <=? n) && (n <=? 21) then ds ++ zeros (Z.to_nat (n - len))
  else if (0 <? n) && (n <=? 21) then
    take (Z.to_nat n) ds ++ "." ++ drop (Z.to_nat n) ds
  else if (-6 <? n) && (n <=? 0) then
    "0." ++ zeros (Z.to_nat (- n)) ++ ds
  else
    let ex := n - 1 in
    let es := (if ex <? 0 then "-" else "+") ++ string_of_Z (Z.abs ex) in
    if len =? 1 then ds ++ "e" ++ es
    else take 1 ds ++ "." ++ drop 1 ds ++ "e" ++ es.

Definition Number_toString (x : Number) : string :=
  match x with
  | S754_nan => "NaN"
  | S754_zero _ => "0"
  | S754_infinity s => if s then "-Infinity" else "Infinity"
  | S754_finite s m e =>
      let '(d, k) := digits_of_positive m e in
      (if s then "-" else "") ++ format_digits d k
  end.

(** *** parseFloat, parseInt, BigInt *)

(** The exponent part of a decimal literal, when one is present and
    complete: [e], an optional sign and at least one digit. *)
Definition read_exponent (s : string) : Z * string :=
  match s with
  | String c t =>
      if Ascii.eqb c "e" || Ascii.eqb c "E" then
        let '(neg, t1) := read_sign t in
        let '(v, cnt, rest) := read_digits 10 t1 0 0%nat in
        match cnt with
        | O => (0, s)
        | _ => (if neg then - v else v, rest)
        end
      else (0, s)
  | EmptyString => (0, s)
  end.

(** [parseFloat]: white space is skipped, then the longest prefix that
    is a decimal literal is converted; [NaN] when there is none. *)
Definition parseFloat (input : string) : Number :=
  let '(neg, s) := read_sign (trimStart input) in
  if startsWith s "Infinity" then S754_infinity neg
  else
    let '(ip, icnt, s1) := read_digits 10 s 0 0%nat in
    let '(fp, fcnt, s2) :=
      match s1 with
      | String "." t =>
          let '(v, cnt, rest) := read_digits 10 t ip 0%nat in
          match icnt, cnt with
          | O, O => (ip, O, s1)
          | _, _ => (v, cnt, rest)
          end
      | _ => (ip, O, s1)
      end in
    match icnt, fcnt with
    | O, O => NaN
    | _, _ =>
        let '(ex, _) := read_exponent s2 in
        Number_of_decimal neg fp (ex - Z.of_nat fcnt)
    end.

(** [parseInt] without a radix argument: white space is skipped, a
    sign and a [0x] prefix are honoured, and the longest prefix of
    digits is converted; [NaN] when there is none. *)
Definition parseInt (input : string) : Number :=
  let '(neg, s) := read_sign (trimStart input) in
  let '(radix, s1) :=
    if startsWith s "0x" || startsWith s "0X"
    then (16, slice1 (slice1 s)) else (10, s) in
  let '(v, cnt, _) := read_digits radix s1 0 0%nat in
  match cnt with
  | O => NaN
  | _ => match v with
         | Z0 => S754_zero neg
         | _ => Number_of_Z (if neg then - v else v)
         end
  end.

(** [BigInt(string)]: the trimmed string is empty, a signed decimal
    integer, or an unsigned integer with a [0x], [0o] or [0b] prefix;
    [None] stands for the SyntaxError thrown otherwise. *)
Definition BigInt_of_string (input : string) : option Z :=
  let s := trim input in
  let whole radix t :=
    match read_digits radix t 0 0%nat with
    | (v, S _, EmptyString) => Some v
    | _ => None
    end in
  match s with
  | EmptyString => Some 0
  | String "0" (String c t) =>
      if Ascii.eqb c "x" || Ascii.eqb c "X" then whole 16 t
      else if Ascii.eqb c "o" || Ascii.eqb c "O" then whole 8 t
      else if Ascii.eqb c "b" || Ascii.eqb c "B" then whole 2 t
      else whole 10 s
  | _ =>
      let '(neg, t) := read_sign s in
      match whole 10 t with
      | Some v => Some (if neg then - v else v)
      | None => None
      end
  end.

Definition BigInt_toString (z : Z) : string := string_of_Z z.

End JS.

(** ** Thrown errors

    A JavaScript computation either returns or throws; the thrown value is
    represented by the text of its [message]. *)

Inductive Result (A : Type) : Type :=
| Ok (value : A)
| Throw (message : string).

Arguments Ok {A} value.
Arguments Throw {A} message.

(** Rendering of an optional string inside a template literal. *)
Definition template (o : option string) : string :=
  match o with
  | Some s => s
  | None => "undefined"
  end.

(** ** Data model ([types/state.ts], [types/config.ts])

    The two files of type declarations are not among the sources; the
    records follow the canonical wire shapes of the specification and the
    way the code reads and builds them. *)

Definition Bytes : Type := list Byte.byte.

(** Modelled from the spec: the interface [PaymentRequirements] of
    [types/state.ts], with the fields of its wire shape;
    [maxTimeoutSeconds] is a number of whole seconds, [outputSchema] an
    opaque text and [extra] a table of texts. *)
Record PaymentRequirements : Type := {
  scheme : string;
  network : string;
  asset : string;
  payTo : string;
  maxAmountRequired : string;
  resource : string;
  description : string;
  mimeType : string;
  maxTimeoutSeconds : Z;
  outputSchema : option string;
  extra : option (list (string * string))
}.

(** Modelled from the spec: the interface [AlgorandAuthorization] of
    [types/state.ts], the mirror [{ from, to, amount, assetId,
    validRounds, note }] of the signed transaction. *)
Record AlgorandAuthorization : Type := {
  auth_from : string;
  auth_to : string;
  auth_amount : string;
  auth_assetId : JS.Number;
  auth_validRounds : Z;
  auth_note : string
}.

(** Modelled from the spec: the interface [AlgorandPaymentPayload] of
    [types/state.ts], the Algorand variant of [payload.payload].  The
    verifier tests [signature] and [authorization] for presence and the
    settler falls back on an empty [txnId], so the last two may be
    missing; a missing [signature] and an empty one are both falsy. *)
Record AlgorandPaymentPayload : Type := {
  signature : string;
  authorization : option AlgorandAuthorization;
  txnId : option string
}.

(** Modelled from the spec: the interface [PaymentPayload] of
    [types/state.ts], with the Algorand variant as its [payload]. *)
Record PaymentPayload : Type := {
  x402Version : Z;
  pp_scheme : string;
  pp_network : string;
  payload : AlgorandPaymentPayload
}.

(** Modelled from the spec: the interface [VerifyResponse] of
    [types/state.ts]. *)
Record VerifyResponse : Type := {
  isValid : bool;
  payer : option string;
  invalidReason : option string
}.

(** Modelled from the spec: the interface [SettleResponse] of
    [types/state.ts]. *)
Record SettleResponse : Type := {
  success : bool;
  transaction : option string;
  sr_network : string;
  sr_payer : option string;
  errorReason : option string
}.

(** [{ ...requirements, payTo: p }] and its like. *)
Definition with_payTo (r : PaymentRequirements) (p : string)
  : PaymentRequirements :=
  {| scheme := scheme r; network := network r; asset := asset r;
     payTo := p; maxAmountRequired := maxAmountRequired r;
     resource := resource r; description := description r;
     mimeType := mimeType r; maxTimeoutSeconds := maxTimeoutSeconds r;
     outputSchema := outputSchema r; extra := extra r |}.

Definition with_maxAmountRequired (r : PaymentRequirements) (a : string)
  : PaymentRequirements :=
  {| scheme := scheme r; network := network r; asset := asset r;
     payTo := payTo r; maxAmountRequired := a;
     resource := resource r; description := description r;
     mimeType := mimeType r; maxTimeoutSeconds := maxTimeoutSeconds r;
     outputSchema := outputSchema r; extra := extra r |}.

Definition with_asset (r : PaymentRequirements) (a : string)
  : PaymentRequirements :=
  {| scheme := scheme r; network := network r; asset := a;
     payTo := payTo r; maxAmountRequired := maxAmountRequired r;
     resource := resource r; description := description r;
     mimeType := mimeType r; maxTimeoutSeconds := maxTimeoutSeconds r;
     outputSchema := outputSchema r; extra := extra r |}.

Definition with_maxTimeoutSeconds (r : PaymentRequirements) (t : Z)
  : PaymentRequirements :=
  {| scheme := scheme r; network := network r; asset := asset r;
     payTo := payTo r; maxAmountRequired := maxAmountRequired r;
     resource := resource r; description := description r;
     mimeType := mimeType r; maxTimeoutSeconds := t;
     outputSchema := outputSchema r; extra := extra r |}.

Definition with_network (r : PaymentRequirements) (n : string)
  : PaymentRequirements :=
  {| scheme := scheme r; network := n; asset := asset r;
     payTo := payTo r; maxAmountRequired := maxAmountRequired r;
     resource := resource r; description := description r;
     mimeType := mimeType r; maxTimeoutSeconds := maxTimeoutSeconds r;
     outputSchema := outputSchema r; extra := extra r |}.

(** The reason of the first check that fails, in the order of the list;
    a check is a pair of its outcome ([true] when it passes) and of the
    reason it reports. *)
Fixpoint first_failure (checks : list (bool * string)) : option string :=
  match checks with
  | [] => None
  | (ok, reason) :: rest => if ok then first_failure rest else Some reason
  end.

(** Modelled from the spec: the type [Price] of [types/config.ts], a
    currency string, a number, or a token amount whose [value] and
    [asset] the builder passes through. *)
Inductive Price : Type :=
| PriceString (s : string)
| PriceNumber (x : JS.Number)
| PriceTokenAmount (value asset : string).

(** The options of [createPaymentRequirements]; a missing option takes
    its default. *)
Record CreatePaymentRequirementsOptions : Type := {
  opt_price : Price;
  opt_payToAddress : string;
  opt_resource : string;
  opt_network : option string;
  opt_description : option string;
  opt_mimeType : option string;
  opt_scheme : option string;
  opt_maxTimeoutSeconds : option Z;
  opt_outputSchema : option string;
  opt_extra : option (list (string * string))
}.

(** ** Payment requirements ([core/merchant.ts]) *)

(** Own-property lookup in an object literal used as a table. *)
Fixpoint lookup {V : Type} (table : list (string * V)) (key : string)
  : option V :=
  match table with
  | [] => None
  | (k, v) :: rest => if String.eqb k key then Some v else lookup rest key
  end.

Definition USDC_ADDRESSES : list (string * string) :=
  [ ("base", "0x833589fCD6eDb6E08f4c7C32D4f71b54bdA02913");
    ("base-sepolia", "0x036CbD53842c5426634e7929541eC2318f3dCF7e");
    ("ethereum", "0xA0b86991c6218b36c1d19D4a2e9Eb0cE3606eB48");
    ("polygon", "0x2791Bca1f2de4661ED88A30C99A7a9449Aa84174") ].

Definition one_million : JS.Number := JS.Number_of_Z 1000000.

Definition eip712Domain_USDC : list (string * string) :=
  [ ("name", "USDC"); ("version", "2") ].

Record AtomicAmount : Type := {
  aa_maxAmountRequired : string;
  aa_assetAddress : string;
  aa_eip712Domain : option (list (string * string))
}.

Definition default {A : Type} (o : option A) (d : A) : A :=
  match o with
  | Some a => a
  | None => d
  end.

(** [USDC_ADDRESSES[network] || USDC_ADDRESSES["base-sepolia"]]: a
    missing entry and an empty string are both falsy. *)
Definition usdc_address_for (network : string) : string :=
  let fallback := default (lookup USDC_ADDRESSES "base-sepolia") "" in
  match lookup USDC_ADDRESSES network with
  | Some a => if String.eqb a "" then fallback else a
  | None => fallback
  end.

Definition processPriceToAtomicAmount (price : Price) (network : string)
  : AtomicAmount :=
  match price with
  | PriceString price =>
      let priceStr := if JS.startsWith price "$" then JS.slice1 price
                      else price in
      let priceFloat := JS.parseFloat priceStr in
      let atomicAmount :=
        JS.Number_toString (JS.Math_floor (JS.mul priceFloat one_million)) in
      {| aa_maxAmountRequired := atomicAmount;
         aa_assetAddress := usdc_address_for network;
         aa_eip712Domain := Some eip712Domain_USDC |}
  | PriceNumber price =>
      let atomicAmount :=
        JS.Number_toString (JS.Math_floor (JS.mul price one_million)) in
      {| aa_maxAmountRequired := atomicAmount;
         aa_assetAddress := usdc_address_for network;
         aa_eip712Domain := Some eip712Domain_USDC |}
  | PriceTokenAmount value asset =>
      {| aa_maxAmountRequired := value;
         aa_assetAddress := asset;
         aa_eip712Domain := None |}
  end.

(** [createPaymentRequirements] is an async function: it resolves with a
    record or rejects with an error. *)
Definition createPaymentRequirements (options : CreatePaymentRequirementsOptions)
  : Result PaymentRequirements :=
  let price := opt_price options in
  let network := default (opt_network options) "base" in
  let description := default (opt_description options) "" in
  let mimeType := default (opt_mimeType options) "application/json" in
  let scheme := default (opt_scheme options) "exact" in
  let maxTimeoutSeconds := default (opt_maxTimeoutSeconds options) 600 in
  let a := processPriceToAtomicAmount price network in
  Ok {| scheme := scheme;
        network := network;
        asset := aa_assetAddress a;
        payTo := opt_payToAddress options;
        maxAmountRequired := aa_maxAmountRequired a;
        resource := opt_resource options;
        description := description;
        mimeType := mimeType;
        maxTimeoutSeconds := maxTimeoutSeconds;
        outputSchema := opt_outputSchema options;
        extra := match opt_extra options with
                 | Some e => Some e
                 | None => aa_eip712Domain a
                 end |}.

(** *** Vocabulary for the properties of the builder *)

Definition base_sepolia_usdc : string :=
  "0x036CbD53842c5426634e7929541eC2318f3dCF7e".

(** [price.startsWith("$") ? price.slice(1) : price] *)
Definition strip_dollar (price : string) : string :=
  if JS.startsWith price "$" then JS.slice1 price else price.

(** The atomic amount of a money price [x]:
    [Math.floor(x * 1_000_000).toString()]. *)
Definition atomic_amount (x : JS.Number) : string :=
  JS.Number_toString (JS.Math_floor (JS.mul x one_million)).

(** The numeric value of a money price. *)
Definition money_value (price : Price) : option JS.Number :=
  match price with
  | PriceString s => Some (JS.parseFloat (strip_dollar s))
  | PriceNumber x => Some x
  | PriceTokenAmount _ _ => None
  end.

Definition options_for (price : Price) (net : option string)
  : CreatePaymentRequirementsOptions :=
  {| opt_price := price;
     opt_payToAddress := "MERCHANT";
     opt_resource := "/test-payment";
     opt_network := net;
     opt_description := None;
     opt_mimeType := None;
     opt_scheme := None;
     opt_maxTimeoutSeconds := None;
     opt_outputSchema := None;
     opt_extra := None |}.

(** ** The algosdk values the code reads

    The verifier reads the decoded transaction through [any], trying
    several property names for each datum, so a transaction is modelled
    as the object it sees: every property it touches may be missing, and
    a numeric property is a [number] or a [bigint]. *)

Inductive JsNumeric : Type :=
| JUndefined
| JNumber (x : JS.Number)
| JBigInt (z : Z).

Definition numeric_truthy (v : JsNumeric) : bool :=
  match v with
  | JUndefined => false
  | JNumber x => JS.truthy x
  | JBigInt z => negb (z =? 0)
  end.

(** [a || b] *)
Definition numeric_or (a b : JsNumeric) : JsNumeric :=
  if numeric_truthy a then a else b.

Infix "|||" := numeric_or (at level 50, left associativity).

Definition js_zero : JsNumeric := JNumber (S754_zero false).

(** [Number(v)] *)
Definition to_Number (v : JsNumeric) : JS.Number :=
  match v with
  | JUndefined => JS.NaN
  | JNumber x => x
  | JBigInt z => JS.Number_of_Z z
  end.

(** [String(v)], as [v.toString()] and template literals compute it for
    a defined [v]. *)
Definition numeric_toString (v : JsNumeric) : string :=
  match v with
  | JUndefined => "undefined"
  | JNumber x => JS.Number_toString x
  | JBigInt z => JS.BigInt_toString z
  end.

(** [v === n] for a number [n]: a bigint is never strictly equal to a
    number. *)
Definition numeric_strict_eq (v : JsNumeric) (n : JS.Number) : bool :=
  match v with
  | JNumber x => JS.strict_eq x n
  | _ => false
  end.

(** An address-valued property: an object with a [publicKey] property
    (possibly undefined), or a raw byte array. *)
Inductive JsAddress : Type :=
| AddrObject (publicKey : option Bytes)
| AddrBytes (raw : Bytes).

(** [a.publicKey] *)
Definition publicKey_of (a : JsAddress) : option JsAddress :=
  match a with
  | AddrObject (Some pk) => Some (AddrBytes pk)
  | _ => None
  end.

Record Transaction : Type := {
  txn_from : option JsAddress;
  txn_sender : option JsAddress;
  txn_to : option JsAddress;
  txn_receiver : option JsAddress;
  txn_assetAmount : JsNumeric;
  txn_amount : JsNumeric;
  txn_aamt : JsNumeric;
  txn_assetIndex : JsNumeric;
  txn_xaid : JsNumeric;
  txn_lastRound : JsNumeric;
  txn_lastValid : JsNumeric;
  txn_lv : JsNumeric
}.

(** [AlgorandAccount]: an address and its secret key. *)
Record AlgorandAccount : Type := {
  address : string;
  privateKey : Bytes
}.

(** Suggested parameters as the client wallet reads them; the remaining
    fields (fee, genesis id and hash) are passed through untouched. *)
Record SuggestedParams : Type := {
  firstRound : Z;
  lastRound : Z;
  sp_fee : Z;
  sp_genesisID : string
}.

(** The property names under which an argument object gives the two
    parties of a transfer: [from] and [to], or [sender] and
    [receiver]. *)
Inductive PartyKeys : Type :=
| FromTo
| SenderReceiver.

(** Argument of [makeAssetTransferTxnWithSuggestedParamsFromObject]:
    [arg_sender] and [arg_receiver] are the two parties, which the
    object gives under the names [arg_keys]. *)
Record AssetTransferArgs : Type := {
  arg_keys : PartyKeys;
  arg_sender : string;
  arg_receiver : string;
  arg_amount : Z;
  arg_assetIndex : JS.Number;
  arg_suggestedParams : SuggestedParams;
  arg_note : option Bytes
}.

(** The functions of algosdk and of the runtime that the code calls.
    They are parameters of the development. *)
Class Platform : Type := {
  (** [Buffer.from(s, "base64")] *)
  Buffer_from_base64 : string -> Bytes;
  (** [Buffer.from(bytes).toString("base64")] *)
  Buffer_toString_base64 : Bytes -> string;
  (** [new TextEncoder().encode(s)] *)
  TextEncoder_encode : string -> Bytes;
  (** [algosdk.decodeSignedTransaction(bytes).txn] *)
  decodeSignedTransaction : Bytes -> Result Transaction;
  (** [algosdk.encodeAddress(v)], also for an undefined [v] *)
  encodeAddress : option JsAddress -> Result string;
  makeAssetTransferTxnWithSuggestedParamsFromObject :
    AssetTransferArgs -> Result Transaction;
  (** [txn.signTxn(sk)] *)
  signTxn : Transaction -> Bytes -> Result Bytes;
  (** [txn.txID()] *)
  txID : Transaction -> string
}.

(** ** The chain adapter ([core/algorand-utils.ts]) *)

Record AlgorandNetworkConfig : Type := {
  algodUrl : string;
  algodToken : string;
  indexerUrl : string;
  indexerToken : string;
  genesisId : string;
  genesisHash : string
}.

Definition ALGORAND_NETWORKS : list (string * AlgorandNetworkConfig) :=
  [ ("algorand-mainnet",
     {| algodUrl := "https://mainnet-api.algonode.cloud";
        algodToken := "";
        indexerUrl := "https://mainnet-idx.algonode.cloud";
        indexerToken := "";
        genesisId := "mainnet-v1.0";
        genesisHash := "wGHE2Pwdvd7S12BL5FaOP20EGYesN73ktiC1qzkkit8=" |});
    ("algorand-testnet",
     {| algodUrl := "https://testnet-api.algonode.cloud";
        algodToken := "";
        indexerUrl := "https://testnet-idx.algonode.cloud";
        indexerToken := "";
        genesisId := "testnet-v1.0";
        genesisHash := "SGO1GKSzyE7IEPItTxCByw9x8FmnrCDexi9/cOUJOiI=" |});
    ("algorand-betanet",
     {| algodUrl := "https://betanet-api.algonode.cloud";
        algodToken := "";
        indexerUrl := "https://betanet-idx.algonode.cloud";
        indexerToken := "";
        genesisId := "betanet-v1.0";
        genesisHash := "mFgazF+2uRS1tMiL9dsj01hJGySEmPN28B/TjjvpVW0=" |}) ].

Definition isAlgorandNetwork (network : string) : bool :=
  JS.startsWith network "algorand-".

(** [getAlgodClient]: the client is determined by its configuration. *)
Definition getAlgodClient (network : string) : Result AlgorandNetworkConfig :=
  if negb (isAlgorandNetwork network) then
    Throw ("Network " ++ network ++ " is not an Algorand network")
  else
    match lookup ALGORAND_NETWORKS network with
    | None => Throw ("No configuration found for network " ++ network)
    | Some config => Ok config
    end.

(** The status of the node as the code reads it,
    [Number(status.lastRound)], for a status object that has the
    property [lastRound] with a whole value. *)
Record NodeStatus : Type := { status_lastRound : Z }.

Record PendingInfo : Type := {
  (** [None] for null or undefined *)
  confirmedRound : option Z;
  poolError : option string
}.

Record AssetHolding : Type := {
  (** the ["asset-id"] property *)
  asset_id : JsNumeric;
  holding_amount : JsNumeric
}.

Record AccountInfo : Type := { account_assets : option (list AssetHolding) }.

(** The requests sent to an algod node. *)
Inductive Call : Type :=
| CallStatus (client : AlgorandNetworkConfig)
| CallGetTransactionParams (client : AlgorandNetworkConfig)
| CallSendRawTransaction (client : AlgorandNetworkConfig) (signedTxn : Bytes)
| CallPendingTransactionInformation (client : AlgorandNetworkConfig)
                                    (txId : string)
| CallStatusAfterBlock (client : AlgorandNetworkConfig) (round : Z)
| CallAccountInformation (client : AlgorandNetworkConfig) (address : string).

(** What a node answers: each request returns or throws, and moves the
    node to a new state. *)
Class Algod (Node : Type) : Type := {
  node_status :
    AlgorandNetworkConfig -> Node -> Result NodeStatus * Node;
  node_getTransactionParams :
    AlgorandNetworkConfig -> Node -> Result SuggestedParams * Node;
  (** resolves with the [txid] of the response *)
  node_sendRawTransaction :
    AlgorandNetworkConfig -> Bytes -> Node -> Result string * Node;
  node_pendingTransactionInformation :
    AlgorandNetworkConfig -> string -> Node -> Result PendingInfo * Node;
  node_statusAfterBlock :
    AlgorandNetworkConfig -> Z -> Node -> Result unit * Node;
  node_accountInformation :
    AlgorandNetworkConfig -> string -> Node -> Result AccountInfo * Node
}.

(** ** Effects: a world that answers and records the calls to the node *)

Section Core.

Context {platform : Platform} {Node : Type} {algod : Algod Node}.

Record World : Type := {
  node : Node;
  (** every request made so far, oldest first *)
  calls : list Call
}.

(** A computation reads and updates the world, and returns or throws. *)
Definition M (A : Type) : Type := World -> Result A * World.

Definition ret {A : Type} (a : A) : M A := fun w => (Ok a, w).

Definition throw {A : Type} (message : string) : M A :=
  fun w => (Throw message, w).

Definition bind {A B : Type} (m : M A) (k : A -> M B) : M B :=
  fun w =>
    match m w with
    | (Ok a, w') => k a w'
    | (Throw e, w') => (Throw e, w')
    end.

(** [try { m } catch (error) { handler(error.message) }] *)
Definition try_catch {A : Type} (m : M A) (handler : string -> M A) : M A :=
  fun w =>
    match m w with
    | (Ok a, w') => (Ok a, w')
    | (Throw e, w') => handler e w'
    end.

Definition lift {A : Type} (r : Result A) : M A := fun w => (r, w).

Notation "x <- m ;; k" := (bind m (fun x => k))
  (at level 61, m at next level, right associativity).

(** A request: the node answers, and the call is recorded. *)
Definition request {A : Type} (c : Call)
           (answer : Node -> Result A * Node) : M A :=
  fun w =>
    let '(r, n) := answer (node w) in
    (r, {| node := n; calls := calls w ++ [c] |}).

Definition client_status (client : AlgorandNetworkConfig) : M NodeStatus :=
  request (CallStatus client) (node_status client).

Definition client_getTransactionParams (client : AlgorandNetworkConfig)
  : M SuggestedParams :=
  request (CallGetTransactionParams client) (node_getTransactionParams client).

Definition client_sendRawTransaction (client : AlgorandNetworkConfig)
           (signedTxn : Bytes) : M string :=
  request (CallSendRawTransaction client signedTxn)
          (node_sendRawTransaction client signedTxn).

Definition client_pendingTransactionInformation
           (client : AlgorandNetworkConfig) (txId : string) : M PendingInfo :=
  request (CallPendingTransactionInformation client txId)
          (node_pendingTransactionInformation client txId).

Definition client_statusAfterBlock (client : AlgorandNetworkConfig)
           (round : Z) : M unit :=
  request (CallStatusAfterBlock client round)
          (node_statusAfterBlock client round).

Definition client_accountInformation (client : AlgorandNetworkConfig)
           (address : string) : M AccountInfo :=
  request (CallAccountInformation client address)
          (node_accountInformation client address).

(** The signed envelopes submitted so far. *)
Fixpoint submitted (log : list Call) : list Bytes :=
  match log with
  | [] => []
  | CallSendRawTransaction _ b :: rest => b :: submitted rest
  | _ :: rest => submitted rest
  end.

Definition getSuggestedParams (net : string) : M SuggestedParams :=
  client <- lift (getAlgodClient net) ;;
  client_getTransactionParams client.

(** [confirmedRound !== null && confirmedRound !== undefined &&
     confirmedRound > 0] *)
Definition confirmed (pendingInfo : PendingInfo) : bool :=
  match confirmedRound pendingInfo with
  | Some r => 0 <? r
  | None => false
  end.

(** [poolError != null && poolError.length > 0] *)
Definition rejected (pendingInfo : PendingInfo) : bool :=
  match poolError pendingInfo with
  | Some e => (0 <? String.length e)%nat
  | None => false
  end.

(** One turn of the polling loop: [Some info] when the transaction is
    confirmed, [None] to keep waiting. *)
Definition poll (client : AlgorandNetworkConfig) (txId : string)
  : M (option PendingInfo) :=
  try_catch
    (pendingInfo <- client_pendingTransactionInformation client txId ;;
     if confirmed pendingInfo then ret (Some pendingInfo)
     else if rejected pendingInfo then
       throw ("Transaction rejected: " ++ template (poolError pendingInfo))
     else ret None)
    (fun message =>
       if JS.includes message "not found" then ret None
       else throw message).

(** The [while (currentRound < startRound + timeout)] loop; [remaining]
    is [startRound + timeout - currentRound]. *)
Fixpoint waitLoop (client : AlgorandNetworkConfig) (txId : string)
         (timeout : Z) (remaining : nat) (currentRound : Z)
  : M PendingInfo :=
  match remaining with
  | O =>
      throw ("Transaction not confirmed after "
               ++ JS.Number_toString (JS.Number_of_Z timeout) ++ " rounds")
  | S k =>
      r <- poll client txId ;;
      match r with
      | Some pendingInfo => ret pendingInfo
      | None =>
          _ <- client_statusAfterBlock client currentRound ;;
          waitLoop client txId timeout k (currentRound + 1)
      end
  end.

Definition waitForConfirmation (net : string) (txId : string) (timeout : Z)
  : M PendingInfo :=
  client <- lift (getAlgodClient net) ;;
  status <- client_status client ;;
  let startRound := status_lastRound status in
  waitLoop client txId timeout (Z.to_nat timeout) startRound.

(** [Math.ceil(seconds / 4.5)], computed on doubles; the quotient of a
    whole number of seconds below [2^1024] is finite and its ceiling is
    a whole number of rounds. *)
Definition four_and_a_half : JS.Number := JS.Number_of_decimal false 45 (-1).

Definition secondsToRounds (seconds : Z) : Z :=
  default
    (JS.to_Z (JS.Math_ceil (JS.div (JS.Number_of_Z seconds) four_and_a_half)))
    0.

(** ** The verifier ([core/algorand-facilitator.ts], [core/algorand-wallet.ts]) *)

(** [txn.from?.publicKey || txn.sender], the argument of
    [encodeAddress]. *)
Definition sender_key (txn : Transaction) : option JsAddress :=
  match txn_from txn with
  | Some a =>
      match publicKey_of a with
      | Some pk => Some pk
      | None => txn_sender txn
      end
  | None => txn_sender txn
  end.

(** [txn.to ? encodeAddress(txn.to.publicKey || txn.to)
           : (txn.receiver ? encodeAddress(txn.receiver) : otherwise)] *)
Definition receiver_address (txn : Transaction) (otherwise : Result string)
  : Result string :=
  match txn_to txn with
  | Some a =>
      match publicKey_of a with
      | Some pk => encodeAddress (Some pk)
      | None => encodeAddress (Some a)
      end
  | None =>
      match txn_receiver txn with
      | Some r => encodeAddress (Some r)
      | None => otherwise
      end
  end.

(** [(txn.assetAmount || txn.amount || txn.aamt || 0).toString()] *)
Definition txn_amount_string (txn : Transaction) : string :=
  numeric_toString
    (txn_assetAmount txn ||| txn_amount txn ||| txn_aamt txn ||| js_zero).

(** [txn.assetIndex || txn.xaid || 0] *)
Definition txn_asset_id (txn : Transaction) : JsNumeric :=
  txn_assetIndex txn ||| txn_xaid txn ||| js_zero.

(** [Number(txn.lastRound || txn.lastValid || txn.lv)] *)
Definition txn_lastValidRound (txn : Transaction) : JS.Number :=
  to_Number (txn_lastRound txn ||| txn_lastValid txn ||| txn_lv txn).

Definition result_bind {A B : Type} (r : Result A) (k : A -> Result B)
  : Result B :=
  match r with
  | Ok a => k a
  | Throw e => Throw e
  end.

(** The body of the [try] block of [verifyAlgorandSignature]. *)
Definition verifyAlgorandSignature_try (p : AlgorandPaymentPayload)
           (expectedSender : string) : Result bool :=
  let signedTxnBytes := Buffer_from_base64 (signature p) in
  result_bind (decodeSignedTransaction signedTxnBytes) (fun txn =>
  result_bind (encodeAddress (sender_key txn)) (fun fromAddr =>
  if negb (String.eqb fromAddr expectedSender) then Ok false
  else
    match authorization p with
    | None => Throw "Cannot read properties of undefined (reading 'to')"
    | Some auth =>
        result_bind (receiver_address txn (Ok (auth_to auth))) (fun toAddr =>
        if negb (String.eqb toAddr (auth_to auth)) then Ok false
        else
          let assetId := txn_assetIndex txn ||| txn_xaid txn in
          if match assetId with JUndefined => false | _ => true end
             && numeric_strict_eq assetId (auth_assetId auth)
          then
            let amount := txn_amount_string txn in
            if negb (String.eqb amount (auth_amount auth)) then Ok false
            else Ok true
          else Ok true)
    end)).

Definition verifyAlgorandSignature (p : AlgorandPaymentPayload)
           (expectedSender : string) : bool :=
  match verifyAlgorandSignature_try p expectedSender with
  | Ok b => b
  | Throw _ => false
  end.

Definition invalid (who : option string) (reason : string) : VerifyResponse :=
  {| isValid := false; payer := who; invalidReason := Some reason |}.

(** The body of the [try] block of [verifyAlgorandPayment]. *)
Definition verifyAlgorandPayment_try (pp : PaymentPayload)
           (requirements : PaymentRequirements) : M VerifyResponse :=
  let algorandPayload := payload pp in
  match String.eqb (signature algorandPayload) "",
        authorization algorandPayload with
  | true, _ | _, None =>
      ret (invalid None "Missing signature or authorization")
  | false, Some _ =>
      let signedTxnBytes := Buffer_from_base64 (signature algorandPayload) in
      txn <- lift (decodeSignedTransaction signedTxnBytes) ;;
      who <- lift (encodeAddress (sender_key txn)) ;;
      if negb (verifyAlgorandSignature algorandPayload who) then
        ret (invalid (Some who) "Invalid signature")
      else
      toAddr <- lift (receiver_address txn (Ok "")) ;;
      if negb (String.eqb toAddr (payTo requirements)) then
        ret (invalid (Some who)
               ("Recipient mismatch: expected " ++ payTo requirements
                  ++ ", got " ++ toAddr))
      else
      let txnAmount := txn_amount_string txn in
      if negb (String.eqb txnAmount (maxAmountRequired requirements)) then
        ret (invalid (Some who)
               ("Amount mismatch: expected " ++ maxAmountRequired requirements
                  ++ ", got " ++ txnAmount))
      else
      let expectedAssetId := JS.parseInt (asset requirements) in
      let txnAssetId := txn_asset_id txn in
      if negb (numeric_strict_eq txnAssetId expectedAssetId) then
        ret (invalid (Some who)
               ("Asset ID mismatch: expected "
                  ++ JS.Number_toString expectedAssetId
                  ++ ", got " ++ numeric_toString txnAssetId))
      else
      client <- lift (getAlgodClient (network requirements)) ;;
      status <- client_status client ;;
      let currentRound := JS.Number_of_Z (status_lastRound status) in
      let lastValidRound := txn_lastValidRound txn in
      if JS.lt lastValidRound currentRound then
        ret (invalid (Some who)
               ("Transaction expired: last valid round "
                  ++ JS.Number_toString lastValidRound
                  ++ ", current round " ++ JS.Number_toString currentRound))
      else
        ret {| isValid := true; payer := Some who; invalidReason := None |}
  end.

Definition verifyAlgorandPayment (pp : PaymentPayload)
           (requirements : PaymentRequirements) : M VerifyResponse :=
  if negb (isAlgorandNetwork (network requirements)) then
    ret (invalid None
           ("Network " ++ network requirements
              ++ " is not an Algorand network"))
  else
    try_catch (verifyAlgorandPayment_try pp requirements)
      (fun message => ret (invalid None ("Verification error: " ++ message))).

(** ** The settler ([core/algorand-facilitator.ts]) *)

Definition failure (net : string) (who : option string) (reason : string)
  : SettleResponse :=
  {| success := false; transaction := None; sr_network := net;
     sr_payer := who; errorReason := Some reason |}.

(** [algorandPayload.txnId || ""] *)
Definition txnId_or_empty (p : AlgorandPaymentPayload) : string :=
  match txnId p with
  | Some t => t
  | None => ""
  end.

(** The submission step with its own [try]/[catch]. *)
Definition submit (client : AlgorandNetworkConfig)
           (algorandPayload : AlgorandPaymentPayload) : M string :=
  let signedTxnBytes := Buffer_from_base64 (signature algorandPayload) in
  try_catch
    (client_sendRawTransaction client signedTxnBytes)
    (fun message =>
       if JS.includes message "already in ledger"
       then ret (txnId_or_empty algorandPayload)
       else throw message).

Definition settleAlgorandPayment_try (pp : PaymentPayload)
           (requirements : PaymentRequirements) : M SettleResponse :=
  let algorandPayload := payload pp in
  verifyResult <- verifyAlgorandPayment pp requirements ;;
  if negb (isValid verifyResult) then
    ret (failure (network requirements) (payer verifyResult)
           ("Verification failed: " ++ template (invalidReason verifyResult)))
  else
  client <- lift (getAlgodClient (network requirements)) ;;
  txId <- submit client algorandPayload ;;
  try_catch
    (_ <- waitForConfirmation (network requirements) txId
            (secondsToRounds (maxTimeoutSeconds requirements)) ;;
     ret {| success := true; transaction := Some txId;
            sr_network := network requirements;
            sr_payer := payer verifyResult; errorReason := None |})
    (fun message =>
       ret (failure (network requirements) (payer verifyResult)
              ("Transaction submission succeeded but confirmation failed: "
                 ++ message))).

Definition settleAlgorandPayment (pp : PaymentPayload)
           (requirements : PaymentRequirements) : M SettleResponse :=
  if negb (isAlgorandNetwork (network requirements)) then
    ret (failure (network requirements) None
           ("Network " ++ network requirements
              ++ " is not an Algorand network"))
  else
    try_catch (settleAlgorandPayment_try pp requirements)
      (fun message =>
         ret (failure (network requirements) None
                ("Settlement error: " ++ message))).

(** ** The signer ([core/algorand-wallet.ts]) *)

(** [BigInt(s)], which throws a SyntaxError on a malformed string. *)
Definition BigInt (s : string) : Result Z :=
  match JS.BigInt_of_string s with
  | Some z => Ok z
  | None => Throw ("Cannot convert " ++ s ++ " to a BigInt")
  end.

(** [description ? new TextEncoder().encode(description) : undefined] *)
Definition note_of (description : string) : option Bytes :=
  if String.eqb description "" then None
  else Some (TextEncoder_encode description).

(** The argument object that [processAlgorandPayment] hands to
    [makeAssetTransferTxnWithSuggestedParamsFromObject]. *)
Definition processAlgorandPayment_args (requirements : PaymentRequirements)
           (account : AlgorandAccount) (suggestedParams : SuggestedParams)
           (amount : Z) : AssetTransferArgs :=
  {| arg_keys := SenderReceiver;
     arg_sender := address account;
     arg_receiver := payTo requirements;
     arg_amount := amount;
     arg_assetIndex := JS.parseInt (asset requirements);
     arg_suggestedParams := suggestedParams;
     arg_note := note_of (description requirements) |}.

(** The ceiling check: the message of the error thrown when a
    [maxValue] is given and the required amount exceeds it. *)
Definition exceeds_max (requirements : PaymentRequirements)
           (maxValue : option JS.Number) : option string :=
  match maxValue with
  | Some limit =>
      let requiredAmount := JS.parseInt (maxAmountRequired requirements) in
      if JS.gt requiredAmount limit then
        Some ("Payment amount " ++ JS.Number_toString requiredAmount
                ++ " exceeds max value " ++ JS.Number_toString limit)
      else None
  | None => None
  end.

Definition processAlgorandPayment (requirements : PaymentRequirements)
           (account : AlgorandAccount) (maxValue : option JS.Number)
  : M PaymentPayload :=
  if negb (isAlgorandNetwork (network requirements)) then
    throw ("Network " ++ network requirements
             ++ " is not an Algorand network")
  else
  match exceeds_max requirements maxValue with
  | Some message => throw message
  | None =>
  suggestedParams <- getSuggestedParams (network requirements) ;;
  let assetId := JS.parseInt (asset requirements) in
  let auth :=
    {| auth_from := address account;
       auth_to := payTo requirements;
       auth_amount := maxAmountRequired requirements;
       auth_assetId := assetId;
       auth_validRounds := secondsToRounds (maxTimeoutSeconds requirements);
       auth_note := description requirements |} in
  amount <- lift (BigInt (maxAmountRequired requirements)) ;;
  txn <- lift (makeAssetTransferTxnWithSuggestedParamsFromObject
                 (processAlgorandPayment_args requirements account
                    suggestedParams amount)) ;;
  signedTxn <- lift (signTxn txn (privateKey account)) ;;
  let sig := Buffer_toString_base64 signedTxn in
  ret {| x402Version := 1;
         pp_scheme := scheme requirements;
         pp_network := network requirements;
         payload := {| signature := sig;
                       authorization := Some auth;
                       txnId := Some (txID txn) |} |}
  end.

(** ** The client wallet ([AlgorandLocalWallet]) *)

Record AlgorandLocalWallet : Type := {
  wallet_account : AlgorandAccount;
  wallet_network : string
}.

(** [assets.some(asset => asset["asset-id"] === assetId)] *)
Definition holds (assets : list AssetHolding) (assetId : JS.Number) : bool :=
  existsb (fun a => numeric_strict_eq (asset_id a) assetId) assets.

Definition isOptedIntoASA (this : AlgorandLocalWallet) (assetId : JS.Number)
  : M bool :=
  try_catch
    (if JS.strict_eq assetId (S754_zero false) then ret true
     else
       client <- lift (getAlgodClient (wallet_network this)) ;;
       accountInfo <- client_accountInformation client
                        (address (wallet_account this)) ;;
       let assets := default (account_assets accountInfo) [] in
       ret (holds assets assetId))
    (fun _ => ret false).

Definition optIntoASA (this : AlgorandLocalWallet) (assetId : JS.Number)
  : M bool :=
  try_catch
    (client <- lift (getAlgodClient (wallet_network this)) ;;
     suggestedParams <- getSuggestedParams (wallet_network this) ;;
     optInTxn <- lift (makeAssetTransferTxnWithSuggestedParamsFromObject
                         {| arg_keys := FromTo;
                            arg_sender := address (wallet_account this);
                            arg_receiver := address (wallet_account this);
                            arg_amount := 0;
                            arg_assetIndex := assetId;
                            arg_suggestedParams := suggestedParams;
                            arg_note := None |}) ;;
     signedTxn <- lift (signTxn optInTxn (privateKey (wallet_account this))) ;;
     txId <- client_sendRawTransaction client signedTxn ;;
     _ <- waitForConfirmation (wallet_network this) txId 10 ;;
     ret true)
    (fun _ => ret false).

Definition ensureOptIn (this : AlgorandLocalWallet) (assetId : JS.Number)
  : M bool :=
  try_catch
    (isOptedIn <- isOptedIntoASA this assetId ;;
     if isOptedIn then ret true else optIntoASA this assetId)
    (fun _ => ret false).

(** The argument object that [signPayment] hands to
    [makeAssetTransferTxnWithSuggestedParamsFromObject]: the suggested
    parameters are spread and [lastRound] is overwritten. *)
Definition signPayment_args (this : AlgorandLocalWallet)
           (paymentOption : PaymentRequirements)
           (suggestedParams : SuggestedParams) (amountRequired : Z)
  : AssetTransferArgs :=
  let validRounds := secondsToRounds (maxTimeoutSeconds paymentOption) in
  {| arg_keys := FromTo;
     arg_sender := address (wallet_account this);
     arg_receiver := payTo paymentOption;
     arg_amount := amountRequired;
     arg_assetIndex := JS.parseInt (asset paymentOption);
     arg_suggestedParams :=
       {| firstRound := firstRound suggestedParams;
          lastRound := firstRound suggestedParams + validRounds;
          sp_fee := sp_fee suggestedParams;
          sp_genesisID := sp_genesisID suggestedParams |};
     arg_note := note_of (description paymentOption) |}.

(** [signPayment(requirements)], where [accepts] is the list of offers
    of the payment-required response. *)
Definition signPayment (this : AlgorandLocalWallet)
           (accepts : list PaymentRequirements) : M PaymentPayload :=
  match accepts with
  | [] => throw "Cannot read properties of undefined (reading 'network')"
  | paymentOption :: _ =>
      if negb (isAlgorandNetwork (network paymentOption)) then
        throw ("Network " ++ network paymentOption
                 ++ " is not an Algorand network")
      else
      let assetId := JS.parseInt (asset paymentOption) in
      let merchantAddress := payTo paymentOption in
      amountRequired <- lift (BigInt (maxAmountRequired paymentOption)) ;;
      optedIn <- ensureOptIn this assetId ;;
      if negb optedIn then
        throw ("Failed to opt into ASA " ++ JS.Number_toString assetId
                 ++ ". Payment cannot proceed.")
      else
      suggestedParams <- getSuggestedParams (network paymentOption) ;;
      let validRounds := secondsToRounds (maxTimeoutSeconds paymentOption) in
      let auth :=
        {| auth_from := address (wallet_account this);
           auth_to := merchantAddress;
           auth_amount := JS.BigInt_toString amountRequired;
           auth_assetId := assetId;
           auth_validRounds := validRounds;
           auth_note := description paymentOption |} in
      txn <- lift (makeAssetTransferTxnWithSuggestedParamsFromObject
                     (signPayment_args this paymentOption suggestedParams
                        amountRequired)) ;;
      signedTxn <- lift (signTxn txn (privateKey (wallet_account this))) ;;
      let sig := Buffer_toString_base64 signedTxn in
      let id := txID txn in
      ret {| x402Version := 1;
             pp_scheme := scheme paymentOption;
             pp_network := network paymentOption;
             payload := {| signature := sig;
                           authorization := Some auth;
                           txnId := Some id |} |}
  end.

(** *** Vocabulary for the properties of the verifier and the settler *)

Definition valid (who : string) : VerifyResponse :=
  {| isValid := true; payer := Some who; invalidReason := None |}.

(** The answer that a list of checks calls for. *)
Definition verdict (who : string) (checks : list (bool * string))
  : VerifyResponse :=
  match first_failure checks with
  | Some reason => invalid (Some who) reason
  | None => valid who
  end.

(** The checks of the verifier on a decoded envelope, in the order
    of the specification: structure, recipient, amount, asset,
    expiration.  [who] is the sender of the envelope, [toAddr] its
    recipient and [currentRound] the round that the node reports. *)
Definition ordered_checks (p : AlgorandPaymentPayload) (who : string)
           (txn : Transaction) (toAddr : string)
           (requirements : PaymentRequirements) (currentRound : JS.Number)
  : list (bool * string) :=
  [ (verifyAlgorandSignature p who, "Invalid signature");
    (String.eqb toAddr (payTo requirements),
     "Recipient mismatch: expected " ++ payTo requirements
       ++ ", got " ++ toAddr);
    (String.eqb (txn_amount_string txn) (maxAmountRequired requirements),
     "Amount mismatch: expected " ++ maxAmountRequired requirements
       ++ ", got " ++ txn_amount_string txn);
    (numeric_strict_eq (txn_asset_id txn)
       (JS.parseInt (asset requirements)),
     "Asset ID mismatch: expected "
       ++ JS.Number_toString (JS.parseInt (asset requirements))
       ++ ", got " ++ numeric_toString (txn_asset_id txn));
    (negb (JS.lt (txn_lastValidRound txn) currentRound),
     "Transaction expired: last valid round "
       ++ JS.Number_toString (txn_lastValidRound txn)
       ++ ", current round " ++ JS.Number_toString currentRound) ].

(** The decoded envelope [txn] carries what the signer put in [args],
    as the verifier reads it. *)
Definition sdk_carries (args : AssetTransferArgs) (txn : Transaction)
  : Prop :=
  encodeAddress (sender_key txn) = Ok (arg_sender args) /\
  (forall otherwise,
      receiver_address txn otherwise = Ok (arg_receiver args)) /\
  txn_amount_string txn = JS.BigInt_toString (arg_amount args) /\
  numeric_strict_eq (txn_asset_id txn) (arg_assetIndex args) = true /\
  txn_lastValidRound txn
    = JS.Number_of_Z (lastRound (arg_suggestedParams args)).

(** The signed envelope of the payload that a signer returns. *)
Definition signature_of (res : Result PaymentPayload * World)
  : option string :=
  match fst res with
  | Ok pp => Some (signature (payload pp))
  | Throw _ => None
  end.

(** The last steps of the verifier: the current round is fetched and
    compared with the last valid round of the transaction. *)
Definition check_expiration (requirements : PaymentRequirements)
           (w : World) (who : string) (txn : Transaction)
  : Result VerifyResponse * World :=
  match getAlgodClient (network requirements) with
  | Throw e => (Ok (invalid None ("Verification error: " ++ e)), w)
  | Ok client =>
      match node_status client (node w) with
      | (Throw e, n) =>
          (Ok (invalid None ("Verification error: " ++ e)),
           {| node := n; calls := calls w ++ [CallStatus client] |})
      | (Ok st, n) =>
          (Ok (if JS.lt (txn_lastValidRound txn)
                        (JS.Number_of_Z (status_lastRound st))
               then invalid (Some who)
                      ("Transaction expired: last valid round "
                         ++ JS.Number_toString (txn_lastValidRound txn)
                         ++ ", current round "
                         ++ JS.Number_toString
                              (JS.Number_of_Z (status_lastRound st)))
               else valid who),
           {| node := n; calls := calls w ++ [CallStatus client] |})
      end
  end.

(** The world after one more request. *)
Definition after (w : World) (n : Node) (c : Call) : World :=
  {| node := n; calls := calls w ++ [c] |}.

(** What the settler does once the transaction identifier is known:
    it waits for the confirmation and reports. *)
Definition confirm (requirements : PaymentRequirements)
           (who : option string) (txId : string) (w : World)
  : Result SettleResponse * World :=
  match waitForConfirmation (network requirements) txId
          (secondsToRounds (maxTimeoutSeconds requirements)) w with
  | (Ok _, w') =>
      (Ok {| success := true; transaction := Some txId;
             sr_network := network requirements;
             sr_payer := who; errorReason := None |}, w')
  | (Throw message, w') =>
      (Ok (failure (network requirements) who
             ("Transaction submission succeeded but confirmation failed: "
                ++ message)), w')
  end.

End Core.

Arguments World Node : clear implicits.

(** ** A reference platform and node

    A small algosdk and algod node, enough to run the model on concrete
    inputs: a signed envelope is the text
    [sender|receiver|amount|assetIndex|lastRound], an address is the
    text of its key bytes, and a node keeps its round, the transactions
    it confirmed and the asset holdings it reports.  The maker takes
    the two parties under either pair of names, and a decoded
    transaction has the shape of algosdk 2.x. *)

Module Sim.

Definition bytes_of (s : string) : Bytes := list_byte_of_string s.
Definition string_of (b : Bytes) : string := string_of_list_byte b.

Fixpoint split_on (sep : ascii) (s : string) : list string :=
  match s with
  | EmptyString => [EmptyString]
  | String c t =>
      if Ascii.eqb c sep then EmptyString :: split_on sep t
      else match split_on sep t with
           | h :: r => String c h :: r
           | [] => [String c EmptyString]
           end
  end.

(** A string made of decimal digits only. *)
Definition parse_uint (s : string) : option Z :=
  match JS.read_digits 10 s 0 0%nat with
  | (v, S _, EmptyString) => Some v
  | _ => None
  end.

Definition key_text (a : option JsAddress) : option string :=
  match a with
  | Some (AddrObject (Some pk)) => Some (string_of pk)
  | _ => None
  end.

Definition uint_text (v : JsNumeric) : option string :=
  match v with
  | JBigInt z => if 0 <=? z then Some (JS.string_of_Z z) else None
  | JNumber x =>
      match JS.to_Z x with
      | Some z => if 0 <=? z then Some (JS.string_of_Z z) else None
      | None => None
      end
  | JUndefined => None
  end.

(** Canonical text of a transaction built by [make]. *)
Definition wire (txn : Transaction) : option string :=
  match key_text (txn_from txn), key_text (txn_to txn),
        uint_text (txn_amount txn), uint_text (txn_assetIndex txn),
        uint_text (txn_lastRound txn) with
  | Some f, Some t, Some a, Some i, Some l =>
      Some (f ++ "|" ++ t ++ "|" ++ a ++ "|" ++ i ++ "|" ++ l)
  | _, _, _, _, _ => None
  end.

(** An integer read back from the wire: a number when it is a safe
    integer, a bigint otherwise. *)
Definition decoded_uint (z : Z) : JsNumeric :=
  if z <? 2 ^ 53 then JNumber (JS.Number_of_Z z) else JBigInt z.

Definition make (args : AssetTransferArgs) : Result Transaction :=
  if (arg_amount args <? 0) || (2 ^ 64 <=? arg_amount args) then
    Throw "amount must be a uint64"
  else
    match JS.to_Z (arg_assetIndex args) with
    | Some i =>
        if (0 <=? i) && (i <? 2 ^ 53) then
          Ok {| txn_from := Some (AddrObject (Some (bytes_of (arg_sender args))));
                txn_sender := None;
                txn_to := Some (AddrObject (Some (bytes_of (arg_receiver args))));
                txn_receiver := None;
                txn_assetAmount := JUndefined;
                txn_amount := JBigInt (arg_amount args);
                txn_aamt := JUndefined;
                txn_assetIndex := JNumber (arg_assetIndex args);
                txn_xaid := JUndefined;
                txn_lastRound :=
                  JNumber (JS.Number_of_Z (lastRound (arg_suggestedParams args)));
                txn_lastValid := JUndefined;
                txn_lv := JUndefined |}
        else Throw "assetIndex must be a safe integer"
    | None => Throw "assetIndex must be a safe integer"
    end.

Definition sign (txn : Transaction) (sk : Bytes) : Result Bytes :=
  match wire txn with
  | Some text => Ok (bytes_of text)
  | None => Throw "cannot encode transaction"
  end.

Definition decode (b : Bytes) : Result Transaction :=
  match split_on "|" (string_of b) with
  | [f; t; a; i; l] =>
      match parse_uint a, parse_uint i, parse_uint l with
      | Some a, Some i, Some l =>
          Ok {| txn_from := Some (AddrObject (Some (bytes_of f)));
                txn_sender := None;
                txn_to := Some (AddrObject (Some (bytes_of t)));
                txn_receiver := None;
                txn_assetAmount := JUndefined;
                txn_amount := decoded_uint a;
                txn_aamt := JUndefined;
                txn_assetIndex := decoded_uint i;
                txn_xaid := JUndefined;
                txn_lastRound := decoded_uint l;
                txn_lastValid := JUndefined;
                txn_lv := JUndefined |}
      | _, _, _ => Throw "malformed signed transaction"
      end
  | _ => Throw "malformed signed transaction"
  end.

Definition encode_address (a : option JsAddress) : Result string :=
  match a with
  | Some (AddrBytes b) => Ok (string_of b)
  | _ => Throw "address must be a byte array"
  end.

Definition tx_id (txn : Transaction) : string :=
  match wire txn with
  | Some text => "TX:" ++ text
  | None => ""
  end.

#[global] Instance platform : Platform := {|
  Buffer_from_base64 := bytes_of;
  Buffer_toString_base64 := string_of;
  TextEncoder_encode := bytes_of;
  decodeSignedTransaction := decode;
  encodeAddress := encode_address;
  makeAssetTransferTxnWithSuggestedParamsFromObject := make;
  signTxn := sign;
  txID := tx_id
|}.

Record Node : Type := {
  round : Z;
  (** identifiers of the confirmed transactions, with their round *)
  ledger : list (string * Z);
  holdings : list AssetHolding
}.

Definition status (_ : AlgorandNetworkConfig) (n : Node)
  : Result NodeStatus * Node :=
  (Ok {| status_lastRound := round n |}, n).

Definition transaction_params (_ : AlgorandNetworkConfig) (n : Node)
  : Result SuggestedParams * Node :=
  (Ok {| firstRound := round n; lastRound := round n + 1000;
         sp_fee := 1000; sp_genesisID := "testnet-v1.0" |}, n).

Definition send (_ : AlgorandNetworkConfig) (b : Bytes) (n : Node)
  : Result string * Node :=
  let id := "TX:" ++ string_of b in
  match lookup (ledger n) id with
  | Some _ =>
      (Throw ("TransactionPool.Remember: transaction already in ledger: "
                ++ id), n)
  | None =>
      (Ok id, {| round := round n + 1;
                 ledger := (id, round n + 1) :: ledger n;
                 holdings := holdings n |})
  end.

Definition pending (_ : AlgorandNetworkConfig) (id : string) (n : Node)
  : Result PendingInfo * Node :=
  match lookup (ledger n) id with
  | Some r => (Ok {| confirmedRound := Some r; poolError := Some "" |}, n)
  | None => (Throw "could not find the transaction: not found", n)
  end.

Definition after_block (_ : AlgorandNetworkConfig) (r : Z) (n : Node)
  : Result unit * Node :=
  (Ok tt, {| round := Z.max (round n) (r + 1);
             ledger := ledger n; holdings := holdings n |}).

Definition account_information (_ : AlgorandNetworkConfig) (_ : string)
           (n : Node) : Result AccountInfo * Node :=
  (Ok {| account_assets := Some (holdings n) |}, n).

#[global] Instance algod : Algod Node := {|
  node_status := status;
  node_getTransactionParams := transaction_params;
  node_sendRawTransaction := send;
  node_pendingTransactionInformation := pending;
  node_statusAfterBlock := after_block;
  node_accountInformation := account_information
|}.

Definition world (r : Z) (confirmed : list (string * Z)) : World Node :=
  {| node := {| round := r; ledger := confirmed; holdings := [] |};
     calls := [] |}.

(** A world whose account holds some units of the asset [id]. *)
Definition world_holding (r : Z) (id : Z) : World Node :=
  {| node := {| round := r; ledger := [];
                holdings := [ {| asset_id := JNumber (JS.Number_of_Z id);
                                 holding_amount := JNumber (JS.Number_of_Z 5) |} ] |};
     calls := [] |}.

(** The last valid round of the envelope that a payload carries. *)
Definition last_valid_of (pp : PaymentPayload) : option Z :=
  match decode (bytes_of (signature (payload pp))) with
  | Ok txn => JS.to_Z (txn_lastValidRound txn)
  | Throw _ => None
  end.

Definition last_valid_of_result (r : Result PaymentPayload * World Node)
  : option Z :=
  match fst r with
  | Ok pp => last_valid_of pp
  | Throw _ => None
  end.

(** The running example: 0.01 USDC on TestNet. *)
Definition requirements : PaymentRequirements :=
  {| scheme := "exact";
     network := "algorand-testnet";
     asset := "10458941";
     payTo := "MERCHANT";
     maxAmountRequired := "10000";
     resource := "/test-payment";
     description := "Test payment";
     mimeType := "application/json";
     maxTimeoutSeconds := 600;
     outputSchema := None;
     extra := None |}.

Definition account : AlgorandAccount :=
  {| address := "PAYER"; privateKey := bytes_of "secret" |}.

Definition wallet : AlgorandLocalWallet :=
  {| wallet_account := account; wallet_network := "algorand-testnet" |}.

(** The payload that [account] signs for [requirements] when the node
    is at round 1000. *)
Definition signed_payload : PaymentPayload :=
  {| x402Version := 1;
     pp_scheme := "exact";
     pp_network := "algorand-testnet";
     payload :=
       {| signature := "PAYER|MERCHANT|10000|10458941|2000";
          authorization :=
            Some {| auth_from := "PAYER";
                    auth_to := "MERCHANT";
                    auth_amount := "10000";
                    auth_assetId := JS.parseInt "10458941";
                    auth_validRounds := 134;
                    auth_note := "Test payment" |};
          txnId := Some "TX:PAYER|MERCHANT|10000|10458941|2000" |} |}.

Definition testnet : AlgorandNetworkConfig :=
  default (lookup ALGORAND_NETWORKS "algorand-testnet")
    {| algodUrl := ""; algodToken := ""; indexerUrl := "";
       indexerToken := ""; genesisId := ""; genesisHash := "" |}.

Definition signed_txid : string := "TX:PAYER|MERCHANT|10000|10458941|2000".

(** The world after a first settlement of [signed_payload]. *)
Definition settled_world : World Node := world 1001 [(signed_txid, 1001)].

(** A payload whose signature is not a signed transaction. *)
Definition garbled : PaymentPayload :=
  {| x402Version := 1; pp_scheme := "exact";
     pp_network := "algorand-testnet";
     payload := {| signature := "not a signed transaction";
                   authorization := authorization (payload signed_payload);
                   txnId := None |} |}.

(** A payload whose mirror names another recipient than its envelope. *)
Definition mirror_mismatch : PaymentPayload :=
  {| x402Version := 1; pp_scheme := "exact";
     pp_network := "algorand-testnet";
     payload :=
       {| signature := "PAYER|MERCHANT|10000|10458941|2000";
          authorization :=
            Some {| auth_from := "PAYER";
                    auth_to := "SOMEONE";
                    auth_amount := "10000";
                    auth_assetId := JS.parseInt "10458941";
                    auth_validRounds := 134;
                    auth_note := "" |};
          txnId := None |} |}.

(** Requirements that differ from [requirements] in the recipient, the
    amount and the asset. *)
Definition other_requirements : PaymentRequirements :=
  with_payTo
    (with_maxAmountRequired (with_asset requirements "31566704") "99999")
    "OTHER".

End Sim.

(** ** The remaining functions of the facilitator
       ([core/algorand-facilitator.ts], [core/algorand-wallet.ts]) *)

Module Facilitator.

Section Functions.

Context {platform : Platform} {Node : Type} {algod : Algod Node}.

Notation "x <- m ;; k" := (bind m (fun x => k))
  (at level 61, m at next level, right associativity).

(** [isOptedIntoASA(network, address, assetId)]: the account is
    fetched before the asset is looked at. *)
Definition isOptedIntoASA (net : string) (addr : string)
           (assetId : JS.Number) : M bool :=
  try_catch
    (client <- lift (getAlgodClient net) ;;
     accountInfo <- client_accountInformation client addr ;;
     if JS.strict_eq assetId (S754_zero false) then ret true
     else
       let assets := default (account_assets accountInfo) [] in
       ret (holds assets assetId))
    (fun _ => ret false).

(** [submitAlgorandPayment(network, payload)]: the client is built
    outside the [try] block, the submission inside. *)
Definition submitAlgorandPayment (net : string) (p : AlgorandPaymentPayload)
  : M string :=
  if negb (isAlgorandNetwork net) then
    throw ("Network " ++ net ++ " is not an Algorand network")
  else
    client <- lift (getAlgodClient net) ;;
    try_catch
      (let signedTxnBytes := Buffer_from_base64 (signature p) in
       client_sendRawTransaction client signedTxnBytes)
      (fun message =>
         throw ("Failed to submit Algorand transaction: " ++ message)).

End Functions.

End Facilitator.

(** How often the log asks for a pending transaction. *)
Fixpoint polls (log : list Call) : nat :=
  match log with
  | [] => O
  | CallPendingTransactionInformation _ _ :: rest => S (polls rest)
  | _ :: rest => polls rest
  end.

(** ** A scripted node

    A node that answers from a script: the pending-transaction queries
    are answered by the entries of [pending_answers] in turn (and by
    "not found" once they are used up), every submission by
    [send_answer] and every account query by [account_answer]. *)

Module Script.

Record Node : Type := {
  round : Z;
  pending_answers : list (Result PendingInfo);
  send_answer : Result string;
  account_answer : Result AccountInfo
}.

Definition status (_ : AlgorandNetworkConfig) (n : Node)
  : Result NodeStatus * Node :=
  (Ok {| status_lastRound := round n |}, n).

Definition transaction_params (_ : AlgorandNetworkConfig) (n : Node)
  : Result SuggestedParams * Node :=
  (Ok {| firstRound := round n; lastRound := round n + 1000;
         sp_fee := 1000; sp_genesisID := "testnet-v1.0" |}, n).

Definition send (_ : AlgorandNetworkConfig) (_ : Bytes) (n : Node)
  : Result string * Node :=
  (send_answer n, n).

Definition pending (_ : AlgorandNetworkConfig) (_ : string) (n : Node)
  : Result PendingInfo * Node :=
  match pending_answers n with
  | [] => (Throw "transaction not found", n)
  | a :: rest =>
      (a, {| round := round n; pending_answers := rest;
             send_answer := send_answer n;
             account_answer := account_answer n |})
  end.

Definition after_block (_ : AlgorandNetworkConfig) (r : Z) (n : Node)
  : Result unit * Node :=
  (Ok tt, {| round := Z.max (round n) (r + 1);
             pending_answers := pending_answers n;
             send_answer := send_answer n;
             account_answer := account_answer n |}).

Definition account_information (_ : AlgorandNetworkConfig) (_ : string)
           (n : Node) : Result AccountInfo * Node :=
  (account_answer n, n).

#[global] Instance algod : Algod Node := {|
  node_status := status;
  node_getTransactionParams := transaction_params;
  node_sendRawTransaction := send;
  node_pendingTransactionInformation := pending;
  node_statusAfterBlock := after_block;
  node_accountInformation := account_information
|}.

Definition world (r : Z) (answers : list (Result PendingInfo))
           (sent : Result string) (acct : Result AccountInfo) : World Node :=
  {| node := {| round := r; pending_answers := answers;
                send_answer := sent; account_answer := acct |};
     calls := [] |}.

End Script.

(** ** The reference platform under each algosdk

    The reference platform takes the two parties under either pair of
    names and decodes a transaction to the shape of algosdk 2.x.
    Under algosdk 2.x the maker reads [from] and [to] only.  Under
    algosdk 3.x the maker reads [sender] and [receiver] only, and a
    decoded transaction names its sender as an Address object under
    [sender], keeps the fields of the transfer under [assetTransfer],
    and has its last valid round as the bigint [lastValid]. *)

Module Sdk2.

Definition make (args : AssetTransferArgs) : Result Transaction :=
  match arg_keys args with
  | FromTo => Sim.make args
  | SenderReceiver => Throw "address seems to be malformed: undefined"
  end.

Definition platform : Platform := {|
  Buffer_from_base64 := Sim.bytes_of;
  Buffer_toString_base64 := Sim.string_of;
  TextEncoder_encode := Sim.bytes_of;
  decodeSignedTransaction := Sim.decode;
  encodeAddress := Sim.encode_address;
  makeAssetTransferTxnWithSuggestedParamsFromObject := make;
  signTxn := Sim.sign;
  txID := Sim.tx_id
|}.

End Sdk2.

Module Sdk3.

Definition make (args : AssetTransferArgs) : Result Transaction :=
  match arg_keys args with
  | SenderReceiver => Sim.make args
  | FromTo => Throw "Address must not be null or undefined"
  end.

Definition decode (b : Bytes) : Result Transaction :=
  match Sim.split_on "|" (Sim.string_of b) with
  | [f; t; a; i; l] =>
      match Sim.parse_uint a, Sim.parse_uint i, Sim.parse_uint l with
      | Some _, Some _, Some l =>
          Ok {| txn_from := None;
                txn_sender := Some (AddrObject (Some (Sim.bytes_of f)));
                txn_to := None;
                txn_receiver := None;
                txn_assetAmount := JUndefined;
                txn_amount := JUndefined;
                txn_aamt := JUndefined;
                txn_assetIndex := JUndefined;
                txn_xaid := JUndefined;
                txn_lastRound := JUndefined;
                txn_lastValid := JBigInt l;
                txn_lv := JUndefined |}
      | _, _, _ => Throw "malformed signed transaction"
      end
  | _ => Throw "malformed signed transaction"
  end.

Definition platform : Platform := {|
  Buffer_from_base64 := Sim.bytes_of;
  Buffer_toString_base64 := Sim.string_of;
  TextEncoder_encode := Sim.bytes_of;
  decodeSignedTransaction := decode;
  encodeAddress := Sim.encode_address;
  makeAssetTransferTxnWithSuggestedParamsFromObject := make;
  signTxn := Sim.sign;
  txID := Sim.tx_id
|}.

End Sdk3.

(** *** Vocabulary for the properties of the signer *)

Definition is_digit (c : ascii) : bool :=
  let n := nat_of_ascii c in (Nat.leb 48 n && Nat.leb n 57)%bool.

(** A text made of the digits [0] to [9]. *)
Fixpoint decimal (s : string) : bool :=
  match s with
  | EmptyString => true
  | String c t => is_digit c && decimal t
  end.

(** The amount starts with the prefix of an octal or a binary literal. *)
Definition radix_prefixed (amount : string) : bool :=
  JS.startsWith amount "0o" || JS.startsWith amount "0O"
  || JS.startsWith amount "0b" || JS.startsWith amount "0B".

(** [p] holds for the whole numbers below [n]. *)
Fixpoint below (n : nat) (p : Z -> bool) : bool :=
  match n with
  | O => true
  | S k => p (Z.of_nat k) && below k p
  end.

(** The conversion of seconds into rounds gives the ceiling of
    [seconds / 4.5], that is of [2 * seconds / 9]. *)
Definition rounds_exact (seconds : Z) : bool :=
  secondsToRounds seconds =? (2 * seconds + 8) / 9.

Section Vocabulary.

Context {platform : Platform}.

(** The opt-in transaction of the wallet for an asset: a transfer of
    nothing from the account to itself. *)
Definition is_opt_in (this : AlgorandLocalWallet) (assetId : JS.Number)
           (envelope : Bytes) : Prop :=
  exists suggestedParams optInTxn,
    makeAssetTransferTxnWithSuggestedParamsFromObject
      {| arg_keys := FromTo;
         arg_sender := address (wallet_account this);
         arg_receiver := address (wallet_account this);
         arg_amount := 0;
         arg_assetIndex := assetId;
         arg_suggestedParams := suggestedParams;
         arg_note := None |} = Ok optInTxn /\
    signTxn optInTxn (privateKey (wallet_account this)) = Ok envelope.

(** algosdk 2.x reads the two parties of a transfer under [from] and
    [to]: in an argument object that names them [sender] and
    [receiver] it finds no party, and the maker throws. *)
Definition algosdk_2 : Prop :=
  forall args,
    arg_keys args = SenderReceiver ->
    exists e, makeAssetTransferTxnWithSuggestedParamsFromObject args = Throw e.

(** algosdk 3.x decodes a transaction that has no [from] and whose
    [sender] is an Address object, and its [encodeAddress] takes a
    byte array and throws on an Address object. *)
Definition algosdk_3 : Prop :=
  (forall bytes txn,
      decodeSignedTransaction bytes = Ok txn ->
      txn_from txn = None /\
      exists publicKey, txn_sender txn = Some (AddrObject publicKey)) /\
  (forall publicKey,
      exists e, encodeAddress (Some (AddrObject publicKey)) = Throw e).

End Vocabulary.

(** ** Name resolution ([core/nfd-resolver.ts])

    The NFD service is reached over HTTP.  A computation reads and
    updates the state of the service and records the URLs it fetched;
    the body of a response is a JSON value, which the code reads
    through [any]. *)

Module NFD.

#[warnings="-register-all"] Inductive Json : Type :=
| JNull
| JBool (b : bool)
| JNum (x : JS.Number)
| JStr (s : string)
| JArr (items : list Json)
| JObj (fields : list (string * Json)).

(** [data.key] for a key that no prototype defines: the own property
    of an object, undefined on the other values, and a TypeError on
    [null]. *)
Definition member (data : Json) (key : string) : Result (option Json) :=
  match data with
  | JNull =>
      Throw ("Cannot read properties of null (reading '" ++ key ++ "')")
  | JObj fields => Ok (lookup fields key)
  | _ => Ok None
  end.

(** [String(v)] for a JSON value, as a template literal computes it. *)
Fixpoint Json_toString (v : Json) : string :=
  match v with
  | JNull => "null"
  | JBool true => "true"
  | JBool false => "false"
  | JNum x => JS.Number_toString x
  | JStr s => s
  | JArr items =>
      (fix join (l : list Json) : string :=
         match l with
         | [] => ""
         | x :: rest =>
             let element :=
               match x with
               | JNull => ""
               | _ => Json_toString x
               end in
             match rest with
             | [] => element
             | _ :: _ => element ++ "," ++ join rest
             end
         end) items
  | JObj _ => "[object Object]"
  end.

(** The text of a value that may be undefined. *)
Definition text (v : option Json) : string :=
  match v with
  | Some j => Json_toString j
  | None => "undefined"
  end.

(** Truthiness of a value that may be undefined. *)
Definition truthy (v : option Json) : bool :=
  match v with
  | None | Some JNull | Some (JBool false) => false
  | Some (JStr s) => negb (String.eqb s "")
  | Some (JNum x) => JS.truthy x
  | Some _ => true
  end.

(** [v === s] for a string [s] *)
Definition is_string (v : option Json) (s : string) : bool :=
  match v with
  | Some (JStr t) => String.eqb t s
  | _ => false
  end.

(** [s.endsWith(suffix)] *)
Fixpoint endsWith (s suffix : string) : bool :=
  String.eqb s suffix ||
  match s with
  | EmptyString => false
  | String _ t => endsWith t suffix
  end.

Definition dquote : string := String "034"%char EmptyString.

Record Response : Type := {
  ok : bool;
  status : Z;
  statusText : string;
  (** [await response.json()] *)
  json : Result Json
}.

(** The functions of the runtime and of algosdk that the code calls. *)
Class Runtime : Type := {
  encodeURIComponent : string -> string;
  (** [algosdk.isValidAddress(v)] *)
  isValidAddress : Json -> Result bool
}.

(** What the service answers to a GET request for a URL; [Throw]
    stands for a rejected [fetch]. *)
Class Http (Service : Type) : Type := {
  fetch : string -> Service -> Result Response * Service
}.

Definition NFD_API_ENDPOINTS : list (string * string) :=
  [ ("algorand-mainnet", "https://api.nf.domains");
    ("algorand-testnet", "https://api.testnet.nf.domains");
    ("algorand-betanet", "https://api.testnet.nf.domains") ].

Definition isNFDName (name : string) : bool :=
  endsWith name ".algo" || JS.includes name ".algo.".

Section Functions.

Context {runtime : Runtime} {Service : Type} {http : Http Service}.

Record Web : Type := {
  service : Service;
  (** the URLs fetched so far, oldest first *)
  requests : list string
}.

Definition get (url : string) (w : Web) : Result Response * Web :=
  let '(r, s) := fetch url (service w) in
  (r, {| service := s; requests := requests w ++ [url] |}).

(** [isValidAlgorandAddress] of [core/algorand-utils.ts]. *)
Definition isValidAlgorandAddress (address : Json) : bool :=
  match isValidAddress address with
  | Ok b => b
  | Throw _ => false
  end.

(** The check of the response that [resolveNFD] and [getNFDInfo]
    share. *)
Definition checked (nfdName : string) (response : Response)
  : Result Response :=
  if negb (ok response) then
    if status response =? 404 then Throw ("NFD not found: " ++ nfdName)
    else Throw ("NFD API error: " ++ JS.string_of_Z (status response)
                  ++ " " ++ statusText response)
  else Ok response.

(** The body of the [try] block of [resolveNFD]. *)
Definition resolveNFD_try (nfdName url : string) (w : Web)
  : Result Json * Web :=
  match get url w with
  | (Throw e, w1) => (Throw e, w1)
  | (Ok response, w1) =>
      (result_bind (checked nfdName response) (fun response =>
       result_bind (json response) (fun data =>
       result_bind (member data "state") (fun state =>
       if negb (is_string state "owned") then
         Throw ("NFD " ++ dquote ++ nfdName ++ dquote
                  ++ " is not owned (state: " ++ text state
                  ++ "). Cannot resolve address.")
       else
       result_bind (member data "depositAccount") (fun address =>
       match address with
       | Some a =>
           if negb (truthy address) then
             result_bind (member data "owner") (fun owner =>
             Throw ("NFD " ++ dquote ++ nfdName ++ dquote
                      ++ " has no deposit account configured."
                      ++ " Use owner address: " ++ text owner))
           else if negb (isValidAlgorandAddress a) then
             Throw ("Resolved address is invalid: " ++ text address)
           else Ok a
       | None =>
           result_bind (member data "owner") (fun owner =>
           Throw ("NFD " ++ dquote ++ nfdName ++ dquote
                    ++ " has no deposit account configured."
                    ++ " Use owner address: " ++ text owner))
       end)))), w1)
  end.

Definition resolveNFD (nfdName : string) (network : option string)
           (w : Web) : Result Json * Web :=
  let network := default network "algorand-mainnet" in
  if negb (isNFDName nfdName) then
    (Throw ("Invalid NFD name: " ++ nfdName
              ++ ". NFD names must end with .algo"), w)
  else
    match lookup NFD_API_ENDPOINTS network with
    | None =>
        (Throw ("No NFD API endpoint configured for network: " ++ network), w)
    | Some apiEndpoint =>
        let url := apiEndpoint ++ "/nfd/" ++ encodeURIComponent nfdName in
        match resolveNFD_try nfdName url w with
        | (Ok address, w1) => (Ok address, w1)
        | (Throw message, w1) =>
            if JS.includes message "NFD" then (Throw message, w1)
            else (Throw ("Failed to resolve NFD " ++ dquote ++ nfdName
                           ++ dquote ++ ": " ++ message), w1)
        end
    end.

Definition resolveAlgorandAddress (addressOrNFD : string)
           (network : option string) (w : Web) : Result Json * Web :=
  let network := default network "algorand-mainnet" in
  if isValidAlgorandAddress (JStr addressOrNFD) then
    (Ok (JStr addressOrNFD), w)
  else if isNFDName addressOrNFD then resolveNFD addressOrNFD (Some network) w
  else
    (Throw ("Invalid Algorand address or NFD name: " ++ addressOrNFD ++ ". "
              ++ "Expected either a 58-character Algorand address"
              ++ " or an NFD name ending with .algo"), w).

Definition getNFDInfo (nfdName : string) (network : option string)
           (w : Web) : Result Json * Web :=
  let network := default network "algorand-mainnet" in
  if negb (isNFDName nfdName) then
    (Throw ("Invalid NFD name: " ++ nfdName), w)
  else
    match lookup NFD_API_ENDPOINTS network with
    | None =>
        (Throw ("No NFD API endpoint configured for network: " ++ network), w)
    | Some apiEndpoint =>
        let url := apiEndpoint ++ "/nfd/" ++ encodeURIComponent nfdName in
        match get url w with
        | (got, w1) =>
            match result_bind got (fun response =>
                  result_bind (checked nfdName response) json) with
            | Ok data => (Ok data, w1)
            | Throw message =>
                if JS.includes message "NFD" then (Throw message, w1)
                else (Throw ("Failed to get NFD info for " ++ dquote
                               ++ nfdName ++ dquote ++ ": " ++ message), w1)
            end
        end
    end.

(** The body of the [try] block of [reverseResolveNFD]; [None] stands
    for [null].  The entry [data[address]] is read as an own property
    of the body. *)
Definition reverseResolveNFD_try (address url : string) (w : Web)
  : Result (option Json) * Web :=
  match get url w with
  | (Throw e, w1) => (Throw e, w1)
  | (Ok response, w1) =>
      (if negb (ok response) then
         if status response =? 404 then Ok None
         else Throw ("NFD API error: " ++ JS.string_of_Z (status response)
                       ++ " " ++ statusText response)
       else
         result_bind (json response) (fun data =>
         result_bind (member data address) (fun nfdData =>
         match nfdData with
         | Some entry =>
             if negb (truthy nfdData) then Ok None
             else
               result_bind (member entry "name") (fun name =>
               if negb (truthy name) then Ok None else Ok name)
         | None => Ok None
         end)), w1)
  end.

Definition reverseResolveNFD (address : string) (network : option string)
           (w : Web) : Result (option Json) * Web :=
  let network := default network "algorand-mainnet" in
  if negb (isValidAlgorandAddress (JStr address)) then
    (Throw ("Invalid Algorand address: " ++ address), w)
  else
    match lookup NFD_API_ENDPOINTS network with
    | None =>
        (Throw ("No NFD API endpoint configured for network: " ++ network), w)
    | Some apiEndpoint =>
        let url := apiEndpoint ++ "/nfd/lookup?address="
                     ++ encodeURIComponent address ++ "&view=tiny" in
        match reverseResolveNFD_try address url w with
        | (Ok name, w1) => (Ok name, w1)
        | (Throw message, w1) =>
            if JS.includes message "NFD" then (Throw message, w1)
            else (Ok None, w1)
        end
    end.

End Functions.

Arguments Web Service : clear implicits.

(** *** A reference runtime and service

    A valid address is a string of 58 characters, a name is encoded
    as it stands, and the service answers from a table of URLs. *)

Module Sim.

#[global] Instance runtime : Runtime := {|
  encodeURIComponent := fun s => s;
  isValidAddress := fun v =>
    match v with
    | JStr s => Ok (Nat.eqb (String.length s) 58)
    | _ => Ok false
    end
|}.

Definition Service : Type := list (string * Response).

#[global] Instance http : Http Service := {|
  fetch := fun url s =>
    match lookup s url with
    | Some response => (Ok response, s)
    | None => (Throw "fetch failed", s)
    end
|}.

Definition merchant_address : string :=
  "MERCHANTMERCHANTMERCHANTMERCHANTMERCHANTMERCHANTMERCHANT22".

Definition found (data : Json) : Response :=
  {| ok := true; status := 200; statusText := "OK"; json := Ok data |}.

(** A service that knows the name [shop.algo] and its address. *)
Definition web : Web Service :=
  {| service :=
       [ ("https://api.testnet.nf.domains/nfd/shop.algo",
          found (JObj [ ("name", JStr "shop.algo");
                        ("owner", JStr "OWNER");
                        ("depositAccount", JStr merchant_address);
                        ("state", JStr "owned") ]));
         ("https://api.testnet.nf.domains/nfd/lookup?address="
            ++ merchant_address ++ "&view=tiny",
          found (JObj [ (merchant_address,
                         JObj [ ("name", JStr "shop.algo") ]) ])) ];
     requests := [] |}.

End Sim.

End NFD.

(** ** Further inputs for the reference platform *)

Module Cases.

(** The running payload under another version, scheme and network. *)
Definition mislabelled : PaymentPayload :=
  {| x402Version := 2;
     pp_scheme := "upto";
     pp_network := "base";
     payload := payload Sim.signed_payload |}.

(** The running requirements with other secondary fields. *)
Definition redescribed : PaymentRequirements :=
  {| scheme := "upto";
     network := "algorand-testnet";
     asset := "10458941";
     payTo := "MERCHANT";
     maxAmountRequired := "10000";
     resource := "/other";
     description := "";
     mimeType := "text/plain";
     maxTimeoutSeconds := 1;
     outputSchema := None;
     extra := None |}.

(** The running payload with an authorization that names another
    sender, no valid rounds and no note, and without a transaction
    identifier. *)
Definition other_sender : PaymentPayload :=
  {| x402Version := 1;
     pp_scheme := "exact";
     pp_network := "algorand-testnet";
     payload :=
       {| signature := "PAYER|MERCHANT|10000|10458941|2000";
          authorization :=
            Some {| auth_from := "SOMEONE";
                    auth_to := "MERCHANT";
                    auth_amount := "10000";
                    auth_assetId := JS.parseInt "10458941";
                    auth_validRounds := 0;
                    auth_note := "" |};
          txnId := None |} |}.

(** A payload whose transaction has the last valid round 0, which the
    verifier reads as a missing round. *)
Definition open_ended : PaymentPayload :=
  {| x402Version := 1;
     pp_scheme := "exact";
     pp_network := "algorand-testnet";
     payload :=
       {| signature := "PAYER|MERCHANT|10000|10458941|0";
          authorization := authorization (payload Sim.signed_payload);
          txnId := None |} |}.

(** An asset index above [2^53], which the platform decodes as a
    bigint. *)
Definition big_index : string := "9007199254740993".

Definition big_asset : PaymentPayload :=
  {| x402Version := 1;
     pp_scheme := "exact";
     pp_network := "algorand-testnet";
     payload :=
       {| signature := "PAYER|MERCHANT|10000|9007199254740993|2000";
          authorization :=
            Some {| auth_from := "PAYER";
                    auth_to := "MERCHANT";
                    auth_amount := "10000";
                    auth_assetId := JS.parseInt big_index;
                    auth_validRounds := 134;
                    auth_note := "" |};
          txnId := None |} |}.

(** The response of a settlement of the running payload. *)
Definition settled : SettleResponse :=
  {| success := true; transaction := Some Sim.signed_txid;
     sr_network := "algorand-testnet"; sr_payer := Some "PAYER";
     errorReason := None |}.

(** The running requirements with the amount 10000 written in octal. *)
Definition octal_requirements : PaymentRequirements :=
  with_maxAmountRequired Sim.requirements "0o23420".

(** What [createPaymentRequirements] builds for 0.01 dollars on
    TestNet. *)
Definition built : PaymentRequirements :=
  {| scheme := "exact";
     network := "algorand-testnet";
     asset := "0x036CbD53842c5426634e7929541eC2318f3dCF7e";
     payTo := "MERCHANT";
     maxAmountRequired := "10000";
     resource := "/test-payment";
     description := "";
     mimeType := "application/json";
     maxTimeoutSeconds := 600;
     outputSchema := None;
     extra := Some eip712Domain_USDC |}.

(** A pending transaction that the pool rejected. *)
Definition rejected_info (poolError : string) : PendingInfo :=
  {| confirmedRound := None; poolError := Some poolError |}.

(** A node whose first answer about a pending transaction is the
    rejection [answer]. *)
Definition rejecting (answer : string) : World Script.Node :=
  Script.world 1000 [Ok (rejected_info answer)] (Throw "rejected")
    (Throw "connection refused").

(** A node that cannot be reached for account queries. *)
Definition unreachable : World Script.Node :=
  Script.world 1000 [] (Throw "rejected") (Throw "connection refused").

End Cases.

(** * Properties *)

(** ** JavaScript numbers on examples *)

Example parseFloat_cents : JS.Number_toString (JS.parseFloat "0.01") = "0.01".
Proof. vm_compute. reflexivity. Qed.

Example parseFloat_not_a_number :
  JS.parseFloat "free" = JS.NaN /\ JS.parseFloat "" = JS.NaN.
Proof. split; vm_compute; reflexivity. Qed.

Example parseInt_prefix :
  JS.Number_toString (JS.parseInt " 10458941.00") = "10458941" /\
  JS.Number_toString (JS.parseInt "0x10") = "16" /\
  JS.parseInt "usdc" = JS.NaN.
Proof. repeat split; vm_compute; reflexivity. Qed.

Example BigInt_of_string_examples :
  JS.BigInt_of_string "007" = Some 7 /\
  JS.BigInt_of_string " 10000 " = Some 10000 /\
  JS.BigInt_of_string "" = Some 0 /\
  JS.BigInt_of_string "1e3" = None /\
  JS.BigInt_of_string "NaN" = None.
Proof. repeat split; vm_compute; reflexivity. Qed.

Example Number_toString_examples :
  JS.Number_toString (JS.Number_of_decimal false 1 21) = "1e+21" /\
  JS.Number_toString (JS.Number_of_decimal false 123456789 (-3))
    = "123456.789" /\
  JS.Number_toString (JS.Number_of_decimal true 5 (-7)) = "-5e-7".
Proof. repeat split; vm_compute; reflexivity. Qed.

(** The product is rounded before the floor is taken: 8.2 dollars are
    8199999 atomic units. *)
Example atomic_amount_examples :
  atomic_amount (JS.parseFloat "0.01") = "10000" /\
  atomic_amount (JS.parseFloat "1.00") = "1000000" /\
  atomic_amount (JS.parseFloat "8.2") = "8199999".
Proof. repeat split; vm_compute; reflexivity. Qed.

Example secondsToRounds_examples :
  secondsToRounds 600 = 134 /\ secondsToRounds 1200 = 267 /\
  secondsToRounds 9 = 2 /\ secondsToRounds 0 = 0.
Proof. repeat split; vm_compute; reflexivity. Qed.

(** ** Payment requirements *)

Lemma processPriceToAtomicAmount_money (price : Price) (net : string)
      (x : JS.Number) :
  money_value price = Some x ->
  processPriceToAtomicAmount price net =
    {| aa_maxAmountRequired := atomic_amount x;
       aa_assetAddress := usdc_address_for net;
       aa_eip712Domain := Some eip712Domain_USDC |}.
Proof.
  destruct price as [s | y | v a]; simpl; intros E; inversion E; reflexivity.
Qed.

(** Every network of the table gets its own entry. *)
Lemma usdc_address_for_table (net addr : string) :
  In (net, addr) USDC_ADDRESSES -> usdc_address_for net = addr.
Proof.
  simpl. intros H.
  repeat (destruct H as [H | H];
          [inversion H; subst; reflexivity | ]).
  contradiction.
Qed.

(** An Algorand network is not in the table and falls back on the USDC
    contract of Base Sepolia. *)
Lemma usdc_address_for_algorand (net : string) :
  isAlgorandNetwork net = true -> usdc_address_for net = base_sepolia_usdc.
Proof.
  unfold isAlgorandNetwork. destruct net as [| c t].
  - discriminate.
  - change (JS.startsWith (String c t) "algorand-")
      with (Ascii.eqb "a" c && JS.startsWith t "lgorand-").
    intros H. apply andb_prop in H. destruct H as [H _].
    apply Ascii.eqb_eq in H. subst c. reflexivity.
Qed.

(** C1: for a money price and a network of the static table, the
    requirements carry the atomic amount [floor(price * 1_000_000)] as a
    string and the table's asset; for an Algorand network, which the
    table lacks, the asset is the USDC contract address of Base Sepolia
    and not an ASA index. *)
Theorem createPaymentRequirements_asset_of_network
        (options : CreatePaymentRequirementsOptions) (net : string)
        (x : JS.Number) :
  opt_network options = Some net ->
  money_value (opt_price options) = Some x ->
  exists r,
    createPaymentRequirements options = Ok r /\
    maxAmountRequired r = atomic_amount x /\
    (forall addr, In (net, addr) USDC_ADDRESSES -> asset r = addr) /\
    (isAlgorandNetwork net = true -> asset r = base_sepolia_usdc).
Proof.
  intros Hnet Hprice. unfold createPaymentRequirements.
  rewrite Hnet. cbv zeta. cbn [default].
  rewrite (processPriceToAtomicAmount_money _ net x Hprice).
  eexists. split; [reflexivity |]. simpl. split; [reflexivity |].
  split.
  - intros addr Hin. now apply usdc_address_for_table.
  - apply usdc_address_for_algorand.
Qed.

(** C8: the builder validates nothing: for every price it returns a
    record, whose amount is the one [processPriceToAtomicAmount]
    computes; a zero price gives the amount ["0"], and a money price
    that is not a number gives ["NaN"]. *)
Theorem createPaymentRequirements_never_fails
        (options : CreatePaymentRequirementsOptions) :
  exists r,
    createPaymentRequirements options = Ok r /\
    maxAmountRequired r =
      aa_maxAmountRequired
        (processPriceToAtomicAmount (opt_price options)
           (default (opt_network options) "base")) /\
    (forall b, money_value (opt_price options) = Some (S754_zero b) ->
               maxAmountRequired r = "0") /\
    (money_value (opt_price options) = Some JS.NaN ->
     maxAmountRequired r = "NaN").
Proof.
  unfold createPaymentRequirements. cbv zeta.
  eexists. split; [reflexivity |].
  cbn [maxAmountRequired]. split; [reflexivity |]. split.
  - intros b H.
    rewrite (processPriceToAtomicAmount_money _ _ _ H).
    destruct b; reflexivity.
  - intros H.
    rewrite (processPriceToAtomicAmount_money _ _ _ H). reflexivity.
Qed.

(** ** The verifier, the settler and the signer *)

Section Facts.

Context {platform : Platform} {Node : Type} {algod : Algod Node}.

Implicit Types (pp : PaymentPayload) (r : PaymentRequirements)
         (w : World Node) (txn : Transaction).

Ltac unfold_m :=
  unfold bind, lift, ret, throw, try_catch, client_status,
    client_getTransactionParams, client_sendRawTransaction,
    client_pendingTransactionInformation, client_statusAfterBlock,
    client_accountInformation, request in *.

Lemma submitted_app (l1 l2 : list Call) :
  submitted (l1 ++ l2)%list = (submitted l1 ++ submitted l2)%list.
Proof.
  induction l1 as [| c l1 IH]; simpl; [reflexivity |].
  destruct c; simpl; rewrite IH; reflexivity.
Qed.


Lemma receiver_address_cases txn :
  (forall d, receiver_address txn d = receiver_address txn (Ok "")) \/
  (forall d, receiver_address txn d = d).
Proof.
  unfold receiver_address.
  destruct (txn_to txn) as [a |].
  - left. intros d. reflexivity.
  - destruct (txn_receiver txn); [left | right]; reflexivity.
Qed.

(** The verifier, one check after the other. *)
Lemma verifyAlgorandPayment_equation pp r w :
  verifyAlgorandPayment pp r w =
    if negb (isAlgorandNetwork (network r)) then
      (Ok (invalid None
             ("Network " ++ network r ++ " is not an Algorand network")), w)
    else if String.eqb (signature (payload pp)) "" then
      (Ok (invalid None "Missing signature or authorization"), w)
    else
    match authorization (payload pp) with
    | None => (Ok (invalid None "Missing signature or authorization"), w)
    | Some _ =>
    match decodeSignedTransaction
            (Buffer_from_base64 (signature (payload pp))) with
    | Throw e => (Ok (invalid None ("Verification error: " ++ e)), w)
    | Ok txn =>
    match encodeAddress (sender_key txn) with
    | Throw e => (Ok (invalid None ("Verification error: " ++ e)), w)
    | Ok who =>
    if negb (verifyAlgorandSignature (payload pp) who) then
      (Ok (invalid (Some who) "Invalid signature"), w)
    else
    match receiver_address txn (Ok "") with
    | Throw e => (Ok (invalid None ("Verification error: " ++ e)), w)
    | Ok toAddr =>
    if negb (String.eqb toAddr (payTo r)) then
      (Ok (invalid (Some who)
             ("Recipient mismatch: expected " ++ payTo r
                ++ ", got " ++ toAddr)), w)
    else if negb (String.eqb (txn_amount_string txn) (maxAmountRequired r))
    then
      (Ok (invalid (Some who)
             ("Amount mismatch: expected " ++ maxAmountRequired r
                ++ ", got " ++ txn_amount_string txn)), w)
    else if negb (numeric_strict_eq (txn_asset_id txn)
                    (JS.parseInt (asset r)))
    then
      (Ok (invalid (Some who)
             ("Asset ID mismatch: expected "
                ++ JS.Number_toString (JS.parseInt (asset r))
                ++ ", got " ++ numeric_toString (txn_asset_id txn))), w)
    else check_expiration r w who txn
    end end end end.
Proof.
  unfold verifyAlgorandPayment, verifyAlgorandPayment_try, check_expiration.
  destruct (isAlgorandNetwork (network r)); [| reflexivity]. cbn [negb].
  unfold_m.
  destruct (String.eqb (signature (payload pp)) ""); [reflexivity |].
  destruct (authorization (payload pp)); [| reflexivity].
  destruct (decodeSignedTransaction _) as [txn | e]; [| reflexivity].
  destruct (encodeAddress (sender_key txn)) as [who | e]; [| reflexivity].
  destruct (verifyAlgorandSignature (payload pp) who); [| reflexivity].
  cbn [negb].
  destruct (receiver_address txn (Ok "")) as [toAddr | e]; [| reflexivity].
  destruct (String.eqb toAddr (payTo r)); [| reflexivity].
  destruct (String.eqb (txn_amount_string txn) (maxAmountRequired r));
    [| reflexivity].
  destruct (numeric_strict_eq (txn_asset_id txn) (JS.parseInt (asset r)));
    [| reflexivity].
  cbn [negb].
  destruct (getAlgodClient (network r)) as [client | e]; [| reflexivity].
  unfold after.
  destruct (node_status client (node w)) as [[st | e] n]; [| reflexivity].
  destruct (JS.lt _ _); reflexivity.
Qed.

(** The verifier never throws, and it asks the node for its status at
    most. *)
Lemma verifyAlgorandPayment_effects pp r w :
  exists v w1,
    verifyAlgorandPayment pp r w = (Ok v, w1) /\
    (w1 = w \/ exists client n, w1 = after w n (CallStatus client)).
Proof.
  rewrite verifyAlgorandPayment_equation. unfold check_expiration, after.
  repeat match goal with
         | |- context [match ?x with _ => _ end] => destruct x
         end;
    eauto 8.
Qed.

Lemma verifyAlgorandPayment_submits_nothing pp r w res w1 :
  verifyAlgorandPayment pp r w = (res, w1) ->
  submitted (calls w1) = submitted (calls w).
Proof.
  intros H.
  destruct (verifyAlgorandPayment_effects pp r w)
    as (v & w2 & E & [-> | (client & n & ->)]);
    rewrite E in H; inversion H; subst; [reflexivity |].
  unfold after. cbn [calls]. rewrite submitted_app. simpl.
  apply app_nil_r.
Qed.

(** What a valid answer tells about the payload. *)
Lemma verifyAlgorandPayment_valid_inv pp r w v w1 :
  verifyAlgorandPayment pp r w = (Ok v, w1) ->
  isValid v = true ->
  exists auth txn who client st n,
    isAlgorandNetwork (network r) = true /\
    String.eqb (signature (payload pp)) "" = false /\
    authorization (payload pp) = Some auth /\
    decodeSignedTransaction (Buffer_from_base64 (signature (payload pp)))
      = Ok txn /\
    encodeAddress (sender_key txn) = Ok who /\
    verifyAlgorandSignature (payload pp) who = true /\
    receiver_address txn (Ok "") = Ok (payTo r) /\
    txn_amount_string txn = maxAmountRequired r /\
    numeric_strict_eq (txn_asset_id txn) (JS.parseInt (asset r)) = true /\
    getAlgodClient (network r) = Ok client /\
    node_status client (node w) = (Ok st, n) /\
    JS.lt (txn_lastValidRound txn) (JS.Number_of_Z (status_lastRound st))
      = false /\
    v = valid who /\
    w1 = after w n (CallStatus client).
Proof.
  rewrite verifyAlgorandPayment_equation. unfold check_expiration.
  intros H Hv.
  repeat match type of H with
         | context [match ?x with _ => _ end] => destruct x eqn:?
         end;
    inversion H; subst; try discriminate Hv.
  repeat match goal with
         | E : negb _ = false |- _ => apply negb_false_iff in E
         | E : String.eqb _ _ = true |- _ => apply String.eqb_eq in E
         end.
  subst. do 6 eexists. repeat split; eauto.
Qed.


(** ** Totality of the verifier *)

(** C9: the verifier always returns an answer and never throws; an
    error thrown inside its [try] block, such as a signed transaction
    that does not decode, becomes an invalid answer whose reason is
    the message behind ["Verification error: "]. *)
Theorem verifyAlgorandPayment_total pp r w :
  (exists v w1, verifyAlgorandPayment pp r w = (Ok v, w1)) /\
  (forall e w1,
      isAlgorandNetwork (network r) = true ->
      verifyAlgorandPayment_try pp r w = (Throw e, w1) ->
      verifyAlgorandPayment pp r w
        = (Ok (invalid None ("Verification error: " ++ e)), w1)) /\
  (forall auth e,
      isAlgorandNetwork (network r) = true ->
      String.eqb (signature (payload pp)) "" = false ->
      authorization (payload pp) = Some auth ->
      decodeSignedTransaction (Buffer_from_base64 (signature (payload pp)))
        = Throw e ->
      verifyAlgorandPayment pp r w
        = (Ok (invalid None ("Verification error: " ++ e)), w)).
Proof.
  split; [| split].
  - destruct (verifyAlgorandPayment_effects pp r w) as (v & w1 & E & _).
    eauto.
  - intros e w1 Hnet Htry. unfold verifyAlgorandPayment.
    rewrite Hnet. cbn [negb]. unfold try_catch. rewrite Htry.
    reflexivity.
  - intros auth e Hnet Hsig Hauth Hdec.
    rewrite verifyAlgorandPayment_equation, Hnet, Hsig, Hauth, Hdec.
    reflexivity.
Qed.

(** ** Settlement after a failed verification *)

(** C3: when the verifier rejects, the settler fails with the
    verifier's reason and payer and leaves the world as the verifier
    left it, so that nothing is submitted.  On an Algorand network the
    reason comes behind ["Verification failed: "]; on any other
    network the settler stops at its own network guard, whose message
    is the verifier's reason without a prefix. *)
Theorem settleAlgorandPayment_refuses_unverified pp r w v w1 :
  verifyAlgorandPayment pp r w = (Ok v, w1) ->
  isValid v = false ->
  settleAlgorandPayment pp r w
    = (Ok (failure (network r) (payer v)
             ((if isAlgorandNetwork (network r)
               then "Verification failed: " else "")
                ++ template (invalidReason v))), w1) /\
  submitted (calls w1) = submitted (calls w).
Proof.
  intros Hver Hinvalid. split.
  - unfold settleAlgorandPayment, settleAlgorandPayment_try.
    destruct (isAlgorandNetwork (network r)) eqn:Hnet; cbn [negb].
    + unfold try_catch, bind. rewrite Hver, Hinvalid. reflexivity.
    + unfold verifyAlgorandPayment in Hver. rewrite Hnet in Hver.
      cbn [negb] in Hver. unfold ret in *. inversion Hver; subst.
      reflexivity.
  - eapply verifyAlgorandPayment_submits_nothing; eassumption.
Qed.

(** ** Order of the checks *)

(** C4: on an envelope that decodes, the verifier answers with the
    reason of the first failing check in the order structure,
    recipient, amount, asset, expiration, whatever the later checks
    would say; it answers valid when none fails. *)
Theorem verifyAlgorandPayment_reports_first_failure
        pp r w auth txn who toAddr client st n :
  isAlgorandNetwork (network r) = true ->
  String.eqb (signature (payload pp)) "" = false ->
  authorization (payload pp) = Some auth ->
  decodeSignedTransaction (Buffer_from_base64 (signature (payload pp)))
    = Ok txn ->
  encodeAddress (sender_key txn) = Ok who ->
  receiver_address txn (Ok "") = Ok toAddr ->
  getAlgodClient (network r) = Ok client ->
  node_status client (node w) = (Ok st, n) ->
  fst (verifyAlgorandPayment pp r w)
    = Ok (verdict who
            (ordered_checks (payload pp) who txn toAddr r
               (JS.Number_of_Z (status_lastRound st)))).
Proof.
  intros Hnet Hsig Hauth Hdec Henc Hto Hclient Hstatus.
  rewrite verifyAlgorandPayment_equation.
  rewrite Hnet, Hsig, Hauth, Hdec, Henc, Hto.
  unfold verdict, ordered_checks, first_failure, check_expiration.
  rewrite Hclient, Hstatus.
  destruct (verifyAlgorandSignature (payload pp) who); [| reflexivity].
  destruct (String.eqb toAddr (payTo r)); [| reflexivity].
  destruct (String.eqb (txn_amount_string txn) (maxAmountRequired r));
    [| reflexivity].
  destruct (numeric_strict_eq (txn_asset_id txn) (JS.parseInt (asset r)));
    [| reflexivity].
  cbn [negb fst].
  destruct (JS.lt _ _); reflexivity.
Qed.

(** ** Consistency of the authorization mirror *)

Lemma verifyAlgorandSignature_receiver p who auth txn toAddr :
  authorization p = Some auth ->
  decodeSignedTransaction (Buffer_from_base64 (signature p)) = Ok txn ->
  encodeAddress (sender_key txn) = Ok who ->
  receiver_address txn (Ok (auth_to auth)) = Ok toAddr ->
  String.eqb toAddr (auth_to auth) = false ->
  verifyAlgorandSignature p who = false.
Proof.
  intros Hauth Hdec Henc Hto Hne.
  unfold verifyAlgorandSignature, verifyAlgorandSignature_try, result_bind.
  rewrite Hdec, Henc, String.eqb_refl, Hauth, Hto, Hne. reflexivity.
Qed.

Lemma verifyAlgorandSignature_amount p who auth txn :
  authorization p = Some auth ->
  decodeSignedTransaction (Buffer_from_base64 (signature p)) = Ok txn ->
  encodeAddress (sender_key txn) = Ok who ->
  numeric_strict_eq (txn_assetIndex txn ||| txn_xaid txn) (auth_assetId auth)
    = true ->
  String.eqb (txn_amount_string txn) (auth_amount auth) = false ->
  verifyAlgorandSignature p who = false.
Proof.
  intros Hauth Hdec Henc Hasset Hne.
  unfold verifyAlgorandSignature, verifyAlgorandSignature_try, result_bind.
  rewrite Hdec, Henc, String.eqb_refl, Hauth. cbn [negb].
  destruct (receiver_address txn (Ok (auth_to auth))) as [toAddr | e];
    [| reflexivity].
  destruct (String.eqb toAddr (auth_to auth)); [| reflexivity].
  cbn [negb].
  destruct (txn_assetIndex txn ||| txn_xaid txn) as [| x | z];
    cbn [numeric_strict_eq] in Hasset; try discriminate Hasset.
  cbn [numeric_strict_eq andb]. rewrite Hasset, Hne. reflexivity.
Qed.

(** C10: when the envelope's recipient differs from
    [authorization.to], or its amount differs from
    [authorization.amount] while its asset index equals
    [authorization.assetId], the verifier answers invalid with the
    reason ["Invalid signature"] and the payer, whatever the
    requirements are. *)
Theorem verifyAlgorandPayment_rejects_inconsistent_mirror
        pp r w auth txn who :
  isAlgorandNetwork (network r) = true ->
  String.eqb (signature (payload pp)) "" = false ->
  authorization (payload pp) = Some auth ->
  decodeSignedTransaction (Buffer_from_base64 (signature (payload pp)))
    = Ok txn ->
  encodeAddress (sender_key txn) = Ok who ->
  (exists toAddr,
      receiver_address txn (Ok (auth_to auth)) = Ok toAddr /\
      String.eqb toAddr (auth_to auth) = false) \/
  (numeric_strict_eq (txn_assetIndex txn ||| txn_xaid txn)
     (auth_assetId auth) = true /\
   String.eqb (txn_amount_string txn) (auth_amount auth) = false) ->
  verifyAlgorandPayment pp r w
    = (Ok (invalid (Some who) "Invalid signature"), w).
Proof.
  intros Hnet Hsig Hauth Hdec Henc Hmirror.
  assert (Hver : verifyAlgorandSignature (payload pp) who = false).
  { destruct Hmirror as [(toAddr & Hto & Hne) | (Hasset & Hne)].
    - eapply verifyAlgorandSignature_receiver; eassumption.
    - eapply verifyAlgorandSignature_amount; eassumption. }
  rewrite verifyAlgorandPayment_equation.
  rewrite Hnet, Hsig, Hauth, Hdec, Henc, Hver. reflexivity.
Qed.


(** ** Tampering with the requirements *)

Lemma strict_eq_true (x y : JS.Number) :
  JS.strict_eq x y = true ->
  x = y \/ exists s s', x = S754_zero s /\ y = S754_zero s'.
Proof.
  unfold JS.strict_eq, SFeqb, SFcompare.
  destruct x as [s | s | | s m e], y as [s' | s' | | s' m' e'];
    try discriminate; try (destruct s; discriminate);
    try (destruct s'; discriminate).
  - intros _. right. eauto.
  - destruct s, s'; try discriminate; intros _; left; reflexivity.
  - destruct s, s'; try discriminate;
      destruct (Z.compare e e') eqn:He; try discriminate;
      apply Z.compare_eq in He; subst e';
      destruct (Pos.compare_cont Eq m m') eqn:Hm; try discriminate;
      apply Pos.compare_eq in Hm; subst m'; intros _; left; reflexivity.
Qed.

Lemma strict_eq_toString (x y : JS.Number) :
  JS.strict_eq x y = true -> JS.Number_toString x = JS.Number_toString y.
Proof.
  intros H. destruct (strict_eq_true x y H) as [-> | (s & s' & -> & ->)];
    reflexivity.
Qed.

Lemma strict_eq_left (x y z : JS.Number) :
  JS.strict_eq x y = true -> JS.strict_eq x z = JS.strict_eq y z.
Proof.
  intros H. destruct (strict_eq_true x y H) as [-> | (s & s' & -> & ->)];
    [reflexivity |].
  destruct z; reflexivity.
Qed.

(** C5: take a payload that verifies against the requirements.
    Against the same requirements with another [payTo], or another
    [maxAmountRequired], or an [asset] that [parseInt] reads as
    another number, it is rejected with a reason that names the field
    and gives the expected and the actual value. *)
Theorem verifyAlgorandPayment_detects_tampering pp r w v w1 :
  verifyAlgorandPayment pp r w = (Ok v, w1) ->
  isValid v = true ->
  (forall payTo',
      payTo' <> payTo r ->
      verifyAlgorandPayment pp (with_payTo r payTo') w
        = (Ok (invalid (payer v)
                 ("Recipient mismatch: expected " ++ payTo'
                    ++ ", got " ++ payTo r)), w)) /\
  (forall amount',
      amount' <> maxAmountRequired r ->
      verifyAlgorandPayment pp (with_maxAmountRequired r amount') w
        = (Ok (invalid (payer v)
                 ("Amount mismatch: expected " ++ amount'
                    ++ ", got " ++ maxAmountRequired r)), w)) /\
  (forall asset',
      JS.strict_eq (JS.parseInt (asset r)) (JS.parseInt asset') = false ->
      verifyAlgorandPayment pp (with_asset r asset') w
        = (Ok (invalid (payer v)
                 ("Asset ID mismatch: expected "
                    ++ JS.Number_toString (JS.parseInt asset')
                    ++ ", got "
                    ++ JS.Number_toString (JS.parseInt (asset r)))), w)).
Proof.
  intros Hver Hvalid.
  destruct (verifyAlgorandPayment_valid_inv pp r w v w1 Hver Hvalid)
    as (auth & txn & who & client & st & n & Hnet & Hsig & Hauth & Hdec
        & Henc & Hsign & Hto & Hamount & Hasset & _ & _ & _ & -> & _).
  cbn [payer valid].
  split; [| split].
  - intros payTo' Hne.
    rewrite verifyAlgorandPayment_equation.
    cbn [with_payTo network payTo].
    rewrite Hnet, Hsig, Hauth, Hdec, Henc, Hsign, Hto.
    apply not_eq_sym in Hne. apply String.eqb_neq in Hne. rewrite Hne.
    reflexivity.
  - intros amount' Hne.
    rewrite verifyAlgorandPayment_equation.
    cbn [with_maxAmountRequired network payTo maxAmountRequired].
    rewrite Hnet, Hsig, Hauth, Hdec, Henc, Hsign, Hto, String.eqb_refl.
    rewrite Hamount.
    apply not_eq_sym in Hne. apply String.eqb_neq in Hne. rewrite Hne.
    reflexivity.
  - intros asset' Hne.
    rewrite verifyAlgorandPayment_equation.
    cbn [with_asset network payTo maxAmountRequired asset].
    rewrite Hnet, Hsig, Hauth, Hdec, Henc, Hsign, Hto, String.eqb_refl.
    rewrite Hamount, String.eqb_refl. cbn [negb].
    destruct (txn_asset_id txn) as [| x | z];
      cbn [numeric_strict_eq] in Hasset; try discriminate Hasset.
    cbn [numeric_strict_eq numeric_toString].
    rewrite (strict_eq_left _ _ (JS.parseInt asset') Hasset), Hne.
    rewrite (strict_eq_toString _ _ Hasset). reflexivity.
Qed.

(** ** Resubmission of a settled payload *)


(** The settler after an accepted submission, for comparison. *)
Lemma settleAlgorandPayment_submits pp r w v w1 client txId n2 :
  verifyAlgorandPayment pp r w = (Ok v, w1) ->
  isValid v = true ->
  getAlgodClient (network r) = Ok client ->
  node_sendRawTransaction client
    (Buffer_from_base64 (signature (payload pp))) (node w1)
    = (Ok txId, n2) ->
  settleAlgorandPayment pp r w
    = confirm r (payer v) txId
        (after w1 n2
           (CallSendRawTransaction client
              (Buffer_from_base64 (signature (payload pp))))).
Proof.
  intros Hver Hvalid Hclient Hsend.
  destruct (verifyAlgorandPayment_valid_inv pp r w v w1 Hver Hvalid)
    as (_ & _ & _ & _ & _ & _ & Hnet & _).
  unfold settleAlgorandPayment, settleAlgorandPayment_try, confirm, submit.
  rewrite Hnet. cbn [negb]. unfold_m.
  rewrite Hver, Hvalid. cbn [negb]. rewrite Hclient, Hsend.
  unfold after.
  destruct (waitForConfirmation _ _ _ _) as [[info | e] w3]; reflexivity.
Qed.


(** ** Signing, then verifying *)

Lemma verifyAlgorandSignature_of_signer p auth txn who :
  authorization p = Some auth ->
  decodeSignedTransaction (Buffer_from_base64 (signature p)) = Ok txn ->
  encodeAddress (sender_key txn) = Ok who ->
  (forall otherwise, receiver_address txn otherwise = Ok (auth_to auth)) ->
  txn_amount_string txn = auth_amount auth ->
  verifyAlgorandSignature p who = true.
Proof.
  intros Hauth Hdec Henc Hto Hamount.
  unfold verifyAlgorandSignature, verifyAlgorandSignature_try, result_bind.
  rewrite Hdec, Henc, String.eqb_refl, Hauth, Hto, String.eqb_refl.
  rewrite Hamount, String.eqb_refl. cbn [negb].
  destruct (_ && _); reflexivity.
Qed.

(** On algosdk 2.x the library signer does not get as far as a
    payload: it names the parties [sender] and [receiver]. *)
Lemma processAlgorandPayment_throws_on_algosdk_2 r account maxValue w0 :
  algosdk_2 ->
  exists e w1, processAlgorandPayment r account maxValue w0 = (Throw e, w1).
Proof.
  intros Hsdk.
  unfold processAlgorandPayment, getSuggestedParams, BigInt.
  destruct (isAlgorandNetwork (network r)); cbn [negb];
    [| unfold throw; eauto].
  destruct (exceeds_max r maxValue); [unfold throw; eauto |].
  unfold_m.
  destruct (getAlgodClient (network r)) as [client | e]; [| eauto].
  destruct (node_getTransactionParams client (node w0)) as [[sp | e] n];
    [| eauto].
  destruct (JS.BigInt_of_string (maxAmountRequired r)) as [z |]; [| eauto].
  destruct (Hsdk (processAlgorandPayment_args r account sp z) eq_refl)
    as (e & Hmake).
  rewrite Hmake. eauto.
Qed.

(** On algosdk 3.x the verifier rejects every payload: it reads the
    sender of the decoded transaction as [txn.from?.publicKey ||
    txn.sender], an Address object, and [encodeAddress] throws. *)
Lemma verifyAlgorandPayment_rejects_on_algosdk_3 pp r w :
  algosdk_3 ->
  exists v, verifyAlgorandPayment pp r w = (Ok v, w) /\ isValid v = false.
Proof.
  intros (Hshape & Hencode).
  rewrite verifyAlgorandPayment_equation.
  destruct (isAlgorandNetwork (network r)); cbn [negb];
    [| eexists; split; reflexivity].
  destruct (String.eqb (signature (payload pp)) "");
    [eexists; split; reflexivity |].
  destruct (authorization (payload pp)); [| eexists; split; reflexivity].
  destruct (decodeSignedTransaction _) as [txn | e] eqn:Hdec;
    [| eexists; split; reflexivity].
  destruct (Hshape _ _ Hdec) as (Hfrom & publicKey & Hsender).
  unfold sender_key. rewrite Hfrom, Hsender.
  destruct (Hencode publicKey) as (e & He). rewrite He.
  eexists. split; reflexivity.
Qed.

(** C2: signing with the library signer and then verifying does not
    give a valid answer under either algosdk.  The signer names the
    parties of the transfer [sender] and [receiver], as algosdk 3.x
    reads them, while the verifier reads the decoded transaction in
    the shape of algosdk 2.x.  Under algosdk 2.x the signer throws;
    under algosdk 3.x, whenever it returns a payload, the verifier
    answers invalid against the same requirements, in every world and
    without contacting the node. *)
Theorem processAlgorandPayment_then_verify_fails
        r account maxValue w0 res w1 w :
  algosdk_2 \/ algosdk_3 ->
  processAlgorandPayment r account maxValue w0 = (res, w1) ->
  (exists e, res = Throw e) \/
  (exists pp v,
      res = Ok pp /\
      verifyAlgorandPayment pp r w = (Ok v, w) /\
      isValid v = false).
Proof.
  intros [Hsdk | Hsdk] Hsigned.
  - left.
    destruct (processAlgorandPayment_throws_on_algosdk_2
                r account maxValue w0 Hsdk) as (e & w' & E).
    rewrite E in Hsigned. inversion Hsigned. eauto.
  - destruct res as [pp | e]; [right | left; eauto].
    destruct (verifyAlgorandPayment_rejects_on_algosdk_3 pp r w Hsdk)
      as (v & Hver & Hinvalid).
    exists pp, v. auto.
Qed.

(** ** The validity window of the signed transaction *)

(** The library signer hands the suggested parameters to algosdk as the
    node gave them. *)
Lemma processAlgorandPayment_args_lastRound r account sp z :
  arg_suggestedParams (processAlgorandPayment_args r account sp z) = sp.
Proof. reflexivity. Qed.

(** The client wallet sets the last valid round from the timeout. *)
Lemma signPayment_args_lastRound this r sp z :
  lastRound (arg_suggestedParams (signPayment_args this r sp z))
    = firstRound sp + secondsToRounds (maxTimeoutSeconds r).
Proof. reflexivity. Qed.

(** The envelope that the library signer produces does not depend on
    [maxTimeoutSeconds]. *)
Lemma processAlgorandPayment_signature_ignores_timeout
      r account maxValue w seconds :
  signature_of (processAlgorandPayment
                  (with_maxTimeoutSeconds r seconds) account maxValue w)
    = signature_of (processAlgorandPayment r account maxValue w).
Proof.
  unfold signature_of, processAlgorandPayment, getSuggestedParams, BigInt.
  change (exceeds_max (with_maxTimeoutSeconds r seconds) maxValue)
    with (exceeds_max r maxValue).
  change (processAlgorandPayment_args (with_maxTimeoutSeconds r seconds))
    with (processAlgorandPayment_args r).
  cbn [with_maxTimeoutSeconds network maxAmountRequired asset payTo
       description scheme].
  destruct (isAlgorandNetwork (network r)); [| reflexivity]. cbn [negb].
  destruct (exceeds_max r maxValue); [reflexivity |].
  unfold_m.
  destruct (getAlgodClient (network r)) as [client | e]; [| reflexivity].
  destruct (node_getTransactionParams client (node w)) as [[sp | e] n];
    [| reflexivity].
  destruct (JS.BigInt_of_string (maxAmountRequired r)) as [z |];
    [| reflexivity].
  destruct (makeAssetTransferTxnWithSuggestedParamsFromObject _)
    as [txn | e]; [| reflexivity].
  destruct (signTxn txn (privateKey account)); reflexivity.
Qed.

End Facts.

(** ** The properties on the reference platform *)

Lemma length_append (a b : string) :
  String.length (a ++ b) = (String.length a + String.length b)%nat.
Proof.
  induction a as [| c a IH]; simpl; [reflexivity |]. now rewrite IH.
Qed.

Lemma createPaymentRequirements_asset_of_network_witness :
  exists r,
    createPaymentRequirements
      (options_for (PriceString "$0.01") (Some "algorand-testnet")) = Ok r /\
    maxAmountRequired r = "10000" /\
    asset r = "0x036CbD53842c5426634e7929541eC2318f3dCF7e".
Proof.
  destruct (createPaymentRequirements_asset_of_network
              (options_for (PriceString "$0.01") (Some "algorand-testnet"))
              "algorand-testnet" (JS.parseFloat "0.01") eq_refl eq_refl)
    as (r & H1 & H2 & _ & H4).
  exists r. split; [exact H1 |]. split.
  - rewrite H2. vm_compute. reflexivity.
  - rewrite (H4 eq_refl). reflexivity.
Defined.

Lemma createPaymentRequirements_never_fails_witness :
  exists r,
    createPaymentRequirements
      (options_for (PriceNumber (S754_zero false)) None) = Ok r /\
    maxAmountRequired r = "0".
Proof.
  destruct (createPaymentRequirements_never_fails
              (options_for (PriceNumber (S754_zero false)) None))
    as (r & H1 & _ & H3 & _).
  exists r. split; [exact H1 |]. apply (H3 false). reflexivity.
Defined.

(** A negative price and a price that is not a number both give a
    record, with a negative amount and with the amount ["NaN"]. *)
Lemma createPaymentRequirements_accepts_invalid_prices :
  (exists r,
      createPaymentRequirements (options_for (PriceString "-1") None) = Ok r /\
      maxAmountRequired r = "-1000000") /\
  (exists r,
      createPaymentRequirements
        (options_for (PriceNumber (JS.Number_of_decimal true 25 (-1))) None)
        = Ok r /\
      maxAmountRequired r = "-2500000") /\
  (exists r,
      createPaymentRequirements (options_for (PriceString "free") None)
        = Ok r /\
      maxAmountRequired r = "NaN").
Proof.
  repeat split; eexists; split; vm_compute; reflexivity.
Qed.

Lemma verifyAlgorandPayment_total_witness :
  verifyAlgorandPayment Sim.garbled Sim.requirements (Sim.world 1000 [])
    = (Ok (invalid None "Verification error: malformed signed transaction"),
       Sim.world 1000 []).
Proof.
  destruct (verifyAlgorandPayment_total Sim.garbled Sim.requirements
              (Sim.world 1000 [])) as (_ & _ & H).
  eapply H; vm_compute; reflexivity.
Defined.

Lemma settleAlgorandPayment_refuses_unverified_witness :
  settleAlgorandPayment Sim.signed_payload
    (with_maxAmountRequired Sim.requirements "99999") (Sim.world 1000 [])
    = (Ok (failure "algorand-testnet" (Some "PAYER")
             "Verification failed: Amount mismatch: expected 99999, got 10000"),
       Sim.world 1000 []).
Proof.
  refine (proj1 (settleAlgorandPayment_refuses_unverified
                   Sim.signed_payload
                   (with_maxAmountRequired Sim.requirements "99999")
                   (Sim.world 1000 [])
                   (invalid (Some "PAYER")
                      "Amount mismatch: expected 99999, got 10000")
                   (Sim.world 1000 []) _ _));
    vm_compute; reflexivity.
Defined.

(** On a network that is not an Algorand network the verifier rejects,
    and the settler stops at its network guard: its reason is the
    verifier's reason itself, with no prefix in front. *)
Lemma settleAlgorandPayment_network_guard_has_no_prefix :
  let r := with_network Sim.requirements "base" in
  let w := Sim.world 1000 [] in
  exists v s,
    verifyAlgorandPayment Sim.signed_payload r w = (Ok v, w) /\
    isValid v = false /\
    settleAlgorandPayment Sim.signed_payload r w = (Ok s, w) /\
    errorReason s = invalidReason v /\
    forall prefix,
      errorReason s = Some (prefix ++ template (invalidReason v)) ->
      prefix = "".
Proof.
  do 2 eexists. repeat split; try (vm_compute; reflexivity).
  intros prefix H. cbn in H. injection H as H.
  apply (f_equal String.length) in H. rewrite length_append in H.
  destruct prefix as [| c prefix]; [reflexivity |].
  cbn [String.length] in H. lia.
Qed.

Lemma verifyAlgorandPayment_reports_first_failure_witness :
  fst (verifyAlgorandPayment Sim.signed_payload Sim.other_requirements
         (Sim.world 3000 []))
    = Ok (invalid (Some "PAYER")
            "Recipient mismatch: expected OTHER, got MERCHANT").
Proof.
  eapply eq_trans.
  - eapply (verifyAlgorandPayment_reports_first_failure
              Sim.signed_payload Sim.other_requirements (Sim.world 3000 []));
      vm_compute; reflexivity.
  - vm_compute. reflexivity.
Defined.

Lemma verifyAlgorandPayment_rejects_inconsistent_mirror_witness :
  verifyAlgorandPayment Sim.mirror_mismatch Sim.requirements (Sim.world 1000 [])
    = (Ok (invalid (Some "PAYER") "Invalid signature"), Sim.world 1000 []).
Proof.
  eapply (verifyAlgorandPayment_rejects_inconsistent_mirror
            Sim.mirror_mismatch Sim.requirements (Sim.world 1000 []));
    try (vm_compute; reflexivity).
  left. exists "MERCHANT". split; vm_compute; reflexivity.
Defined.

Lemma verifyAlgorandPayment_detects_tampering_witness :
  let w := Sim.world 1000 [] in
  verifyAlgorandPayment Sim.signed_payload
    (with_payTo Sim.requirements "OTHER") w
    = (Ok (invalid (Some "PAYER")
             "Recipient mismatch: expected OTHER, got MERCHANT"), w) /\
  verifyAlgorandPayment Sim.signed_payload
    (with_maxAmountRequired Sim.requirements "99999") w
    = (Ok (invalid (Some "PAYER")
             "Amount mismatch: expected 99999, got 10000"), w) /\
  verifyAlgorandPayment Sim.signed_payload
    (with_asset Sim.requirements "31566704") w
    = (Ok (invalid (Some "PAYER")
             "Asset ID mismatch: expected 31566704, got 10458941"), w).
Proof.
  intros w.
  destruct (verifyAlgorandPayment_detects_tampering
              Sim.signed_payload Sim.requirements w (valid "PAYER")
              (after w (node w) (CallStatus Sim.testnet)))
    as (H1 & H2 & H3); try (vm_compute; reflexivity).
  split; [| split].
  - apply (H1 "OTHER"). discriminate.
  - apply (H2 "99999"). discriminate.
  - apply (H3 "31566704"). vm_compute. reflexivity.
Defined.

(** An [asset] with another text that [parseInt] reads as the same
    number goes unnoticed: the payload signed for the requirements
    still verifies. *)
Lemma verifyAlgorandPayment_misses_asset_text :
  let w := Sim.world 1000 [] in
  let asset' := "10458941.00" in
  fst (processAlgorandPayment Sim.requirements Sim.account None w)
    = Ok Sim.signed_payload /\
  asset' <> asset Sim.requirements /\
  fst (verifyAlgorandPayment Sim.signed_payload Sim.requirements w)
    = Ok (valid "PAYER") /\
  fst (verifyAlgorandPayment Sim.signed_payload
         (with_asset Sim.requirements asset') w)
    = Ok (valid "PAYER").
Proof.
  repeat split; try (vm_compute; reflexivity). discriminate.
Qed.


Lemma Sdk2_reads_from_and_to : @algosdk_2 Sdk2.platform.
Proof.
  intros args Hkeys. cbn. unfold Sdk2.make. rewrite Hkeys. eauto.
Qed.

Lemma Sdk3_decodes_address_objects : @algosdk_3 Sdk3.platform.
Proof.
  split.
  - intros bytes txn. cbn. unfold Sdk3.decode.
    destruct (Sim.split_on "|" (Sim.string_of bytes))
      as [| f [| t [| a [| i [| l [| x rest]]]]]]; try discriminate.
    destruct (Sim.parse_uint a); try discriminate.
    destruct (Sim.parse_uint i); try discriminate.
    destruct (Sim.parse_uint l); try discriminate.
    intros H. inversion H. cbn. eauto.
  - intros publicKey. cbn. eauto.
Qed.

(** The running example under each algosdk: under 2.x the signer
    throws, under 3.x it returns a payload that the verifier
    rejects. *)
Lemma processAlgorandPayment_then_verify_fails_witness :
  let w := Sim.world 1000 [] in
  let v := invalid None "Verification error: address must be a byte array" in
  (exists e,
      fst (@processAlgorandPayment Sdk2.platform Sim.Node Sim.algod
             Sim.requirements Sim.account None w) = Throw e) /\
  (exists pp,
      fst (@processAlgorandPayment Sdk3.platform Sim.Node Sim.algod
             Sim.requirements Sim.account None w) = Ok pp /\
      @verifyAlgorandPayment Sdk3.platform Sim.Node Sim.algod
        pp Sim.requirements w = (Ok v, w) /\
      isValid v = false).
Proof.
  intros w v. split.
  - destruct (@processAlgorandPayment_then_verify_fails
                Sdk2.platform Sim.Node Sim.algod
                Sim.requirements Sim.account None w _ _ w
                (or_introl Sdk2_reads_from_and_to)
                (surjective_pairing _))
      as [(e & He) | (pp & v' & Hpp & _)].
    + exists e. exact He.
    + vm_compute in Hpp. discriminate Hpp.
  - destruct (@processAlgorandPayment_then_verify_fails
                Sdk3.platform Sim.Node Sim.algod
                Sim.requirements Sim.account None w _ _ w
                (or_intror Sdk3_decodes_address_objects)
                (surjective_pairing _))
      as [(e & He) | (pp & v' & Hpp & Hver & Hinvalid)].
    + vm_compute in He. discriminate He.
    + exists pp. split; [exact Hpp |].
      assert (Hv : v' = v).
      { assert (Hrun : fst (@verifyAlgorandPayment Sdk3.platform Sim.Node
                              Sim.algod pp Sim.requirements w) = Ok v).
        { vm_compute in Hpp. inversion Hpp. vm_compute. reflexivity. }
        rewrite Hver in Hrun. inversion Hrun. reflexivity. }
      subst v'. split; [exact Hver | exact Hinvalid].
Defined.

(** C6: the transaction that [processAlgorandPayment] signs takes its
    validity window from the suggested parameters alone: the signed
    envelope is the same for every [maxTimeoutSeconds].  At round 1000
    the node suggests the window 1000 to 2000; for a timeout of 600
    seconds, that is 134 rounds, the transaction of
    [processAlgorandPayment] is valid until round 2000, while the one
    that the client wallet signs is valid until round 1134. *)
Theorem processAlgorandPayment_keeps_suggested_window :
  (forall (platform : Platform) (Node : Type) (algod : Algod Node)
          (r : PaymentRequirements) (account : AlgorandAccount)
          (maxValue : option JS.Number) (w : World Node) (seconds : Z),
      @signature_of Node
        (@processAlgorandPayment platform Node algod
           (with_maxTimeoutSeconds r seconds) account maxValue w)
      = @signature_of Node
          (@processAlgorandPayment platform Node algod r account maxValue w))
  /\ maxTimeoutSeconds Sim.requirements = 600
  /\ secondsToRounds 600 = 134
  /\ Sim.last_valid_of_result
       (processAlgorandPayment Sim.requirements Sim.account None
          (Sim.world 1000 [])) = Some 2000
  /\ Sim.last_valid_of_result
       (signPayment Sim.wallet [Sim.requirements]
          (Sim.world_holding 1000 10458941)) = Some 1134.
Proof.
  split.
  - intros platform Node algod r account maxValue w seconds.
    apply processAlgorandPayment_signature_ignores_timeout.
  - repeat split; vm_compute; reflexivity.
Qed.

(** * Further properties *)

Section Coverage.

Context {platform : Platform} {Node : Type} {algod : Algod Node}.

Implicit Types (pp : PaymentPayload) (r : PaymentRequirements)
         (w : World Node) (txn : Transaction).

Ltac run_m :=
  unfold bind, lift, ret, throw, try_catch, client_status,
    client_getTransactionParams, client_sendRawTransaction,
    client_pendingTransactionInformation, client_statusAfterBlock,
    client_accountInformation, request in *.

(** ** Waiting for a confirmation *)

Lemma polls_app (l1 l2 : list Call) :
  polls (l1 ++ l2)%list = (polls l1 + polls l2)%nat.
Proof.
  induction l1 as [| c l1 IH]; simpl; [reflexivity |].
  destruct c; simpl; rewrite IH; reflexivity.
Qed.

(** One turn of the loop asks once for the pending transaction. *)
Lemma poll_calls client txId w res w1 :
  poll client txId w = (res, w1) ->
  calls w1 = (calls w ++ [CallPendingTransactionInformation client txId])%list.
Proof.
  unfold poll. run_m.
  destruct (node_pendingTransactionInformation client txId (node w))
    as [[info | e] n].
  - destruct (confirmed info); [intros H; inversion H; reflexivity |].
    destruct (rejected info).
    + destruct (JS.includes _ _); intros H; inversion H; reflexivity.
    + intros H; inversion H; reflexivity.
  - destruct (JS.includes _ _); intros H; inversion H; reflexivity.
Qed.

Lemma poll_confirmed client txId w info w1 :
  poll client txId w = (Ok (Some info), w1) -> confirmed info = true.
Proof.
  unfold poll. run_m.
  destruct (node_pendingTransactionInformation client txId (node w))
    as [[info' | e] n].
  - destruct (confirmed info') eqn:E.
    + intros H; inversion H; subst. exact E.
    + destruct (rejected info').
      * destruct (JS.includes _ _); intros H; inversion H.
      * intros H; inversion H.
  - destruct (JS.includes _ _); intros H; inversion H.
Qed.

Lemma waitLoop_trace client txId timeout k :
  forall current w res w1,
    waitLoop client txId timeout k current w = (res, w1) ->
    exists trace,
      calls w1 = (calls w ++ trace)%list /\
      (polls trace <= k)%nat /\
      submitted trace = [] /\
      (forall info, res = Ok info -> confirmed info = true).
Proof.
  induction k as [| k IH]; intros current w res w1; cbn [waitLoop].
  - unfold throw. intros H; inversion H; subst.
    exists []. rewrite app_nil_r.
    split; [reflexivity | split; [simpl; lia | split; [reflexivity | discriminate]]].
  - unfold bind at 1.
    destruct (poll client txId w) as [[[info |] | e] w2] eqn:Hpoll.
    + unfold ret. intros H; inversion H; subst.
      exists [CallPendingTransactionInformation client txId].
      rewrite (poll_calls _ _ _ _ _ Hpoll).
      split; [reflexivity | split; [simpl; lia | split; [reflexivity |]]].
      intros info' E. inversion E; subst.
      eapply poll_confirmed; eassumption.
    + unfold bind at 1, client_statusAfterBlock, request.
      destruct (node_statusAfterBlock client current (node w2))
        as [[[] | e] n] eqn:Hblock.
      * intros H. apply IH in H. destruct H as (trace & Hc & Hp & Hs & Hi).
        cbn [calls] in Hc.
        exists ([CallPendingTransactionInformation client txId;
                 CallStatusAfterBlock client current] ++ trace)%list.
        rewrite Hc, (poll_calls _ _ _ _ _ Hpoll).
        split; [now rewrite <- !app_assoc |].
        split; [rewrite polls_app; simpl; lia |].
        split; [rewrite submitted_app; simpl; exact Hs | exact Hi].
      * intros H; inversion H; subst. cbn [calls].
        exists [CallPendingTransactionInformation client txId;
                CallStatusAfterBlock client current].
        rewrite (poll_calls _ _ _ _ _ Hpoll).
        split; [now rewrite <- app_assoc |].
        split; [simpl; lia | split; [reflexivity | discriminate]].
    + intros H; inversion H; subst.
      exists [CallPendingTransactionInformation client txId].
      rewrite (poll_calls _ _ _ _ _ Hpoll).
      split; [reflexivity | split; [simpl; lia | split; [reflexivity | discriminate]]].
Qed.


Lemma waitForConfirmation_trace net txId timeout w res w1 :
  waitForConfirmation net txId timeout w = (res, w1) ->
  exists trace,
    calls w1 = (calls w ++ trace)%list /\
    (polls trace <= Z.to_nat timeout)%nat /\
    submitted trace = [] /\
    (forall info, res = Ok info -> confirmed info = true).
Proof.
  unfold waitForConfirmation. run_m.
  destruct (getAlgodClient net) as [client | e].
  - destruct (node_status client (node w)) as [[st | e] n].
    + intros H. apply waitLoop_trace in H.
      destruct H as (trace & Hc & Hp & Hs & Hi). cbn [calls] in Hc.
      exists (CallStatus client :: trace).
      split; [rewrite Hc, <- app_assoc; reflexivity |].
      split; [exact Hp | split; [exact Hs | exact Hi]].
    + intros H; inversion H; subst. exists [CallStatus client].
      split; [reflexivity |].
      split; [simpl; lia | split; [reflexivity | discriminate]].
  - intros H; inversion H; subst. exists []. rewrite app_nil_r.
    split; [reflexivity |].
    split; [simpl; lia | split; [reflexivity | discriminate]].
Qed.

Lemma waitForConfirmation_submits_nothing net txId timeout w res w1 :
  waitForConfirmation net txId timeout w = (res, w1) ->
  submitted (calls w1) = submitted (calls w).
Proof.
  intros H. apply waitForConfirmation_trace in H.
  destruct H as (trace & Hc & _ & Hs & _).
  rewrite Hc, submitted_app, Hs. apply app_nil_r.
Qed.

(** X1: [waitForConfirmation] asks for the pending transaction at
    most [timeout] times (never, when [timeout] is not positive), it
    submits nothing, and the information it returns carries a positive
    confirmation round. *)
Theorem waitForConfirmation_bounded net txId timeout w res w1 :
  waitForConfirmation net txId timeout w = (res, w1) ->
  exists trace,
    calls w1 = (calls w ++ trace)%list /\
    (polls trace <= Z.to_nat timeout)%nat /\
    submitted trace = [] /\
    (forall info, res = Ok info ->
                  exists round, confirmedRound info = Some round /\ 0 < round).
Proof.
  intros H. apply waitForConfirmation_trace in H.
  destruct H as (trace & Hc & Hp & Hs & Hi).
  exists trace. repeat (split; [assumption |]).
  intros info E. specialize (Hi info E). unfold confirmed in Hi.
  destruct (confirmedRound info) as [round |]; [| discriminate].
  exists round. split; [reflexivity |]. now apply Z.ltb_lt.
Qed.

(** ** Text search *)

Lemma includes_app_r (a b needle : string) :
  JS.includes b needle = true -> JS.includes (a ++ b) needle = true.
Proof.
  intros H. induction a as [| c a IH]; [exact H |].
  cbn [append JS.includes]. rewrite IH. apply orb_true_r.
Qed.

Lemma startsWith_app (a b needle : string) :
  JS.startsWith a needle = true -> JS.startsWith (a ++ b) needle = true.
Proof.
  revert a. induction needle as [| c needle IH]; intros a H.
  - destruct a; [destruct b |]; reflexivity.
  - destruct a as [| d a]; [discriminate H |].
    cbn [append JS.startsWith] in *.
    apply andb_true_iff in H. destruct H as [H1 H2].
    rewrite H1, (IH _ H2). reflexivity.
Qed.

Lemma includes_app_l (a b needle : string) :
  JS.includes a needle = true -> JS.includes (a ++ b) needle = true.
Proof.
  induction a as [| c a IH]; intros H.
  - cbn [JS.includes] in H. rewrite orb_false_r in H.
    destruct needle; [| discriminate H].
    destruct b; reflexivity.
  - cbn [JS.includes] in H. apply orb_true_iff in H.
    change (String c a ++ b) with (String c (a ++ b)).
    cbn [JS.includes]. apply orb_true_iff. destruct H as [H | H].
    + left. exact (startsWith_app (String c a) b needle H).
    + right. exact (IH H).
Qed.

Lemma rejected_message_includes (e : string) :
  JS.includes ("Transaction rejected: " ++ e) "not found"
    = JS.includes e "not found".
Proof. reflexivity. Qed.

(** X2: one turn of the polling loop on a transaction that the pool
    rejected: the rejection is thrown as ["Transaction rejected: "]
    followed by the pool error, unless the pool error contains
    ["not found"]; then the loop's own handler takes the rejection for
    a transaction that is not known yet, and the loop goes on
    waiting. *)
Theorem waitForConfirmation_rejection client txId w info n e :
  node_pendingTransactionInformation client txId (node w) = (Ok info, n) ->
  confirmed info = false ->
  poolError info = Some e ->
  e <> "" ->
  poll client txId w
    = (if JS.includes e "not found" then Ok None
       else Throw ("Transaction rejected: " ++ e),
       after w n (CallPendingTransactionInformation client txId)).
Proof.
  intros Hnode Hconf Hpool Hne.
  unfold poll, rejected. run_m. rewrite Hnode, Hconf, Hpool.
  destruct e as [| c e]; [contradiction Hne; reflexivity |].
  cbn [template String.length Nat.ltb Nat.leb].
  rewrite rejected_message_includes.
  destruct (JS.includes (String c e) "not found"); reflexivity.
Qed.

(** ** The verifier *)

Lemma getAlgodClient_Ok_inv (net : string) client :
  getAlgodClient net = Ok client ->
  net = "algorand-mainnet" \/ net = "algorand-testnet"
  \/ net = "algorand-betanet".
Proof.
  unfold getAlgodClient, ALGORAND_NETWORKS.
  destruct (negb (isAlgorandNetwork net)); [discriminate |].
  cbn [lookup].
  destruct (String.eqb_spec "algorand-mainnet" net) as [<- | _]; [auto |].
  destruct (String.eqb_spec "algorand-testnet" net) as [<- | _]; [auto |].
  destruct (String.eqb_spec "algorand-betanet" net) as [<- | _]; [auto |].
  discriminate.
Qed.

(** X3: the verifier accepts a payment on the three configured
    networks only; on every other network, also one whose name starts
    with ["algorand-"], its answer is invalid and the node is not
    contacted. *)
Theorem verifyAlgorandPayment_configured_networks_only pp r w :
  network r <> "algorand-mainnet" ->
  network r <> "algorand-testnet" ->
  network r <> "algorand-betanet" ->
  exists v,
    verifyAlgorandPayment pp r w = (Ok v, w) /\ isValid v = false.
Proof.
  intros H1 H2 H3.
  assert (Hclient : exists e, getAlgodClient (network r) = Throw e).
  { destruct (getAlgodClient (network r)) as [client | e] eqn:E; [| eauto].
    apply getAlgodClient_Ok_inv in E. tauto. }
  destruct Hclient as (e & Hclient).
  rewrite verifyAlgorandPayment_equation. unfold check_expiration.
  rewrite Hclient.
  repeat match goal with
         | |- context [match ?x with _ => _ end] => destruct x
         end;
    eexists; split; reflexivity.
Qed.

(** X4: the verifier reads the inner payload and four fields of the
    requirements: the network, the recipient, the amount and the
    asset.  The version, scheme and network that the payload announces
    and the other fields of the requirements have no influence on its
    answer. *)
Theorem verifyAlgorandPayment_reads pp pp' r r' w :
  payload pp = payload pp' ->
  network r = network r' ->
  payTo r = payTo r' ->
  maxAmountRequired r = maxAmountRequired r' ->
  asset r = asset r' ->
  verifyAlgorandPayment pp r w = verifyAlgorandPayment pp' r' w.
Proof.
  intros Hp Hn Ht Ha Hs.
  rewrite !verifyAlgorandPayment_equation. unfold check_expiration.
  rewrite Hp, Hn, Ht, Ha, Hs. reflexivity.
Qed.

Lemma lt_NaN (x : JS.Number) : JS.lt JS.NaN x = false.
Proof. destruct x; reflexivity. Qed.

(** X5: a payment whose transaction shows no last valid round, so that
    [Number(txn.lastRound || txn.lastValid || txn.lv)] is [NaN], never
    expires: once accepted, it is accepted at every round that the
    node reports. *)
Theorem verifyAlgorandPayment_never_expires
        pp r w v w1 txn w' client st n :
  verifyAlgorandPayment pp r w = (Ok v, w1) ->
  isValid v = true ->
  decodeSignedTransaction (Buffer_from_base64 (signature (payload pp)))
    = Ok txn ->
  txn_lastValidRound txn = JS.NaN ->
  getAlgodClient (network r) = Ok client ->
  node_status client (node w') = (Ok st, n) ->
  verifyAlgorandPayment pp r w'
    = (Ok v, after w' n (CallStatus client)).
Proof.
  intros Hver Hvalid Hdec Hnan Hclient Hstatus.
  destruct (verifyAlgorandPayment_valid_inv pp r w v w1 Hver Hvalid)
    as (auth & txn' & who & client' & st' & n' & Hnet & Hsig & Hauth & Hdec'
        & Henc & Hsign & Hto & Hamount & Hasset & _ & _ & _ & -> & _).
  rewrite Hdec in Hdec'. inversion Hdec'; subst txn'.
  rewrite verifyAlgorandPayment_equation.
  rewrite Hnet, Hsig, Hauth, Hdec, Henc, Hsign, Hto, String.eqb_refl.
  rewrite Hamount, String.eqb_refl, Hasset. cbn [negb].
  unfold check_expiration. rewrite Hclient, Hstatus, Hnan, lt_NaN.
  reflexivity.
Qed.

(** X6: what a valid answer guarantees.  The signed transaction
    decodes; its sender is the payer of the answer; its recipient, its
    amount as a decimal text and its asset index are those of the
    requirements; the network has a configuration; and the node was
    asked once, for its status. *)
Theorem verifyAlgorandPayment_sound pp r w v w1 :
  verifyAlgorandPayment pp r w = (Ok v, w1) ->
  isValid v = true ->
  exists txn who client,
    decodeSignedTransaction (Buffer_from_base64 (signature (payload pp)))
      = Ok txn /\
    encodeAddress (sender_key txn) = Ok who /\
    payer v = Some who /\
    invalidReason v = None /\
    receiver_address txn (Ok "") = Ok (payTo r) /\
    txn_amount_string txn = maxAmountRequired r /\
    numeric_strict_eq (txn_asset_id txn) (JS.parseInt (asset r)) = true /\
    getAlgodClient (network r) = Ok client /\
    calls w1 = (calls w ++ [CallStatus client])%list.
Proof.
  intros Hver Hvalid.
  destruct (verifyAlgorandPayment_valid_inv pp r w v w1 Hver Hvalid)
    as (auth & txn & who & client & st & n & Hnet & Hsig & Hauth & Hdec
        & Henc & Hsign & Hto & Hamount & Hasset & Hclient & Hstatus & Hlt
        & -> & ->).
  exists txn, who, client.
  repeat (split; [assumption || reflexivity |]). reflexivity.
Qed.

(** X7: a transaction whose asset index is a bigint is never accepted:
    the verifier compares the index with the number that [parseInt]
    reads from the requirements by [===], and a bigint is not strictly
    equal to any number. *)
Theorem verifyAlgorandPayment_rejects_bigint_asset pp r w v w1 txn z :
  verifyAlgorandPayment pp r w = (Ok v, w1) ->
  decodeSignedTransaction (Buffer_from_base64 (signature (payload pp)))
    = Ok txn ->
  txn_asset_id txn = JBigInt z ->
  isValid v = false.
Proof.
  intros Hver Hdec Hbig.
  destruct (isValid v) eqn:Hvalid; [| reflexivity].
  destruct (verifyAlgorandPayment_valid_inv pp r w v w1 Hver Hvalid)
    as (auth & txn' & who & client & st & n & _ & _ & _ & Hdec'
        & _ & _ & _ & _ & Hasset & _).
  rewrite Hdec in Hdec'. inversion Hdec'; subst txn'.
  rewrite Hbig in Hasset. discriminate Hasset.
Qed.

(** ** The settler *)

Lemma verifyAlgorandPayment_polls pp r w res w1 :
  verifyAlgorandPayment pp r w = (res, w1) ->
  exists trace,
    calls w1 = (calls w ++ trace)%list /\ polls trace = O.
Proof.
  intros H.
  destruct (verifyAlgorandPayment_effects pp r w)
    as (v & w2 & E & [-> | (client & n & ->)]);
    rewrite E in H; inversion H; subst.
  - exists []. rewrite app_nil_r. split; reflexivity.
  - exists [CallStatus client]. split; reflexivity.
Qed.

(** The settler either fails without a submission, or it has verified
    the payload and sent its envelope once. *)
Lemma settleAlgorandPayment_inv pp r w :
  (exists who reason w1,
      settleAlgorandPayment pp r w
        = (Ok (failure (network r) who reason), w1) /\
      submitted (calls w1) = submitted (calls w) /\
      exists trace, calls w1 = (calls w ++ trace)%list /\ polls trace = O) \/
  (exists v wv client sent n2,
      verifyAlgorandPayment pp r w = (Ok v, wv) /\
      isValid v = true /\
      getAlgodClient (network r) = Ok client /\
      node_sendRawTransaction client
        (Buffer_from_base64 (signature (payload pp))) (node wv)
        = (sent, n2) /\
      match sent with
      | Ok txId =>
          settleAlgorandPayment pp r w
            = confirm r (payer v) txId
                (after wv n2
                   (CallSendRawTransaction client
                      (Buffer_from_base64 (signature (payload pp)))))
      | Throw message =>
          if JS.includes message "already in ledger" then
            settleAlgorandPayment pp r w
              = confirm r (payer v) (txnId_or_empty (payload pp))
                  (after wv n2
                     (CallSendRawTransaction client
                        (Buffer_from_base64 (signature (payload pp)))))
          else
            settleAlgorandPayment pp r w
              = (Ok (failure (network r) None
                       ("Settlement error: " ++ message)),
                 after wv n2
                   (CallSendRawTransaction client
                      (Buffer_from_base64 (signature (payload pp)))))
      end).
Proof.
  destruct (verifyAlgorandPayment_effects pp r w) as (v & wv & Hver & _).
  pose proof (verifyAlgorandPayment_submits_nothing pp r w _ _ Hver) as Hsub.
  pose proof (verifyAlgorandPayment_polls pp r w _ _ Hver) as Htrace.
  destruct (isAlgorandNetwork (network r)) eqn:Hnet.
  2: { left. unfold settleAlgorandPayment. rewrite Hnet. cbn [negb].
       unfold ret. eexists _, _, _. split; [reflexivity |].
       split; [reflexivity |]. exists []. rewrite app_nil_r.
       split; reflexivity. }
  destruct (isValid v) eqn:Hvalid.
  2: { left. unfold settleAlgorandPayment, settleAlgorandPayment_try.
       rewrite Hnet. cbn [negb]. unfold try_catch, bind.
       rewrite Hver, Hvalid. cbn [negb]. unfold ret. eauto 6. }
  destruct (getAlgodClient (network r)) as [client | e] eqn:Hclient.
  2: { left. unfold settleAlgorandPayment, settleAlgorandPayment_try.
       rewrite Hnet. cbn [negb]. run_m.
       rewrite Hver, Hvalid. cbn [negb]. rewrite Hclient. eauto 6. }
  right.
  destruct (node_sendRawTransaction client
              (Buffer_from_base64 (signature (payload pp))) (node wv))
    as [sent n2] eqn:Hsend.
  exists v, wv, client, sent, n2.
  repeat (split; [assumption || reflexivity |]).
  destruct sent as [txId | message].
  - eapply settleAlgorandPayment_submits; eassumption.
  - unfold settleAlgorandPayment, settleAlgorandPayment_try, confirm, submit.
    rewrite Hnet. cbn [negb]. run_m.
    rewrite Hver, Hvalid. cbn [negb]. rewrite Hclient, Hsend.
    unfold after.
    destruct (JS.includes message "already in ledger"); [| reflexivity].
    destruct (waitForConfirmation _ _ _ _) as [[info | e] w3]; reflexivity.
Qed.

(** The last step of the settler. *)
Lemma confirm_inv r who txId w2 :
  exists res w3,
    waitForConfirmation (network r) txId
      (secondsToRounds (maxTimeoutSeconds r)) w2 = (res, w3) /\
    submitted (calls w3) = submitted (calls w2) /\
    confirm r who txId w2
      = (Ok match res with
            | Ok _ =>
                {| success := true; transaction := Some txId;
                   sr_network := network r; sr_payer := who;
                   errorReason := None |}
            | Throw message =>
                failure (network r) who
                  ("Transaction submission succeeded but confirmation failed: "
                     ++ message)
            end, w3).
Proof.
  unfold confirm.
  destruct (waitForConfirmation (network r) txId
              (secondsToRounds (maxTimeoutSeconds r)) w2)
    as [res w3] eqn:Hwait.
  exists res, w3. split; [reflexivity |].
  split; [eapply waitForConfirmation_submits_nothing; eassumption |].
  destruct res; reflexivity.
Qed.

Lemma submitted_after w n client b :
  submitted (calls (after w n (CallSendRawTransaction client b)))
    = (submitted (calls w) ++ [b])%list.
Proof. unfold after. cbn [calls]. rewrite submitted_app. reflexivity. Qed.

(** X8: the settler always returns a response and never throws.  The
    response names the network of the requirements; a successful one
    carries a transaction identifier and no error, a failed one an
    error and no transaction identifier. *)
Theorem settleAlgorandPayment_response pp r w :
  exists s w1,
    settleAlgorandPayment pp r w = (Ok s, w1) /\
    sr_network s = network r /\
    (if success s
     then transaction s <> None /\ errorReason s = None
     else transaction s = None /\ errorReason s <> None).
Proof.
  destruct (settleAlgorandPayment_inv pp r w)
    as [(who & reason & w1 & -> & _)
       | (v & wv & client & sent & n2 & _ & _ & _ & _ & Hsettle)].
  - eexists _, _. split; [reflexivity |]. cbn.
    repeat split; discriminate.
  - assert (Hconfirm : forall txId w2,
               exists s w1,
                 confirm r (payer v) txId w2 = (Ok s, w1) /\
                 sr_network s = network r /\
                 (if success s
                  then transaction s <> None /\ errorReason s = None
                  else transaction s = None /\ errorReason s <> None)).
    { intros txId w2.
      destruct (confirm_inv r (payer v) txId w2)
        as (res & w3 & _ & _ & ->).
      eexists _, _. split; [reflexivity |].
      destruct res; cbn; repeat split; discriminate. }
    destruct sent as [txId | message].
    + rewrite Hsettle. apply Hconfirm.
    + destruct (JS.includes message "already in ledger").
      * rewrite Hsettle. apply Hconfirm.
      * rewrite Hsettle. eexists _, _. split; [reflexivity |]. cbn.
        repeat split; discriminate.
Qed.

(** X9: the settler sends at most one transaction to the network, and
    nothing but the envelope of the payload; a successful response
    means that the envelope was sent. *)
Theorem settleAlgorandPayment_submissions pp r w s w1 :
  settleAlgorandPayment pp r w = (Ok s, w1) ->
  (submitted (calls w1) = submitted (calls w) /\ success s = false) \/
  submitted (calls w1)
    = (submitted (calls w)
         ++ [Buffer_from_base64 (signature (payload pp))])%list.
Proof.
  intros H.
  destruct (settleAlgorandPayment_inv pp r w)
    as [(who & reason & w' & E & Hsub & _)
       | (v & wv & client & sent & n2 & Hver & _ & _ & _ & Hsettle)].
  - rewrite E in H. inversion H; subst. left. split; [exact Hsub | reflexivity].
  - right.
    pose proof (verifyAlgorandPayment_submits_nothing pp r w _ _ Hver)
      as Hsub.
    assert (Hconfirm : forall txId,
               settleAlgorandPayment pp r w
                 = confirm r (payer v) txId
                     (after wv n2
                        (CallSendRawTransaction client
                           (Buffer_from_base64 (signature (payload pp))))) ->
               submitted (calls w1)
                 = (submitted (calls w)
                      ++ [Buffer_from_base64 (signature (payload pp))])%list).
    { intros txId E. rewrite E in H.
      destruct (confirm_inv r (payer v) txId
                  (after wv n2
                     (CallSendRawTransaction client
                        (Buffer_from_base64 (signature (payload pp))))))
        as (res & w3 & _ & Hsub3 & E3).
      rewrite E3 in H. inversion H; subst.
      rewrite Hsub3, submitted_after, Hsub. reflexivity. }
    destruct sent as [txId | message].
    + eapply Hconfirm; eassumption.
    + destruct (JS.includes message "already in ledger").
      * eapply Hconfirm; eassumption.
      * rewrite Hsettle in H. inversion H; subst.
        rewrite submitted_after, Hsub. reflexivity.
Qed.

(** X10: what a successful settlement guarantees.  The verifier
    accepted the payload, and its payer is the payer of the response;
    the envelope was sent; and the node reported the transaction of
    the response as confirmed in a positive round within the waiting
    time. *)
Theorem settleAlgorandPayment_success pp r w s w1 :
  settleAlgorandPayment pp r w = (Ok s, w1) ->
  success s = true ->
  exists v wv txId w2 info round,
    verifyAlgorandPayment pp r w = (Ok v, wv) /\
    isValid v = true /\
    sr_payer s = payer v /\
    transaction s = Some txId /\
    submitted (calls w2)
      = (submitted (calls w)
           ++ [Buffer_from_base64 (signature (payload pp))])%list /\
    waitForConfirmation (network r) txId
      (secondsToRounds (maxTimeoutSeconds r)) w2 = (Ok info, w1) /\
    confirmedRound info = Some round /\
    0 < round.
Proof.
  intros H Hsuccess.
  destruct (settleAlgorandPayment_inv pp r w)
    as [(who & reason & w' & E & Hsub & _)
       | (v & wv & client & sent & n2 & Hver & Hvalid & _ & _ & Hsettle)].
  - rewrite E in H. inversion H; subst. discriminate Hsuccess.
  - pose proof (verifyAlgorandPayment_submits_nothing pp r w _ _ Hver)
      as Hsub.
    assert (Hconfirm : forall txId,
               settleAlgorandPayment pp r w
                 = confirm r (payer v) txId
                     (after wv n2
                        (CallSendRawTransaction client
                           (Buffer_from_base64 (signature (payload pp))))) ->
               exists v wv txId w2 info round,
                 verifyAlgorandPayment pp r w = (Ok v, wv) /\
                 isValid v = true /\
                 sr_payer s = payer v /\
                 transaction s = Some txId /\
                 submitted (calls w2)
                   = (submitted (calls w)
                        ++ [Buffer_from_base64 (signature (payload pp))])%list /\
                 waitForConfirmation (network r) txId
                   (secondsToRounds (maxTimeoutSeconds r)) w2 = (Ok info, w1) /\
                 confirmedRound info = Some round /\
                 0 < round).
    { intros txId E. rewrite E in H.
      destruct (confirm_inv r (payer v) txId
                  (after wv n2
                     (CallSendRawTransaction client
                        (Buffer_from_base64 (signature (payload pp))))))
        as (res & w3 & Hwait & _ & E3).
      rewrite E3 in H. inversion H; subst. clear H.
      destruct res as [info | message]; [| discriminate Hsuccess].
      destruct (waitForConfirmation_trace _ _ _ _ _ _ Hwait)
        as (trace & _ & _ & _ & Hinfo).
      specialize (Hinfo info eq_refl). unfold confirmed in Hinfo.
      destruct (confirmedRound info) as [round |] eqn:Hround;
        [| discriminate Hinfo].
      exists v, wv, txId,
        (after wv n2
           (CallSendRawTransaction client
              (Buffer_from_base64 (signature (payload pp))))),
        info, round.
      repeat (split; [eassumption || reflexivity |]).
      split; [rewrite submitted_after, Hsub; reflexivity |].
      split; [exact Hwait |].
      split; [exact Hround | now apply Z.ltb_lt]. }
    destruct sent as [txId | message].
    + eapply Hconfirm; eassumption.
    + destruct (JS.includes message "already in ledger").
      * eapply Hconfirm; eassumption.
      * rewrite Hsettle in H. inversion H; subst. discriminate Hsuccess.
Qed.

(** X11: the settler waits a bounded time: it asks the node for the
    pending transaction at most [Math.ceil(maxTimeoutSeconds / 4.5)]
    times, and not at all for a timeout that is not positive. *)
Theorem settleAlgorandPayment_bounded_wait pp r w s w1 :
  settleAlgorandPayment pp r w = (Ok s, w1) ->
  exists trace,
    calls w1 = (calls w ++ trace)%list /\
    (polls trace <= Z.to_nat (secondsToRounds (maxTimeoutSeconds r)))%nat.
Proof.
  intros H.
  destruct (settleAlgorandPayment_inv pp r w)
    as [(who & reason & w' & E & _ & trace & Hcalls & Hpolls)
       | (v & wv & client & sent & n2 & Hver & _ & _ & _ & Hsettle)].
  - rewrite E in H. inversion H; subst.
    exists trace. split; [exact Hcalls | lia].
  - destruct (verifyAlgorandPayment_polls pp r w _ _ Hver)
      as (trace1 & Hcalls1 & Hpolls1).
    set (sending := CallSendRawTransaction client
                      (Buffer_from_base64 (signature (payload pp)))) in *.
    assert (Hconfirm : forall txId,
               settleAlgorandPayment pp r w
                 = confirm r (payer v) txId (after wv n2 sending) ->
               exists trace,
                 calls w1 = (calls w ++ trace)%list /\
                 (polls trace
                  <= Z.to_nat (secondsToRounds (maxTimeoutSeconds r)))%nat).
    { intros txId E. rewrite E in H.
      destruct (confirm_inv r (payer v) txId (after wv n2 sending))
        as (res & w3 & Hwait & _ & E3).
      rewrite E3 in H. inversion H; subst.
      destruct (waitForConfirmation_trace _ _ _ _ _ _ Hwait)
        as (trace3 & Hcalls3 & Hpolls3 & _).
      exists (trace1 ++ [sending] ++ trace3)%list. split.
      - rewrite Hcalls3. unfold after. cbn [calls]. rewrite Hcalls1.
        rewrite <- !app_assoc. reflexivity.
      - rewrite !polls_app, Hpolls1. simpl. exact Hpolls3. }
    destruct sent as [txId | message].
    + eapply Hconfirm; eassumption.
    + destruct (JS.includes message "already in ledger").
      * eapply Hconfirm; eassumption.
      * rewrite Hsettle in H. inversion H; subst.
        exists (trace1 ++ [sending])%list. split.
        -- unfold after. cbn [calls]. rewrite Hcalls1, <- app_assoc.
           reflexivity.
        -- rewrite polls_app, Hpolls1. simpl. lia.
Qed.

(** ** The signer *)

Lemma startsWith_nil (s : string) : JS.startsWith s "" = true.
Proof. destruct s; reflexivity. Qed.

Lemma parseInt_radix_prefixed (amount : string) :
  radix_prefixed amount = true -> JS.parseInt amount = S754_zero false.
Proof.
  unfold radix_prefixed.
  destruct amount as [| c0 [| c1 digits]];
    cbn [JS.startsWith]; rewrite ?andb_false_r; try discriminate.
  rewrite startsWith_nil, !andb_true_r. intros H.
  destruct (Ascii.eqb_spec "0" c0) as [<- | _]; [| discriminate H].
  cbn [andb] in H.
  destruct (Ascii.eqb_spec "o" c1) as [<- | _]; [reflexivity |].
  destruct (Ascii.eqb_spec "O" c1) as [<- | _]; [reflexivity |].
  destruct (Ascii.eqb_spec "b" c1) as [<- | _]; [reflexivity |].
  destruct (Ascii.eqb_spec "B" c1) as [<- | _]; [reflexivity |].
  discriminate H.
Qed.

(** X12: the ceiling of the signer does not see an amount written with
    an octal or a binary prefix.  The check reads the amount with
    [parseInt], which stops behind the leading [0], while the
    transaction is built from [BigInt], which honours the prefix: with
    a ceiling that is not negative, the signer behaves as if no
    ceiling was given. *)
Theorem processAlgorandPayment_ceiling_misses_radix_prefix
        r account limit w :
  radix_prefixed (maxAmountRequired r) = true ->
  JS.lt limit (S754_zero false) = false ->
  processAlgorandPayment r account (Some limit) w
    = processAlgorandPayment r account None w.
Proof.
  intros Hprefix Hlimit.
  unfold processAlgorandPayment, exceeds_max.
  rewrite (parseInt_radix_prefixed _ Hprefix).
  unfold JS.gt. unfold JS.lt in Hlimit. rewrite Hlimit. reflexivity.
Qed.

Lemma is_digit_cases (c : ascii) :
  is_digit c = true ->
  c = "0"%char \/ c = "1"%char \/ c = "2"%char \/ c = "3"%char
  \/ c = "4"%char \/ c = "5"%char \/ c = "6"%char \/ c = "7"%char
  \/ c = "8"%char \/ c = "9"%char.
Proof.
  destruct c as [[] [] [] [] [] [] [] []]; intros H;
    try discriminate H; tauto.
Qed.

Lemma digit_value_digit (c : ascii) :
  is_digit c = true ->
  exists d, JS.digit_value 10 c = Some d /\ 0 <= d.
Proof.
  intros H.
  destruct (is_digit_cases c H)
    as [-> | [-> | [-> | [-> | [-> | [-> | [-> | [-> | [-> | ->]]]]]]]]];
    eexists; (split; [vm_compute; reflexivity | lia]).
Qed.

Lemma read_digits_decimal (s : string) :
  decimal s = true ->
  forall acc count,
    0 <= acc ->
    exists v,
      JS.read_digits 10 s acc count
        = (v, (count + String.length s)%nat, EmptyString) /\
      0 <= v.
Proof.
  induction s as [| c s IH]; intros Hdec acc count Hacc.
  - exists acc. cbn. rewrite Nat.add_0_r. split; [reflexivity | exact Hacc].
  - cbn [decimal] in Hdec. apply andb_true_iff in Hdec.
    destruct Hdec as [Hc Hs].
    destruct (digit_value_digit c Hc) as (d & Hd & Hd0).
    cbn [JS.read_digits]. rewrite Hd.
    destruct (IH Hs (acc * 10 + d) (S count) ltac:(lia)) as (v & E & Hv).
    exists v. rewrite E. cbn [String.length].
    rewrite Nat.add_succ_r. split; [reflexivity | exact Hv].
Qed.

Lemma isWhiteSpace_digit (c : ascii) :
  is_digit c = true -> JS.isWhiteSpace c = false.
Proof.
  intros H.
  destruct (is_digit_cases c H)
    as [-> | [-> | [-> | [-> | [-> | [-> | [-> | [-> | [-> | ->]]]]]]]]];
    reflexivity.
Qed.

Lemma trimEnd_decimal (s : string) :
  decimal s = true -> JS.trimEnd s = s.
Proof.
  induction s as [| c s IH]; intros Hdec; [reflexivity |].
  cbn [decimal] in Hdec. apply andb_true_iff in Hdec.
  destruct Hdec as [Hc Hs].
  cbn [JS.trimEnd JS.all_white]. rewrite (isWhiteSpace_digit c Hc).
  cbn [andb]. rewrite (IH Hs). reflexivity.
Qed.

Lemma trim_decimal (s : string) :
  decimal s = true -> JS.trim s = s.
Proof.
  intros Hdec. unfold JS.trim.
  assert (Hstart : JS.trimStart s = s).
  { destruct s as [| c s]; [reflexivity |].
    cbn [decimal] in Hdec. apply andb_true_iff in Hdec.
    cbn [JS.trimStart]. rewrite (isWhiteSpace_digit c (proj1 Hdec)).
    reflexivity. }
  rewrite Hstart. apply trimEnd_decimal. exact Hdec.
Qed.

Lemma Number_of_Z_parseInt_value (v : Z) :
  match v with
  | Z0 => S754_zero false
  | _ => JS.Number_of_Z v
  end = JS.Number_of_Z v.
Proof. destruct v; reflexivity. Qed.

(** On a decimal text, [parseInt] and [BigInt] read the same number. *)
Lemma parseInt_BigInt_decimal (s : string) :
  s <> "" ->
  decimal s = true ->
  exists z,
    JS.BigInt_of_string s = Some z /\
    0 <= z /\
    JS.parseInt s = JS.Number_of_Z z.
Proof.
  intros Hne Hdec.
  destruct s as [| c s]; [contradiction Hne; reflexivity |].
  destruct (read_digits_decimal (String c s) Hdec 0 0%nat ltac:(lia))
    as (z & Hread & Hz).
  exists z.
  pose proof Hdec as Hdec'.
  cbn [decimal] in Hdec'. apply andb_true_iff in Hdec'.
  destruct Hdec' as [Hc Hs].
  assert (Hsecond : forall d t, s = String d t ->
                                Ascii.eqb d "x" = false /\
                                Ascii.eqb d "X" = false /\
                                Ascii.eqb d "o" = false /\
                                Ascii.eqb d "O" = false /\
                                Ascii.eqb d "b" = false /\
                                Ascii.eqb d "B" = false).
  { intros d t ->. cbn [decimal] in Hs. apply andb_true_iff in Hs.
    destruct (is_digit_cases d (proj1 Hs))
      as [-> | [-> | [-> | [-> | [-> | [-> | [-> | [-> | [-> | ->]]]]]]]]];
      repeat split; reflexivity. }
  split; [| split; [exact Hz |]].
  - unfold JS.BigInt_of_string. rewrite (trim_decimal _ Hdec).
    destruct (is_digit_cases c Hc)
      as [-> | [-> | [-> | [-> | [-> | [-> | [-> | [-> | [-> | ->]]]]]]]]];
      try (cbn [JS.read_sign]; rewrite Hread; reflexivity).
    destruct s as [| d t].
    + cbn [JS.read_sign]. rewrite Hread. reflexivity.
    + destruct (Hsecond d t eq_refl) as (H1 & H2 & H3 & H4 & H5 & H6).
      rewrite H1, H2, H3, H4, H5, H6. cbn [orb]. rewrite Hread. reflexivity.
  - unfold JS.parseInt.
    assert (Hstart : JS.trimStart (String c s) = String c s).
    { cbn [JS.trimStart]. rewrite (isWhiteSpace_digit c Hc). reflexivity. }
    rewrite Hstart.
    assert (Hsign : JS.read_sign (String c s) = (false, String c s)).
    { destruct (is_digit_cases c Hc)
        as [-> | [-> | [-> | [-> | [-> | [-> | [-> | [-> | [-> | ->]]]]]]]]];
        reflexivity. }
    rewrite Hsign.
    assert (Hhex : JS.startsWith (String c s) "0x"
                   || JS.startsWith (String c s) "0X" = false).
    { destruct s as [| d t];
        [cbn [JS.startsWith]; rewrite !andb_false_r; reflexivity |].
      destruct (Hsecond d t eq_refl) as (H1 & H2 & _).
      cbn [JS.startsWith].
      rewrite (Ascii.eqb_sym "x" d), (Ascii.eqb_sym "X" d), H1, H2.
      cbn [andb]. rewrite !andb_false_r. reflexivity. }
    rewrite Hhex, Hread. cbn [String.length Nat.add].
    apply Number_of_Z_parseInt_value.
Qed.

(** X13: for an amount written in decimal digits, the ceiling of the
    signer compares the very number that is signed: [BigInt] reads an
    amount that is not negative, and the check passes exactly when the
    double nearest to that amount is not above the ceiling. *)
Theorem processAlgorandPayment_ceiling_decimal r limit :
  maxAmountRequired r <> "" ->
  decimal (maxAmountRequired r) = true ->
  exists z,
    BigInt (maxAmountRequired r) = Ok z /\
    0 <= z /\
    (exceeds_max r (Some limit) = None
     <-> JS.gt (JS.Number_of_Z z) limit = false).
Proof.
  intros Hne Hdec.
  destruct (parseInt_BigInt_decimal _ Hne Hdec) as (z & Hbig & Hz & Hint).
  exists z. unfold BigInt, exceeds_max. rewrite Hbig, Hint.
  split; [reflexivity | split; [exact Hz |]].
  destruct (JS.gt (JS.Number_of_Z z) limit); split; intros H;
    try reflexivity; discriminate H.
Qed.

(** X14: the library signer asks the node for the suggested parameters
    at most and submits nothing.  A payload it returns announces
    version 1 and the scheme and network of the requirements, and its
    authorization names the account as sender, and the recipient, the
    amount text and the asset of the requirements. *)
Theorem processAlgorandPayment_effects r account maxValue w res w1 :
  processAlgorandPayment r account maxValue w = (res, w1) ->
  (w1 = w \/
   exists client n,
     getAlgodClient (network r) = Ok client /\
     w1 = after w n (CallGetTransactionParams client)) /\
  submitted (calls w1) = submitted (calls w) /\
  (forall pp,
      res = Ok pp ->
      x402Version pp = 1 /\
      pp_scheme pp = scheme r /\
      pp_network pp = network r /\
      exists auth,
        authorization (payload pp) = Some auth /\
        auth_from auth = address account /\
        auth_to auth = payTo r /\
        auth_amount auth = maxAmountRequired r /\
        auth_assetId auth = JS.parseInt (asset r)).
Proof.
  unfold processAlgorandPayment, getSuggestedParams, BigInt.
  destruct (isAlgorandNetwork (network r)); cbn [negb].
  2: { unfold throw. intros H; inversion H; subst.
       split; [left; reflexivity | split; [reflexivity | discriminate]]. }
  destruct (exceeds_max r maxValue).
  { unfold throw. intros H; inversion H; subst.
    split; [left; reflexivity | split; [reflexivity | discriminate]]. }
  run_m.
  destruct (getAlgodClient (network r)) as [client | e] eqn:Hclient.
  2: { intros H; inversion H; subst.
       split; [left; reflexivity | split; [reflexivity | discriminate]]. }
  destruct (node_getTransactionParams client (node w)) as [[sp | e] n].
  2: { intros H; inversion H; subst.
       split; [right; exists client, n; split; [reflexivity | reflexivity] |].
       split; [cbn [calls]; rewrite submitted_app; apply app_nil_r
              | discriminate]. }
  assert (Hsub : submitted
                   (calls {| node := n;
                             calls := calls w
                                        ++ [CallGetTransactionParams client] |})
                 = submitted (calls w)).
  { cbn [calls]. rewrite submitted_app. apply app_nil_r. }
  destruct (JS.BigInt_of_string (maxAmountRequired r)) as [z |].
  2: { intros H; inversion H; subst.
       split; [right; exists client, n; split; [reflexivity | reflexivity] | split; [exact Hsub | discriminate]]. }
  destruct (makeAssetTransferTxnWithSuggestedParamsFromObject _)
    as [txn | e].
  2: { intros H; inversion H; subst.
       split; [right; exists client, n; split; [reflexivity | reflexivity] | split; [exact Hsub | discriminate]]. }
  destruct (signTxn txn (privateKey account)) as [bytes | e].
  2: { intros H; inversion H; subst.
       split; [right; exists client, n; split; [reflexivity | reflexivity] | split; [exact Hsub | discriminate]]. }
  intros H; inversion H; subst.
  split; [right; exists client, n; split; [reflexivity | reflexivity] | split; [exact Hsub |]].
  intros pp E. inversion E; subst. cbn.
  repeat split. eexists. split; [reflexivity |]. cbn. repeat split.
Qed.

(** ** The client wallet *)

Lemma getSuggestedParams_submits_nothing net w res w1 :
  getSuggestedParams net w = (res, w1) ->
  submitted (calls w1) = submitted (calls w).
Proof.
  unfold getSuggestedParams. run_m.
  destruct (getAlgodClient net) as [client | e].
  - destruct (node_getTransactionParams client (node w)) as [res' n].
    intros H; inversion H; subst. cbn [calls].
    rewrite submitted_app. apply app_nil_r.
  - intros H; inversion H; subst. reflexivity.
Qed.

Lemma isOptedIntoASA_inv this assetId w :
  exists b w1,
    isOptedIntoASA this assetId w = (Ok b, w1) /\
    submitted (calls w1) = submitted (calls w) /\
    (JS.strict_eq assetId (S754_zero false) = true -> b = true /\ w1 = w).
Proof.
  unfold isOptedIntoASA. run_m.
  destruct (JS.strict_eq assetId (S754_zero false)).
  - eexists _, _. repeat split.
  - destruct (getAlgodClient (wallet_network this)) as [client | e].
    + destruct (node_accountInformation client
                  (address (wallet_account this)) (node w))
        as [[info | e] n];
        eexists _, _; (split; [reflexivity |]);
        (split; [cbn [calls]; rewrite submitted_app; apply app_nil_r
                | discriminate]).
    + eexists _, _. split; [reflexivity |].
      split; [reflexivity | discriminate].
Qed.

Lemma optIntoASA_inv this assetId w :
  exists b w1,
    optIntoASA this assetId w = (Ok b, w1) /\
    ((b = false /\ submitted (calls w1) = submitted (calls w)) \/
     exists envelope,
       is_opt_in this assetId envelope /\
       submitted (calls w1) = (submitted (calls w) ++ [envelope])%list).
Proof.
  unfold optIntoASA, try_catch, bind at 1, lift.
  destruct (getAlgodClient (wallet_network this)) as [client | e].
  2: { unfold ret. eexists _, _. split; [reflexivity |]. left. auto. }
  unfold bind at 1.
  destruct (getSuggestedParams (wallet_network this) w)
    as [[sp | e] w2] eqn:Hparams;
    pose proof (getSuggestedParams_submits_nothing _ _ _ _ Hparams) as Hsub2.
  2: { unfold ret. eexists _, _. split; [reflexivity |]. left. auto. }
  unfold bind at 1.
  destruct (makeAssetTransferTxnWithSuggestedParamsFromObject _)
    as [optInTxn | e] eqn:Hmake.
  2: { unfold ret. eexists _, _. split; [reflexivity |]. left. auto. }
  unfold bind at 1.
  destruct (signTxn optInTxn (privateKey (wallet_account this)))
    as [envelope | e] eqn:Hsign.
  2: { unfold ret. eexists _, _. split; [reflexivity |]. left. auto. }
  assert (Hopt : is_opt_in this assetId envelope).
  { exists sp, optInTxn. split; assumption. }
  unfold bind at 1, client_sendRawTransaction, request.
  destruct (node_sendRawTransaction client envelope (node w2))
    as [[txId | e] n3].
  2: { unfold ret. eexists _, _. split; [reflexivity |]. right.
       exists envelope. split; [exact Hopt |]. cbn [calls].
       rewrite submitted_app, Hsub2. reflexivity. }
  unfold bind at 1.
  destruct (waitForConfirmation (wallet_network this) txId 10
              {| node := n3;
                 calls := calls w2
                            ++ [CallSendRawTransaction client envelope] |})
    as [[info | e] w4] eqn:Hwait;
    pose proof (waitForConfirmation_submits_nothing _ _ _ _ _ _ Hwait)
      as Hsub4;
    cbn [calls] in Hsub4; rewrite submitted_app, Hsub2 in Hsub4;
    unfold ret; eexists _, _; (split; [reflexivity |]); right;
    exists envelope; (split; [exact Hopt | exact Hsub4]).
Qed.

Lemma ensureOptIn_inv this assetId w :
  exists b w1,
    ensureOptIn this assetId w = (Ok b, w1) /\
    (submitted (calls w1) = submitted (calls w) \/
     exists envelope,
       is_opt_in this assetId envelope /\
       submitted (calls w1) = (submitted (calls w) ++ [envelope])%list) /\
    (fst (isOptedIntoASA this assetId w) = Ok true ->
     b = true /\ submitted (calls w1) = submitted (calls w)).
Proof.
  unfold ensureOptIn, try_catch, bind.
  destruct (isOptedIntoASA_inv this assetId w)
    as (opted & w2 & Hopted & Hsub2 & _).
  rewrite Hopted. cbn [fst].
  destruct opted.
  - unfold ret. eexists _, _. split; [reflexivity |]. auto.
  - destruct (optIntoASA_inv this assetId w2)
      as (b & w3 & Hopt & Hcases).
    rewrite Hopt. eexists _, _. split; [reflexivity |].
    split; [| discriminate].
    destruct Hcases as [(_ & Hsub3) | (envelope & Henv & Hsub3)].
    + left. rewrite Hsub3. exact Hsub2.
    + right. exists envelope. rewrite Hsub3, Hsub2. auto.
Qed.

(** X15: [ensureOptIn] always returns and never throws.  It sends at
    most one transaction to the network, the opt-in: a transfer of
    zero units of the asset from the account to itself.  When the
    account is found to hold the asset, and always for asset 0, it
    answers true and sends nothing. *)
Theorem ensureOptIn_outcome this assetId w :
  exists b w1,
    ensureOptIn this assetId w = (Ok b, w1) /\
    (submitted (calls w1) = submitted (calls w) \/
     exists suggestedParams optInTxn envelope,
       makeAssetTransferTxnWithSuggestedParamsFromObject
         {| arg_keys := FromTo;
            arg_sender := address (wallet_account this);
            arg_receiver := address (wallet_account this);
            arg_amount := 0;
            arg_assetIndex := assetId;
            arg_suggestedParams := suggestedParams;
            arg_note := None |} = Ok optInTxn /\
       signTxn optInTxn (privateKey (wallet_account this)) = Ok envelope /\
       submitted (calls w1) = (submitted (calls w) ++ [envelope])%list) /\
    (fst (isOptedIntoASA this assetId w) = Ok true ->
     b = true /\ submitted (calls w1) = submitted (calls w)) /\
    (JS.strict_eq assetId (S754_zero false) = true -> b = true /\ w1 = w).
Proof.
  destruct (ensureOptIn_inv this assetId w)
    as (b & w1 & E & Hcases & Hopted).
  exists b, w1. split; [exact E |].
  split; [| split; [exact Hopted |]].
  - destruct Hcases as [H | (envelope & (sp & optInTxn & Hmake & Hsign) & H)];
      [left; exact H |].
    right. exists sp, optInTxn, envelope. auto.
  - intros Hzero.
    destruct (isOptedIntoASA_inv this assetId w)
      as (opted & w2 & Hopted' & _ & Hz).
    destruct (Hz Hzero) as [-> ->].
    unfold ensureOptIn, try_catch, bind in E. rewrite Hopted' in E.
    unfold ret in E. inversion E; subst. auto.
Qed.

(** X16: [signPayment] sends at most one transaction to the network,
    and that one is the opt-in for the asset of the first offer; the
    payment it signs is returned and not sent.  It signs only after
    [ensureOptIn] answered true. *)
Theorem signPayment_submissions this accepts w res w1 :
  signPayment this accepts w = (res, w1) ->
  (submitted (calls w1) = submitted (calls w) \/
   exists paymentOption rest envelope,
     accepts = paymentOption :: rest /\
     is_opt_in this (JS.parseInt (asset paymentOption)) envelope /\
     submitted (calls w1) = (submitted (calls w) ++ [envelope])%list) /\
  (forall pp,
      res = Ok pp ->
      exists paymentOption rest w2,
        accepts = paymentOption :: rest /\
        ensureOptIn this (JS.parseInt (asset paymentOption)) w
          = (Ok true, w2)).
Proof.
  unfold signPayment.
  destruct accepts as [| paymentOption rest].
  { unfold throw. intros H; inversion H; subst.
    split; [left; reflexivity | discriminate]. }
  destruct (isAlgorandNetwork (network paymentOption)); cbn [negb].
  2: { unfold throw. intros H; inversion H; subst.
       split; [left; reflexivity | discriminate]. }
  unfold bind at 1, lift.
  destruct (BigInt (maxAmountRequired paymentOption)) as [z | e].
  2: { intros H; inversion H; subst.
       split; [left; reflexivity | discriminate]. }
  unfold bind at 1.
  destruct (ensureOptIn_inv this (JS.parseInt (asset paymentOption)) w)
    as (b & w2 & Hensure & Hcases & _).
  rewrite Hensure.
  assert (Hsub : forall w3,
             submitted (calls w3) = submitted (calls w2) ->
             submitted (calls w3) = submitted (calls w) \/
             exists paymentOption' rest' envelope,
               paymentOption :: rest = paymentOption' :: rest' /\
               is_opt_in this (JS.parseInt (asset paymentOption')) envelope /\
               submitted (calls w3)
                 = (submitted (calls w) ++ [envelope])%list).
  { intros w3 E.
    destruct Hcases as [H | (envelope & Henv & H)].
    - left. rewrite E. exact H.
    - right. exists paymentOption, rest, envelope. rewrite E. auto. }
  destruct b; cbn [negb].
  2: { unfold throw. intros H; inversion H; subst.
       split; [apply Hsub; reflexivity | discriminate]. }
  unfold bind at 1.
  destruct (getSuggestedParams (network paymentOption) w2)
    as [[sp | e] w3] eqn:Hparams;
    pose proof (getSuggestedParams_submits_nothing _ _ _ _ Hparams) as Hsub3.
  2: { intros H; inversion H; subst.
       split; [apply Hsub; exact Hsub3 | discriminate]. }
  unfold bind at 1, lift.
  destruct (makeAssetTransferTxnWithSuggestedParamsFromObject _)
    as [txn | e].
  2: { intros H; inversion H; subst.
       split; [apply Hsub; exact Hsub3 | discriminate]. }
  unfold bind at 1.
  destruct (signTxn txn (privateKey (wallet_account this))) as [bytes | e].
  2: { intros H; inversion H; subst.
       split; [apply Hsub; exact Hsub3 | discriminate]. }
  unfold ret. intros H; inversion H; subst.
  split; [apply Hsub; exact Hsub3 |].
  intros pp _. exists paymentOption, rest, w2. auto.
Qed.

(** X17: the two opt-in checks agree on every asset but asset 0.  For
    asset 0 the wallet answers true without a request, while the
    facilitator fetches the account first and answers true only when
    the node delivers it. *)
Theorem isOptedIntoASA_facilitator_and_wallet this assetId w :
  (JS.strict_eq assetId (S754_zero false) = false ->
   Facilitator.isOptedIntoASA (wallet_network this)
     (address (wallet_account this)) assetId w
     = isOptedIntoASA this assetId w) /\
  (JS.strict_eq assetId (S754_zero false) = true ->
   isOptedIntoASA this assetId w = (Ok true, w) /\
   (fst (Facilitator.isOptedIntoASA (wallet_network this)
           (address (wallet_account this)) assetId w) = Ok true
    <-> exists client info n,
          getAlgodClient (wallet_network this) = Ok client /\
          node_accountInformation client (address (wallet_account this))
            (node w) = (Ok info, n))).
Proof.
  unfold Facilitator.isOptedIntoASA, isOptedIntoASA. run_m.
  split; intros Hzero; rewrite Hzero.
  - destruct (getAlgodClient (wallet_network this)) as [client | e];
      [| reflexivity].
    destruct (node_accountInformation client
                (address (wallet_account this)) (node w))
      as [[info | e] n]; reflexivity.
  - split; [reflexivity |].
    destruct (getAlgodClient (wallet_network this)) as [client | e].
    + destruct (node_accountInformation client
                  (address (wallet_account this)) (node w))
        as [[info | e] n] eqn:Hinfo; cbn [fst]; split.
      * intros _. exists client, info, n. split; [reflexivity | exact Hinfo].
      * reflexivity.
      * discriminate.
      * intros (client' & info & n' & E & H). inversion E; subst.
        rewrite Hinfo in H. discriminate H.
    + cbn [fst]. split; [discriminate |].
      intros (client' & info & n' & E & _). discriminate E.
Qed.

(** X18: [submitAlgorandPayment] reports every refusal of the node as
    an error whose message starts with
    ["Failed to submit Algorand transaction: "], also one that says
    that the transaction is already in the ledger, which the settler
    takes for a success; when the node accepts, both return the
    identifier that the node gave. *)
Theorem submitAlgorandPayment_and_settler net p w client sent n :
  getAlgodClient net = Ok client ->
  node_sendRawTransaction client (Buffer_from_base64 (signature p)) (node w)
    = (sent, n) ->
  let w1 := after w n (CallSendRawTransaction client
                         (Buffer_from_base64 (signature p))) in
  match sent with
  | Ok txId =>
      Facilitator.submitAlgorandPayment net p w = (Ok txId, w1) /\
      submit client p w = (Ok txId, w1)
  | Throw message =>
      Facilitator.submitAlgorandPayment net p w
        = (Throw ("Failed to submit Algorand transaction: " ++ message), w1)
      /\ submit client p w
         = (if JS.includes message "already in ledger"
            then Ok (txnId_or_empty p) else Throw message, w1)
  end.
Proof.
  intros Hclient Hsend.
  assert (Hnet : isAlgorandNetwork net = true).
  { unfold getAlgodClient in Hclient.
    destruct (isAlgorandNetwork net); [reflexivity | discriminate]. }
  unfold Facilitator.submitAlgorandPayment, submit, after.
  rewrite Hnet. cbn [negb]. run_m. rewrite Hclient, Hsend.
  destruct sent as [txId | message]; [split; reflexivity |].
  split; [reflexivity |].
  destruct (JS.includes message "already in ledger"); reflexivity.
Qed.

(** ** Built requirements and the verifier *)

Lemma createPaymentRequirements_algorand_asset options net x r :
  opt_network options = Some net ->
  isAlgorandNetwork net = true ->
  money_value (opt_price options) = Some x ->
  createPaymentRequirements options = Ok r ->
  asset r = base_sepolia_usdc.
Proof.
  intros Hnet Halgo Hprice. unfold createPaymentRequirements.
  rewrite Hnet. cbv zeta. cbn [default].
  rewrite (processPriceToAtomicAmount_money _ net x Hprice).
  intros H; inversion H; subst. cbn [asset aa_assetAddress].
  apply usdc_address_for_algorand. exact Halgo.
Qed.

(** X19: requirements that [createPaymentRequirements] builds from a
    money price for an Algorand network cannot be paid: their asset is
    a contract address, which [parseInt] reads as a hexadecimal number
    far above [2^64], so the verifier rejects every transaction whose
    asset index is a number below [2^64]. *)
Theorem createPaymentRequirements_algorand_money_unpayable
        options net x r pp w v w1 txn index z :
  opt_network options = Some net ->
  isAlgorandNetwork net = true ->
  money_value (opt_price options) = Some x ->
  createPaymentRequirements options = Ok r ->
  decodeSignedTransaction (Buffer_from_base64 (signature (payload pp)))
    = Ok txn ->
  txn_asset_id txn = JNumber index ->
  JS.to_Z index = Some z ->
  z < 2 ^ 64 ->
  verifyAlgorandPayment pp r w = (Ok v, w1) ->
  isValid v = false.
Proof.
  intros Hnet Halgo Hprice Hbuilt Hdec Hindex Hz Hsmall Hver.
  destruct (isValid v) eqn:Hvalid; [| reflexivity].
  destruct (verifyAlgorandPayment_valid_inv pp r w v w1 Hver Hvalid)
    as (auth & txn' & who & client & st & n & _ & _ & _ & Hdec'
        & _ & _ & _ & _ & Hasset & _).
  rewrite Hdec in Hdec'. inversion Hdec'; subst txn'.
  rewrite (createPaymentRequirements_algorand_asset _ _ _ _
             Hnet Halgo Hprice Hbuilt), Hindex in Hasset.
  cbn [numeric_strict_eq] in Hasset.
  destruct (strict_eq_true _ _ Hasset) as [-> | (s & s' & _ & Hzero)].
  - vm_compute in Hz. inversion Hz; subst z. vm_compute in Hsmall.
    discriminate Hsmall.
  - vm_compute in Hzero. discriminate Hzero.
Qed.

(** ** Seconds and rounds *)

Lemma below_spec (n : nat) (p : Z -> bool) :
  below n p = true ->
  forall z, 0 <= z < Z.of_nat n -> p z = true.
Proof.
  induction n as [| k IH]; intros H z Hz; [lia |].
  cbn [below] in H. apply andb_true_iff in H. destruct H as [Hk Hrest].
  destruct (Z.eq_dec z (Z.of_nat k)) as [-> | Hne]; [exact Hk |].
  apply IH; [exact Hrest | lia].
Qed.

Lemma rounds_exact_two_hours :
  below (Z.to_nat 7201) rounds_exact = true.
Proof. vm_compute. reflexivity. Qed.

(** X20: for a timeout of up to two hours, the number of rounds that
    the signers and the settler compute on doubles,
    [Math.ceil(seconds / 4.5)], is the exact ceiling of
    [2 * seconds / 9]. *)
Theorem secondsToRounds_exact (seconds : Z) :
  0 <= seconds <= 7200 ->
  secondsToRounds seconds = (2 * seconds + 8) / 9.
Proof.
  intros H. apply Z.eqb_eq.
  apply (below_spec (Z.to_nat 7201) rounds_exact rounds_exact_two_hours).
  rewrite Z2Nat.id; lia.
Qed.

(** ** The authorization mirror and the wallet's payload *)

Lemma verifyAlgorandSignature_reads p p' who auth auth' :
  signature p = signature p' ->
  authorization p = Some auth ->
  authorization p' = Some auth' ->
  auth_to auth = auth_to auth' ->
  auth_amount auth = auth_amount auth' ->
  auth_assetId auth = auth_assetId auth' ->
  verifyAlgorandSignature p who = verifyAlgorandSignature p' who.
Proof.
  intros Hsig Hauth Hauth' Hto Hamount Hasset.
  unfold verifyAlgorandSignature, verifyAlgorandSignature_try.
  rewrite Hsig, Hauth, Hauth', Hto, Hamount, Hasset. reflexivity.
Qed.

(** X21: of the authorization that mirrors the transaction, the
    verifier reads the recipient, the amount and the asset only.  The
    sender, the number of valid rounds and the note that the
    authorization names, and the transaction identifier of the
    payload, have no influence on its answer: the payer it reports is
    the sender of the signed transaction. *)
Theorem verifyAlgorandPayment_reads_authorization pp pp' r w auth auth' :
  signature (payload pp) = signature (payload pp') ->
  authorization (payload pp) = Some auth ->
  authorization (payload pp') = Some auth' ->
  auth_to auth = auth_to auth' ->
  auth_amount auth = auth_amount auth' ->
  auth_assetId auth = auth_assetId auth' ->
  verifyAlgorandPayment pp r w = verifyAlgorandPayment pp' r w.
Proof.
  intros Hsig Hauth Hauth' Hto Hamount Hasset.
  rewrite !verifyAlgorandPayment_equation.
  rewrite Hsig, Hauth, Hauth'.
  destruct (isAlgorandNetwork (network r)); [| reflexivity]. cbn [negb].
  destruct (String.eqb (signature (payload pp')) ""); [reflexivity |].
  destruct (decodeSignedTransaction _) as [txn | e]; [| reflexivity].
  destruct (encodeAddress (sender_key txn)) as [who | e]; [| reflexivity].
  rewrite (verifyAlgorandSignature_reads (payload pp) (payload pp') who
             auth auth' Hsig Hauth Hauth' Hto Hamount Hasset).
  reflexivity.
Qed.

(** X22: signing with the client wallet, then verifying.  Let the
    wallet sign the first offer: the network is a configured Algorand
    network, [maxAmountRequired] converts to a bigint and is the
    decimal text of its own value, the opt-in is ensured, the node
    suggests parameters, and algosdk builds and signs the transaction.
    Let the signed envelope decode to a transaction that carries what
    was signed.  Then the verifier accepts the payload against the
    offer with the wallet's address as payer, in every world whose
    node reports a round up to the first suggested round plus the
    rounds of the timeout. *)
Theorem signPayment_then_verify
        this r rest w0 w1 client sp n2 z txn bytes txn' w st n :
  isAlgorandNetwork (network r) = true ->
  JS.BigInt_of_string (maxAmountRequired r) = Some z ->
  JS.BigInt_toString z = maxAmountRequired r ->
  ensureOptIn this (JS.parseInt (asset r)) w0 = (Ok true, w1) ->
  getAlgodClient (network r) = Ok client ->
  node_getTransactionParams client (node w1) = (Ok sp, n2) ->
  makeAssetTransferTxnWithSuggestedParamsFromObject
    (signPayment_args this r sp z) = Ok txn ->
  signTxn txn (privateKey (wallet_account this)) = Ok bytes ->
  String.eqb (Buffer_toString_base64 bytes) "" = false ->
  decodeSignedTransaction
    (Buffer_from_base64 (Buffer_toString_base64 bytes)) = Ok txn' ->
  sdk_carries (signPayment_args this r sp z) txn' ->
  node_status client (node w) = (Ok st, n) ->
  JS.lt (JS.Number_of_Z
           (firstRound sp + secondsToRounds (maxTimeoutSeconds r)))
        (JS.Number_of_Z (status_lastRound st)) = false ->
  exists pp,
    signPayment this (r :: rest) w0
      = (Ok pp, after w1 n2 (CallGetTransactionParams client)) /\
    verifyAlgorandPayment pp r w
      = (Ok (valid (address (wallet_account this))),
         after w n (CallStatus client)).
Proof.
  intros Hnet Hz Hcanon Hensure Hclient Hparams Hmake Hsign Hnonempty Hdec
         (Hfrom & Hto & Hamount & Hasset & Hlast) Hstatus Hround.
  cbn [signPayment_args arg_sender arg_receiver arg_amount
       arg_assetIndex arg_suggestedParams lastRound] in Hfrom, Hto, Hamount,
       Hasset, Hlast.
  set (auth :=
         {| auth_from := address (wallet_account this);
            auth_to := payTo r;
            auth_amount := JS.BigInt_toString z;
            auth_assetId := JS.parseInt (asset r);
            auth_validRounds := secondsToRounds (maxTimeoutSeconds r);
            auth_note := description r |}).
  set (p := {| signature := Buffer_toString_base64 bytes;
               authorization := Some auth;
               txnId := Some (txID txn) |}).
  exists {| x402Version := 1; pp_scheme := scheme r;
            pp_network := network r; payload := p |}.
  split.
  - unfold signPayment, getSuggestedParams, BigInt.
    rewrite Hnet. cbn [negb]. unfold bind at 1, lift. rewrite Hz.
    unfold bind at 1. rewrite Hensure. cbn [negb].
    run_m. rewrite Hclient, Hparams, Hmake, Hsign. reflexivity.
  - assert (Hsig : verifyAlgorandSignature p (address (wallet_account this))
                   = true).
    { apply (verifyAlgorandSignature_of_signer p auth txn');
        [reflexivity | exact Hdec | exact Hfrom | exact Hto | exact Hamount]. }
    rewrite verifyAlgorandPayment_equation. cbn [payload].
    subst p. cbn [signature authorization] in *.
    rewrite Hnet, Hnonempty, Hdec, Hfrom, Hsig. cbn [negb].
    rewrite Hto, String.eqb_refl. cbn [negb].
    rewrite Hamount, Hcanon, String.eqb_refl. cbn [negb].
    rewrite Hasset. cbn [negb]. unfold check_expiration.
    rewrite Hclient, Hstatus, Hlast, Hround. reflexivity.
Qed.

End Coverage.

Section NameFacts.

Context {runtime : NFD.Runtime} {Service : Type} {http : NFD.Http Service}.

Implicit Types (w : NFD.Web Service).

Lemma checked_Ok nfdName response response' :
  NFD.checked nfdName response = Ok response' ->
  response' = response /\ NFD.ok response = true.
Proof.
  unfold NFD.checked. destruct (NFD.ok response); cbn [negb].
  - intros H; inversion H; auto.
  - destruct (_ =? _); discriminate.
Qed.

Lemma checked_Throw nfdName response message :
  NFD.checked nfdName response = Throw message ->
  JS.includes message "NFD" = true.
Proof.
  unfold NFD.checked. destruct (NFD.ok response); cbn [negb];
    [discriminate |].
  destruct (_ =? _); intros H; inversion H; reflexivity.
Qed.

Lemma is_string_true v s :
  NFD.is_string v s = true -> v = Some (NFD.JStr s).
Proof.
  destruct v as [[] |]; try discriminate. cbn [NFD.is_string].
  intros H. apply String.eqb_eq in H. subst. reflexivity.
Qed.

(** What a successful resolution has seen. *)
Lemma resolveNFD_inv nfdName network w a w1 :
  NFD.resolveNFD nfdName network w = (Ok a, w1) ->
  NFD.isNFDName nfdName = true /\
  NFD.isValidAlgorandAddress a = true /\
  exists apiEndpoint response data s,
    lookup NFD.NFD_API_ENDPOINTS (default network "algorand-mainnet")
      = Some apiEndpoint /\
    NFD.fetch (apiEndpoint ++ "/nfd/" ++ NFD.encodeURIComponent nfdName)
      (NFD.service w) = (Ok response, s) /\
    w1 = {| NFD.service := s;
            NFD.requests :=
              (NFD.requests w
                 ++ [(apiEndpoint ++ "/nfd/"
                        ++ NFD.encodeURIComponent nfdName)%string])%list |} /\
    NFD.ok response = true /\
    NFD.json response = Ok data /\
    NFD.member data "state" = Ok (Some (NFD.JStr "owned")) /\
    NFD.member data "depositAccount" = Ok (Some a).
Proof.
  unfold NFD.resolveNFD. cbv zeta.
  destruct (NFD.isNFDName nfdName); cbn [negb]; [| discriminate].
  destruct (lookup NFD.NFD_API_ENDPOINTS (default network "algorand-mainnet"))
    as [apiEndpoint |]; [| discriminate].
  unfold NFD.resolveNFD_try, NFD.get.
  destruct (NFD.fetch _ (NFD.service w)) as [[response | e] s] eqn:Hfetch.
  2: { destruct (JS.includes e "NFD"); discriminate. }
  destruct (NFD.checked nfdName response) as [response' | e] eqn:Hchecked.
  2: { cbn [result_bind]. destruct (JS.includes e "NFD"); discriminate. }
  apply checked_Ok in Hchecked. destruct Hchecked as [-> Hok].
  cbn [result_bind].
  destruct (NFD.json response) as [data | e] eqn:Hjson.
  2: { cbn [result_bind]. destruct (JS.includes e "NFD"); discriminate. }
  cbn [result_bind].
  destruct (NFD.member data "state") as [state | e] eqn:Hstate.
  2: { cbn [result_bind]. destruct (JS.includes e "NFD"); discriminate. }
  cbn [result_bind].
  destruct (NFD.is_string state "owned") eqn:Howned; cbn [negb].
  2: { destruct (JS.includes _ "NFD"); discriminate. }
  apply is_string_true in Howned. subst state.
  destruct (NFD.member data "depositAccount") as [address | e] eqn:Haddr.
  2: { cbn [result_bind]. destruct (JS.includes e "NFD"); discriminate. }
  cbn [result_bind].
  destruct address as [a' |].
  2: { destruct (NFD.member data "owner"); cbn [result_bind];
       destruct (JS.includes _ "NFD"); discriminate. }
  destruct (NFD.truthy (Some a')); cbn [negb].
  2: { destruct (NFD.member data "owner"); cbn [result_bind];
       destruct (JS.includes _ "NFD"); discriminate. }
  destruct (NFD.isValidAlgorandAddress a') eqn:Hvalid; cbn [negb].
  2: { destruct (JS.includes _ "NFD"); discriminate. }
  intros H; inversion H; subst.
  split; [reflexivity | split; [exact Hvalid |]].
  exists apiEndpoint, response, data, s. auto 10.
Qed.

(** X23: an address that [resolveAlgorandAddress] returns is valid.
    It is the argument itself, returned without a request, or the
    deposit account of a name in the state ["owned"], read from the
    answer to one request to the endpoint of the network. *)
Theorem resolveAlgorandAddress_sound addressOrNFD network w a w1 :
  NFD.resolveAlgorandAddress addressOrNFD network w = (Ok a, w1) ->
  NFD.isValidAlgorandAddress a = true /\
  ((a = NFD.JStr addressOrNFD /\ w1 = w) \/
   (NFD.isNFDName addressOrNFD = true /\
    exists apiEndpoint response data s,
      lookup NFD.NFD_API_ENDPOINTS (default network "algorand-mainnet")
        = Some apiEndpoint /\
      NFD.fetch (apiEndpoint ++ "/nfd/"
                   ++ NFD.encodeURIComponent addressOrNFD)
        (NFD.service w) = (Ok response, s) /\
      w1 = {| NFD.service := s;
              NFD.requests :=
                (NFD.requests w
                   ++ [(apiEndpoint ++ "/nfd/"
                          ++ NFD.encodeURIComponent addressOrNFD)%string])%list |} /\
      NFD.ok response = true /\
      NFD.json response = Ok data /\
      NFD.member data "state" = Ok (Some (NFD.JStr "owned")) /\
      NFD.member data "depositAccount" = Ok (Some a))).
Proof.
  unfold NFD.resolveAlgorandAddress. cbv zeta.
  destruct (NFD.isValidAlgorandAddress (NFD.JStr addressOrNFD)) eqn:Hvalid.
  - intros H; inversion H; subst. auto.
  - destruct (NFD.isNFDName addressOrNFD) eqn:Hname; [| discriminate].
    intros H. apply resolveNFD_inv in H.
    destruct H as (_ & Ha & H). cbn [default] in H. auto.
Qed.

Lemma resolveNFD_Throw nfdName network w message w1 :
  NFD.resolveNFD nfdName network w = (Throw message, w1) ->
  JS.includes message "NFD" = true.
Proof.
  unfold NFD.resolveNFD. cbv zeta.
  destruct (NFD.isNFDName nfdName); cbn [negb].
  2: { intros H; inversion H; reflexivity. }
  destruct (lookup NFD.NFD_API_ENDPOINTS _) as [apiEndpoint |].
  2: { intros H; inversion H; reflexivity. }
  destruct (NFD.resolveNFD_try _ _ _) as [[a | e] w2]; [discriminate |].
  destruct (JS.includes e "NFD") eqn:He; intros H; inversion H; subst.
  - exact He.
  - reflexivity.
Qed.

(** X24: every error of [resolveAlgorandAddress] has ["NFD"] in its
    message, whether the argument is neither an address nor a name,
    the network has no endpoint, the service refuses, or the request
    itself fails: a failure of the transport or of the body is
    wrapped in a message that names the NFD. *)
Theorem resolveAlgorandAddress_errors addressOrNFD network w message w1 :
  NFD.resolveAlgorandAddress addressOrNFD network w = (Throw message, w1) ->
  JS.includes message "NFD" = true.
Proof.
  unfold NFD.resolveAlgorandAddress. cbv zeta.
  destruct (NFD.isValidAlgorandAddress _); [discriminate |].
  destruct (NFD.isNFDName addressOrNFD).
  - apply resolveNFD_Throw.
  - intros H; inversion H.
    apply (includes_app_r "Invalid Algorand address or ").
    reflexivity.
Qed.

(** X25: [getNFDInfo] makes the request of [resolveNFD]: when a name
    resolves, [getNFDInfo] returns, in the same state of the service,
    the record whose deposit account is the resolved address and whose
    state is ["owned"]. *)
Theorem getNFDInfo_of_resolved nfdName network w a w1 :
  NFD.resolveNFD nfdName network w = (Ok a, w1) ->
  exists data,
    NFD.getNFDInfo nfdName network w = (Ok data, w1) /\
    NFD.member data "state" = Ok (Some (NFD.JStr "owned")) /\
    NFD.member data "depositAccount" = Ok (Some a).
Proof.
  intros H. apply resolveNFD_inv in H.
  destruct H as (Hname & _ & apiEndpoint & response & data & s & Hlookup
                 & Hfetch & -> & Hok & Hjson & Hstate & Haddr).
  exists data. split; [| split; assumption].
  unfold NFD.getNFDInfo, NFD.get, NFD.checked. cbv zeta.
  rewrite Hname, Hlookup. cbn [negb]. rewrite Hfetch.
  cbn [result_bind]. rewrite Hok. cbn [negb result_bind]. rewrite Hjson.
  reflexivity.
Qed.

Ltac swallowed H url :=
  match type of H with
  | (if JS.includes ?e "NFD" then _ else _) = _ =>
      let He := fresh "He" in
      destruct (JS.includes e "NFD") eqn:He; inversion H; subst;
      [right; right; split; [exact He | exists url; reflexivity] | exact I]
  end.

(** X26: [reverseResolveNFD] throws for an invalid address and for a
    network without an endpoint, both before any request, and
    otherwise only errors whose message contains ["NFD"], such as a
    status other than 404; every other failure of the request or of
    the body is answered with [null].  A name it returns is truthy and
    is the [name] of the entry that the body holds for the address. *)
Theorem reverseResolveNFD_outcome address network w res w1 :
  NFD.reverseResolveNFD address network w = (res, w1) ->
  match res with
  | Throw message =>
      (message = "Invalid Algorand address: " ++ address /\ w1 = w) \/
      (lookup NFD.NFD_API_ENDPOINTS (default network "algorand-mainnet")
         = None /\ w1 = w) \/
      (JS.includes message "NFD" = true /\
       exists url, NFD.requests w1 = (NFD.requests w ++ [url])%list)
  | Ok None => True
  | Ok (Some name) =>
      NFD.isValidAlgorandAddress (NFD.JStr address) = true /\
      NFD.truthy (Some name) = true /\
      exists url response s data entry,
        NFD.fetch url (NFD.service w) = (Ok response, s) /\
        NFD.requests w1 = (NFD.requests w ++ [url])%list /\
        NFD.ok response = true /\
        NFD.json response = Ok data /\
        NFD.member data address = Ok (Some entry) /\
        NFD.member entry "name" = Ok (Some name)
  end.
Proof.
  unfold NFD.reverseResolveNFD. cbv zeta.
  destruct (NFD.isValidAlgorandAddress (NFD.JStr address)); cbn [negb].
  2: { intros H; inversion H; subst. left. auto. }
  destruct (lookup NFD.NFD_API_ENDPOINTS _) as [apiEndpoint |].
  2: { intros H; inversion H; subst. right. left. auto. }
  unfold NFD.reverseResolveNFD_try, NFD.get.
  set (url := apiEndpoint ++ "/nfd/lookup?address="
                ++ NFD.encodeURIComponent address ++ "&view=tiny").
  destruct (NFD.fetch url (NFD.service w)) as [[response | e] s] eqn:Hfetch.
  2: { intros H. swallowed H url. }
  destruct (NFD.ok response) eqn:Hok; cbn [negb].
  2: { destruct (NFD.status response =? 404).
       - intros H; inversion H; subst. exact I.
       - intros H; inversion H; subst. right. right.
         split; [reflexivity |]. exists url. reflexivity. }
  destruct (NFD.json response) as [data | e] eqn:Hjson; cbn [result_bind].
  2: { intros H. swallowed H url. }
  destruct (NFD.member data address) as [nfdData | e] eqn:Hentry;
    cbn [result_bind].
  2: { intros H. swallowed H url. }
  destruct nfdData as [entry |].
  2: { intros H; inversion H; subst. exact I. }
  destruct (NFD.truthy (Some entry)); cbn [negb].
  2: { intros H; inversion H; subst. exact I. }
  destruct (NFD.member entry "name") as [name | e] eqn:Hname;
    cbn [result_bind].
  2: { intros H. swallowed H url. }
  destruct (NFD.truthy name) eqn:Htruthy; cbn [negb].
  2: { intros H; inversion H; subst. exact I. }
  intros H; inversion H; subst.
  destruct name as [name |]; [| exact I].
  split; [reflexivity | split; [exact Htruthy |]].
  exists url, response, s, data, entry. auto 10.
Qed.

End NameFacts.

(** ** The further properties on the reference platform *)

Lemma waitForConfirmation_bounded_witness :
  let w := Sim.world 1000 [] in
  let run := waitForConfirmation "algorand-testnet" Sim.signed_txid 3 w in
  exists trace,
    calls (snd run) = trace /\
    (polls trace <= 3)%nat /\
    submitted trace = [].
Proof.
  intros w run.
  destruct (waitForConfirmation_bounded "algorand-testnet" Sim.signed_txid 3
              w (fst run) (snd run))
    as (trace & Hcalls & Hpolls & Hsubmitted & _).
  - vm_compute. reflexivity.
  - exists trace. split; [exact Hcalls |].
    split; [exact Hpolls | exact Hsubmitted].
Defined.

Lemma waitForConfirmation_rejection_witness :
  let answer := "asset 10458941 not found in account" in
  fst (poll Sim.testnet Sim.signed_txid (Cases.rejecting answer)) = Ok None.
Proof.
  intros answer.
  rewrite (waitForConfirmation_rejection Sim.testnet Sim.signed_txid
             (Cases.rejecting answer) (Cases.rejected_info answer)
             (node Cases.unreachable) answer);
    [vm_compute; reflexivity | reflexivity | reflexivity | reflexivity
    | discriminate].
Defined.

Lemma verifyAlgorandPayment_configured_networks_only_witness :
  let r := with_network Sim.requirements "algorand-localnet" in
  let w := Sim.world 1000 [] in
  exists v,
    verifyAlgorandPayment Sim.signed_payload r w = (Ok v, w) /\
    isValid v = false.
Proof.
  intros r w.
  apply (verifyAlgorandPayment_configured_networks_only
           Sim.signed_payload r w); discriminate.
Defined.

Lemma verifyAlgorandPayment_reads_witness :
  fst (verifyAlgorandPayment Cases.mislabelled Cases.redescribed
         (Sim.world 1000 []))
    = Ok (valid "PAYER").
Proof.
  rewrite (verifyAlgorandPayment_reads Cases.mislabelled Sim.signed_payload
             Cases.redescribed Sim.requirements (Sim.world 1000 [])
             eq_refl eq_refl eq_refl eq_refl eq_refl).
  vm_compute. reflexivity.
Defined.

Lemma verifyAlgorandPayment_never_expires_witness :
  let w := Sim.world 999999999 [] in
  verifyAlgorandPayment Cases.open_ended Sim.requirements w
    = (Ok (valid "PAYER"), after w (node w) (CallStatus Sim.testnet)).
Proof.
  intros w.
  eapply (verifyAlgorandPayment_never_expires
            Cases.open_ended Sim.requirements (Sim.world 1000 [])
            (valid "PAYER")
            (after (Sim.world 1000 []) (node (Sim.world 1000 []))
               (CallStatus Sim.testnet)));
    vm_compute; reflexivity.
Defined.

Lemma verifyAlgorandPayment_sound_witness :
  exists txn,
    decodeSignedTransaction
      (Buffer_from_base64 (signature (payload Sim.signed_payload))) = Ok txn /\
    receiver_address txn (Ok "") = Ok "MERCHANT" /\
    txn_amount_string txn = "10000".
Proof.
  destruct (verifyAlgorandPayment_sound Sim.signed_payload Sim.requirements
              (Sim.world 1000 []) (valid "PAYER")
              (after (Sim.world 1000 []) (node (Sim.world 1000 []))
                 (CallStatus Sim.testnet)))
    as (txn & who & client & Hdec & _ & _ & _ & Hto & Hamount & _).
  - vm_compute. reflexivity.
  - reflexivity.
  - exists txn. split; [exact Hdec |]. split; [exact Hto | exact Hamount].
Defined.

Lemma verifyAlgorandPayment_rejects_bigint_asset_witness :
  let r := with_asset Sim.requirements Cases.big_index in
  let w := Sim.world 1000 [] in
  isValid
    (invalid (Some "PAYER")
       "Asset ID mismatch: expected 9007199254740992, got 9007199254740993")
    = false /\
  verifyAlgorandPayment Cases.big_asset r w
    = (Ok (invalid (Some "PAYER")
             "Asset ID mismatch: expected 9007199254740992, got 9007199254740993"),
       w).
Proof.
  intros r w.
  assert (H : verifyAlgorandPayment Cases.big_asset r w
              = (Ok (invalid (Some "PAYER")
                       "Asset ID mismatch: expected 9007199254740992, got 9007199254740993"),
                 w)).
  { vm_compute. reflexivity. }
  split; [| exact H].
  eapply (verifyAlgorandPayment_rejects_bigint_asset Cases.big_asset r w);
    [exact H | vm_compute; reflexivity | vm_compute; reflexivity].
Defined.

Lemma settleAlgorandPayment_submissions_witness :
  let w := Sim.world 1000 [] in
  submitted (calls (snd (settleAlgorandPayment Sim.signed_payload
                           Sim.requirements w)))
    = [Sim.bytes_of "PAYER|MERCHANT|10000|10458941|2000"].
Proof.
  intros w.
  destruct (settleAlgorandPayment_submissions Sim.signed_payload
              Sim.requirements w Cases.settled
              (snd (settleAlgorandPayment Sim.signed_payload
                      Sim.requirements w)))
    as [[_ Hfailed] | Hsent].
  - vm_compute. reflexivity.
  - discriminate Hfailed.
  - exact Hsent.
Defined.

Lemma settleAlgorandPayment_bounded_wait_witness :
  let w := Sim.world 1000 [] in
  exists trace,
    calls (snd (settleAlgorandPayment Sim.signed_payload Sim.requirements w))
      = trace /\
    (polls trace
     <= Z.to_nat (secondsToRounds (maxTimeoutSeconds Sim.requirements)))%nat.
Proof.
  intros w.
  destruct (settleAlgorandPayment_bounded_wait Sim.signed_payload
              Sim.requirements w Cases.settled
              (snd (settleAlgorandPayment Sim.signed_payload
                      Sim.requirements w)))
    as (trace & Hcalls & Hpolls).
  - vm_compute. reflexivity.
  - exists trace. split; [exact Hcalls | exact Hpolls].
Defined.

Lemma settleAlgorandPayment_success_witness :
  let w := Sim.world 1000 [] in
  exists v wv,
    verifyAlgorandPayment Sim.signed_payload Sim.requirements w = (Ok v, wv) /\
    isValid v = true /\
    payer v = Some "PAYER".
Proof.
  intros w.
  destruct (settleAlgorandPayment_success Sim.signed_payload
              Sim.requirements w Cases.settled
              (snd (settleAlgorandPayment Sim.signed_payload
                      Sim.requirements w)))
    as (v & wv & txId & w2 & info & round & Hver & Hvalid & Hpayer & _).
  - vm_compute. reflexivity.
  - reflexivity.
  - exists v, wv. split; [exact Hver |]. split; [exact Hvalid |].
    symmetry. exact Hpayer.
Defined.

Lemma processAlgorandPayment_ceiling_misses_radix_prefix_witness :
  signature_of
    (processAlgorandPayment Cases.octal_requirements Sim.account
       (Some (JS.Number_of_Z 5)) (Sim.world 1000 []))
    = Some "PAYER|MERCHANT|10000|10458941|2000".
Proof.
  rewrite (processAlgorandPayment_ceiling_misses_radix_prefix
             Cases.octal_requirements Sim.account (JS.Number_of_Z 5)
             (Sim.world 1000 []) eq_refl eq_refl).
  vm_compute. reflexivity.
Defined.

Lemma processAlgorandPayment_ceiling_decimal_witness :
  exists z,
    BigInt (maxAmountRequired Sim.requirements) = Ok z /\
    0 <= z /\
    (exceeds_max Sim.requirements (Some (JS.Number_of_Z 5)) = None
     <-> JS.gt (JS.Number_of_Z z) (JS.Number_of_Z 5) = false).
Proof.
  apply (processAlgorandPayment_ceiling_decimal Sim.requirements
           (JS.Number_of_Z 5)); [discriminate | reflexivity].
Defined.

Lemma processAlgorandPayment_effects_witness :
  let w := Sim.world 1000 [] in
  let run := processAlgorandPayment Sim.requirements Sim.account None w in
  submitted (calls (snd run)) = [] /\
  calls (snd run) = [CallGetTransactionParams Sim.testnet].
Proof.
  intros w run.
  destruct (processAlgorandPayment_effects Sim.requirements Sim.account None
              w (fst run) (snd run))
    as (Hworld & Hsubmitted & _).
  - vm_compute. reflexivity.
  - split; [exact Hsubmitted |]. vm_compute. reflexivity.
Defined.

Lemma ensureOptIn_outcome_witness :
  let w := Sim.world 1000 [] in
  ensureOptIn Sim.wallet (S754_zero false) w = (Ok true, w).
Proof.
  intros w.
  destruct (ensureOptIn_outcome Sim.wallet (S754_zero false) w)
    as (b & w1 & E & _ & _ & Hzero).
  destruct (Hzero eq_refl) as [Hb Hw]. rewrite Hb, Hw in E. exact E.
Defined.

Lemma signPayment_submissions_witness :
  let w := Sim.world 1000 [] in
  let run := signPayment Sim.wallet [Sim.requirements] w in
  submitted (calls (snd run)) = [] \/
  exists paymentOption rest envelope,
    [Sim.requirements] = paymentOption :: rest /\
    is_opt_in Sim.wallet (JS.parseInt (asset paymentOption)) envelope /\
    submitted (calls (snd run)) = [envelope].
Proof.
  intros w run.
  exact (proj1 (signPayment_submissions Sim.wallet [Sim.requirements] w
                  (fst run) (snd run) (surjective_pairing run))).
Defined.

Lemma isOptedIntoASA_facilitator_and_wallet_witness :
  isOptedIntoASA Sim.wallet (S754_zero false) Cases.unreachable
    = (Ok true, Cases.unreachable) /\
  fst (Facilitator.isOptedIntoASA "algorand-testnet" "PAYER"
         (S754_zero false) Cases.unreachable) <> Ok true.
Proof.
  destruct (isOptedIntoASA_facilitator_and_wallet Sim.wallet
              (S754_zero false) Cases.unreachable) as [_ H].
  destruct (H eq_refl) as [Hwallet Hfacilitator].
  split; [exact Hwallet |].
  intros Htrue. apply Hfacilitator in Htrue.
  destruct Htrue as (client & info & n & _ & Hinfo).
  discriminate Hinfo.
Defined.

Lemma submitAlgorandPayment_and_settler_witness :
  let message :=
    "TransactionPool.Remember: transaction already in ledger: "
      ++ Sim.signed_txid in
  fst (Facilitator.submitAlgorandPayment "algorand-testnet"
         (payload Sim.signed_payload) Sim.settled_world)
    = Throw ("Failed to submit Algorand transaction: " ++ message) /\
  fst (submit Sim.testnet (payload Sim.signed_payload) Sim.settled_world)
    = Ok Sim.signed_txid.
Proof.
  intros message.
  assert (Hsend : node_sendRawTransaction Sim.testnet
                    (Buffer_from_base64
                       (signature (payload Sim.signed_payload)))
                    (node Sim.settled_world)
                  = (Throw message, node Sim.settled_world)).
  { vm_compute. reflexivity. }
  destruct (submitAlgorandPayment_and_settler "algorand-testnet"
              (payload Sim.signed_payload) Sim.settled_world Sim.testnet
              (Throw message) (node Sim.settled_world) eq_refl Hsend)
    as [Hsubmit Hsettler].
  rewrite Hsubmit, Hsettler. split; reflexivity.
Defined.

Lemma createPaymentRequirements_algorand_money_unpayable_witness :
  let options := options_for (PriceString "$0.01") (Some "algorand-testnet") in
  let v := invalid (Some "PAYER")
             "Asset ID mismatch: expected 1.9551945435078646e+46, got 10458941" in
  createPaymentRequirements options = Ok Cases.built /\
  verifyAlgorandPayment Sim.signed_payload Cases.built (Sim.world 1000 [])
    = (Ok v, Sim.world 1000 []) /\
  isValid v = false.
Proof.
  intros options v.
  assert (Hbuilt : createPaymentRequirements options = Ok Cases.built).
  { vm_compute. reflexivity. }
  assert (Hver : verifyAlgorandPayment Sim.signed_payload Cases.built
                   (Sim.world 1000 [])
                 = (Ok v, Sim.world 1000 [])).
  { vm_compute. reflexivity. }
  split; [exact Hbuilt |]. split; [exact Hver |].
  eapply (createPaymentRequirements_algorand_money_unpayable
            options "algorand-testnet" (JS.parseFloat "0.01") Cases.built
            Sim.signed_payload (Sim.world 1000 []) v (Sim.world 1000 [])
            _ (JS.Number_of_Z 10458941) 10458941);
    [reflexivity | reflexivity | reflexivity | exact Hbuilt
    | vm_compute; reflexivity | vm_compute; reflexivity
    | vm_compute; reflexivity | vm_compute; reflexivity | exact Hver].
Defined.

Lemma secondsToRounds_exact_witness :
  secondsToRounds 600 = (2 * 600 + 8) / 9.
Proof. apply secondsToRounds_exact. lia. Defined.

Lemma verifyAlgorandPayment_reads_authorization_witness :
  fst (verifyAlgorandPayment Cases.other_sender Sim.requirements
         (Sim.world 1000 []))
    = Ok (valid "PAYER").
Proof.
  rewrite (verifyAlgorandPayment_reads_authorization
             Cases.other_sender Sim.signed_payload Sim.requirements
             (Sim.world 1000 []) _ _ eq_refl eq_refl eq_refl eq_refl eq_refl
             eq_refl).
  vm_compute. reflexivity.
Defined.

Lemma signPayment_then_verify_witness :
  let w0 := Sim.world_holding 1000 10458941 in
  let w1 := after w0 (node w0) (CallAccountInformation Sim.testnet "PAYER") in
  let w := Sim.world 1100 [] in
  exists pp,
    signPayment Sim.wallet [Sim.requirements] w0
      = (Ok pp, after w1 (node w0) (CallGetTransactionParams Sim.testnet)) /\
    verifyAlgorandPayment pp Sim.requirements w
      = (Ok (valid "PAYER"), after w (node w) (CallStatus Sim.testnet)).
Proof.
  intros w0 w1 w.
  eapply (signPayment_then_verify Sim.wallet Sim.requirements [] w0 w1
            Sim.testnet);
    try (vm_compute; reflexivity).
  repeat split; intros; vm_compute; reflexivity.
Defined.

Lemma resolveAlgorandAddress_sound_witness :
  NFD.isValidAlgorandAddress (NFD.JStr NFD.Sim.merchant_address) = true.
Proof.
  refine (proj1 (resolveAlgorandAddress_sound "shop.algo"
                   (Some "algorand-testnet") NFD.Sim.web
                   (NFD.JStr NFD.Sim.merchant_address)
                   (snd (NFD.resolveAlgorandAddress "shop.algo"
                           (Some "algorand-testnet") NFD.Sim.web)) _)).
  vm_compute. reflexivity.
Defined.

Lemma resolveAlgorandAddress_errors_witness :
  let message :=
    "Failed to resolve NFD " ++ NFD.dquote ++ "nobody.algo" ++ NFD.dquote
      ++ ": fetch failed" in
  fst (NFD.resolveAlgorandAddress "nobody.algo" None NFD.Sim.web)
    = Throw message /\
  JS.includes message "NFD" = true.
Proof.
  intros message.
  split; [vm_compute; reflexivity |].
  apply (resolveAlgorandAddress_errors "nobody.algo" None NFD.Sim.web message
           (snd (NFD.resolveAlgorandAddress "nobody.algo" None NFD.Sim.web))).
  vm_compute. reflexivity.
Defined.

Lemma getNFDInfo_of_resolved_witness :
  exists data,
    fst (NFD.getNFDInfo "shop.algo" (Some "algorand-testnet") NFD.Sim.web)
      = Ok data /\
    NFD.member data "depositAccount"
      = Ok (Some (NFD.JStr NFD.Sim.merchant_address)).
Proof.
  destruct (getNFDInfo_of_resolved "shop.algo" (Some "algorand-testnet")
              NFD.Sim.web (NFD.JStr NFD.Sim.merchant_address)
              (snd (NFD.resolveNFD "shop.algo" (Some "algorand-testnet")
                      NFD.Sim.web)))
    as (data & Hinfo & _ & Haddress).
  - vm_compute. reflexivity.
  - exists data. rewrite Hinfo. split; [reflexivity | exact Haddress].
Defined.

Lemma reverseResolveNFD_outcome_witness :
  NFD.truthy (Some (NFD.JStr "shop.algo")) = true /\
  fst (NFD.reverseResolveNFD "shop.algo" (Some "algorand-testnet")
         NFD.Sim.web)
    = Throw "Invalid Algorand address: shop.algo".
Proof.
  assert (Hrun : NFD.reverseResolveNFD NFD.Sim.merchant_address
                   (Some "algorand-testnet") NFD.Sim.web
                 = (Ok (Some (NFD.JStr "shop.algo")),
                    snd (NFD.reverseResolveNFD NFD.Sim.merchant_address
                           (Some "algorand-testnet") NFD.Sim.web))).
  { vm_compute. reflexivity. }
  pose proof (reverseResolveNFD_outcome NFD.Sim.merchant_address
                (Some "algorand-testnet") NFD.Sim.web _ _ Hrun)
    as (_ & Htruthy & _).
  split; [exact Htruthy |]. vm_compute. reflexivity.
Defined.
